(** * Build freshness and deployment caching of the Jest globals

    A shallow embedding of [src/modules/jest/globals.ts]: the functions
    [_setSigner], [handleOutdatedBuildfile], [validateContract] and
    [deployContract], with the module-level variables and the Jest global
    object as an explicit state, the collaborators ([bundle], [compile],
    the Taquito client, [JSON.parse], [process.env]) as an interface, and
    every collaborator call recorded in a trace; and the helper
    [toBytes] over strings as sequences of code units. *)

From stdpp Require Import gmap strings list.
From Stdlib Require Import FunInd.

(** ** Strings of the error messages *)

(** The double quote, the line feed and the tab of the template literals. *)
Definition dq : string := String (Ascii.Ascii false true false false false true false false) EmptyString.
Definition nl : string := String (Ascii.Ascii false true false true false false false false) EmptyString.
Definition tab : string := String (Ascii.Ascii true false false true false false false false) EmptyString.

(** [s.startsWith(p)] *)
Fixpoint startsWith (p s : string) : bool :=
  match p, s with
  | EmptyString, _ => true
  | String a p', String b s' => if decide (a = b) then startsWith p' s' else false
  | String _ _, EmptyString => false
  end.

(** [s.includes(t)] *)
Fixpoint includes (t s : string) : bool :=
  startsWith t s ||
  match s with
  | EmptyString => false
  | String _ s' => includes t s'
  end.

(** [parts.join(sep)] *)
Fixpoint join (sep : string) (parts : list string) : string :=
  match parts with
  | [] => ""
  | [p] => p
  | p :: rest => p +:+ sep +:+ join sep rest
  end.

(** ** JavaScript errors *)

Record JsError := mkError { err_name : string; err_message : string }.

(** [new Error(msg)] *)
Definition Error (msg : string) : JsError := mkError "Error" msg.

(** [`${err}`], that is [Error.prototype.toString]. *)
Definition err_toString (e : JsError) : string :=
  match err_name e, err_message e with
  | EmptyString, m => m
  | n, EmptyString => n
  | n, m => n +:+ ": " +:+ m
  end.

Inductive Res (A : Type) : Type :=
| Ok (a : A)
| Throw (e : JsError).
Arguments Ok {A} a.
Arguments Throw {A} e.

(** ** Data of the bundle and of the signer *)

(** The build file as [validateContract] uses it ([sourcePath],
    [michelson]) and as the specification describes it ([hash]); its
    declaration sits in the bundle module. *)
Record BuildFile := mkBuildFile {
  build_sourcePath : string;
  build_hash : string;
  build_michelson : string
}.

(** The value of [bundle.isBuildValid]: [true] or one of the three
    [BuildErrorCodes] the [switch] of [validateContract] names. *)
Inductive BuildCheck :=
| BuildValid
| MICHELSON_MISSING
| INVALID_HASH
| INVALID_SOURCE_PATH.

Record Config := mkConfig { autoCompile : bool }.

(** The faucet fields [_setSigner] passes to [importKey]. *)
Record Faucet := mkFaucet {
  email : string;
  password : string;
  mnemonic : list string;
  activation_code : string
}.

(** [TezosSigner]: a faucet account or a secret key.  The type guard
    [isFaucet] of the source is the [match] on this union. *)
Inductive TezosSigner :=
| FaucetSigner (f : Faucet)
| KeySigner (secretKey : string).

(** ** Collaborators

    What [globals.ts] imports and calls.  The types first: the world
    outside the process, the storage of a contract ([any]), the code of
    a contract, a contract handle and an origination operation.  The
    code is declared [Record<string, unknown>[]]; [Code] holds every
    truthy value a payload can denote, the arrays among them: the module
    stores such a value, returns it and hands it to the origination
    without looking inside. *)
Class Types := {
  World : Type;
  Storage : Type;
  Code : Type;
  Handle : Type;
  Operation : Type
}.

Section Values.

Context `{T : Types}.

(** The falsy values [JSON.parse] can return besides [false]: [null],
    [0], [-0] and the empty string. *)
Inductive Falsy :=
| JNull
| JZero
| JNegZero
| JEmptyString.

(** A value of [JSON.parse], and so an entry of [_checkedContracts]:
    [false] (which is also the sentinel of line 76), a truthy value, or
    another falsy value. *)
Inductive Checked :=
| CFalse
| CCode (code : Code)
| CFalsy (v : Falsy).

End Values.

(** The outcome of [importKey(Tezos, ...)]: it resolves, and then the
    signer of the faucet account is the signer of the client it was
    given; or it rejects, and its code, which is not in this repository,
    decides whether the signer was installed before the step that
    failed. *)
Inductive Imported :=
| ImportOk
| ImportFailed (err : JsError) (signer_installed : bool).

(** The calls.  Synchronous helpers of the bundle that only compute are
    functions; those that look at the disk read the world; the
    asynchronous ones that act (the compiler, the key import, the
    network) also change it.  [JSON_parse] returns whatever value the
    payload denotes, or throws; [InMemorySigner_new] is the constructor
    [new InMemorySigner(key)], which throws on a key it cannot read. *)
Class Collaborators `{T : Types} := {
  process_env_USE_OLD_BUILD : World -> option string;
  bundle_getContractFile : string -> string;
  bundle_exists : string -> World -> bool;
  bundle_buildFileExists : string -> World -> bool;
  bundle_readContract : string -> World -> JsError + string;
  bundle_generateHash : string -> string;
  bundle_readBuildFile : string -> World -> JsError + BuildFile;
  bundle_isBuildValid : string -> string -> BuildFile -> BuildCheck;
  bundle_readConfigFile : World -> JsError + Config;
  compile : string -> World -> (JsError + unit) * World;
  JSON_parse : string -> JsError + Checked;
  importKey : string -> string -> string -> string -> World -> Imported * World;
  InMemorySigner_new : string -> JsError + unit;
  Tezos_contract_at : string -> World -> (JsError + Handle) * World;
  Tezos_contract_originate : Code -> Storage -> World -> (JsError + Operation) * World;
  op_contract : Operation -> World -> (JsError + Handle) * World
}.

Section Globals.

Context `{T : Types}.

(** Truthiness of an entry: an array is truthy, also the empty one;
    [false], [null], [0], [-0], the empty string and [undefined] are
    not. *)
Definition truthy (v : option Checked) : bool :=
  match v with
  | Some (CCode _) => true
  | Some CFalse => false
  | Some (CFalsy _) => false
  | None => false
  end.

(** Truthiness of a string entry: the empty string is falsy. *)
Definition truthy_str (v : option string) : bool :=
  match v with
  | Some EmptyString => false
  | Some (String _ _) => true
  | None => false
  end.

(** The collaborator calls, in the order they are made.  [ESetProvider]
    is the statement of lines 33-35: the construction of the in-memory
    signer and, when that returns, [Tezos.setProvider] with it. *)
Inductive Event :=
| EGetContractFile (contractName : string)
| EExists (path : string)
| EBuildFileExists (contractName : string)
| EReadContract (contractName : string)
| EGenerateHash (contract : string)
| EReadBuildFile (contractName : string)
| EIsBuildValid (path hash : string) (buildFile : BuildFile)
| EEnvUseOldBuild
| EReadConfigFile
| ECompile (contractName : string)
| EJSONParse (payload : string)
| EImportKey (email password mnemonic activation_code : string)
| ESetProvider (signer : TezosSigner)
| EContractAt (address : string)
| EOriginate (code : Code) (storage : Storage)
| EOpContract (op : Operation).

(** ** State

    The fields of [jestGlobal] the module reads or writes, the module's
    [let] variables, the signer the [Tezos] client holds, the outside
    world and the trace. *)
Record St := mkSt {
  _checkedContracts : option (gmap string Checked);
  tezosDeployedContracts : option (gmap string string);
  tezosDefaultSigner : TezosSigner;
  isSignerSet : bool;
  config : option Config;
  Tezos_signer : option TezosSigner;
  world : World;
  trace : list Event
}.

Definition set_checkedContracts (v : option (gmap string Checked)) (s : St) : St :=
  mkSt v (tezosDeployedContracts s) (tezosDefaultSigner s) (isSignerSet s)
       (config s) (Tezos_signer s) (world s) (trace s).

Definition set_isSignerSet (v : bool) (s : St) : St :=
  mkSt (_checkedContracts s) (tezosDeployedContracts s) (tezosDefaultSigner s) v
       (config s) (Tezos_signer s) (world s) (trace s).

Definition set_config (v : option Config) (s : St) : St :=
  mkSt (_checkedContracts s) (tezosDeployedContracts s) (tezosDefaultSigner s)
       (isSignerSet s) v (Tezos_signer s) (world s) (trace s).

Definition set_Tezos_signer (v : option TezosSigner) (s : St) : St :=
  mkSt (_checkedContracts s) (tezosDeployedContracts s) (tezosDefaultSigner s)
       (isSignerSet s) (config s) v (world s) (trace s).

Definition set_world (v : World) (s : St) : St :=
  mkSt (_checkedContracts s) (tezosDeployedContracts s) (tezosDefaultSigner s)
       (isSignerSet s) (config s) (Tezos_signer s) v (trace s).

Definition set_trace (v : list Event) (s : St) : St :=
  mkSt (_checkedContracts s) (tezosDeployedContracts s) (tezosDefaultSigner s)
       (isSignerSet s) (config s) (Tezos_signer s) (world s) v.

(** ** The monad of the async functions: state and exceptions *)

Definition M (A : Type) : Type := St -> Res A * St.

Definition ret {A} (a : A) : M A := fun s => (Ok a, s).

Definition bind {A B} (m : M A) (k : A -> M B) : M B :=
  fun s =>
    match m s with
    | (Ok a, s') => k a s'
    | (Throw e, s') => (Throw e, s')
    end.

Definition throw {A} (e : JsError) : M A := fun s => (Throw e, s).

(** [try { m } catch (err) { throw h(err) }] *)
Definition try_catch {A} (m : M A) (h : JsError -> JsError) : M A :=
  fun s =>
    match m s with
    | (Ok a, s') => (Ok a, s')
    | (Throw e, s') => (Throw (h e), s')
    end.

(** A call of an async function whose promise is dropped (line 142): a
    rejection reaches nobody.  The callee is run to its end here; where
    [deployContract] makes such a call the callee returns at its first
    line, before any [await] (lemma [deploy_fresh_steps]). *)
Definition detached {A} (m : M A) : M unit :=
  fun s => (Ok tt, snd (m s)).

Definition get : M St := fun s => (Ok s, s).
Definition modify (f : St -> St) : M unit := fun s => (Ok tt, f s).
Definition emit (e : Event) : M unit := modify (fun s => set_trace (trace s ++ [e]) s).

(** A collaborator that computes. *)
Definition call {A} (e : Event) (v : A) : M A :=
  bind (emit e) (fun _ => ret v).

(** A collaborator that reads the world. *)
Definition call_read {A} (e : Event) (f : World -> A) : M A :=
  bind (emit e) (fun _ s => (Ok (f (world s)), s)).

(** A collaborator that reads the world and may reject. *)
Definition await_read {A} (e : Event) (f : World -> JsError + A) : M A :=
  bind (emit e) (fun _ s =>
    match f (world s) with
    | inr a => (Ok a, s)
    | inl err => (Throw err, s)
    end).

(** A collaborator that acts on the world and answers. *)
Definition call_io {A} (e : Event) (f : World -> A * World) : M A :=
  bind (emit e) (fun _ s => (Ok (fst (f (world s))), set_world (snd (f (world s))) s)).

(** A collaborator that acts on the world and may reject. *)
Definition await_io {A} (e : Event) (f : World -> (JsError + A) * World) : M A :=
  bind (emit e) (fun _ s =>
    match f (world s) with
    | (inr a, w) => (Ok a, set_world w s)
    | (inl err, w) => (Throw err, set_world w s)
    end).

End Globals.

Declare Scope js_scope.
Notation "x <- m ;; k" := (bind m (fun x => k))
  (at level 100, m at next level, right associativity) : js_scope.
Notation "m ;;; k" := (bind m (fun _ => k))
  (at level 100, right associativity) : js_scope.
Open Scope js_scope.

Section Functions.

Context `{C : Collaborators}.

(** A synchronous call that may throw. *)
Definition call_try {A} (e : Event) (r : JsError + A) : M A :=
  emit e ;;;
  match r with
  | inr a => ret a
  | inl err => throw err
  end.

(** [jestGlobal._checkedContracts[contractName]] *)
Definition read_checked (contractName : string) : M (option Checked) :=
  fun s =>
    match _checkedContracts s with
    | Some m => (Ok (m !! contractName), s)
    | None => (Throw (mkError "TypeError" "Cannot read properties of undefined"), s)
    end.

(** [jestGlobal._checkedContracts[contractName] = v] *)
Definition write_checked (contractName : string) (v : Checked) : M unit :=
  fun s =>
    match _checkedContracts s with
    | Some m => (Ok tt, set_checkedContracts (Some (<[contractName := v]> m)) s)
    | None => (Throw (mkError "TypeError" "Cannot set properties of undefined"), s)
    end.

(** ** The messages of the [throw] statements *)

Definition msg_outdated (contractName : string) : string :=
  "ERROR: It seems the contract " +:+ dq +:+ contractName +:+ dq +:+
  " has been edited since last compilation." +:+ nl +:+
  "You can turn on " +:+ dq +:+ "autoCompile" +:+ dq +:+
  " in config.json, compile it manually or ask the tests to be run on old version passing --old-build to the test command.".

Definition msg_doesnt_exist (contractName : string) : string :=
  "ERROR: Specified contract " +:+ dq +:+ contractName +:+ dq +:+ " doesn't exist.".

Definition msg_never_compiled (contractName : string) : string :=
  "ERROR: Specified contract " +:+ dq +:+ contractName +:+ dq +:+
  " has never been compiled.".

Definition msg_michelson_missing (contractName : string) : string :=
  "ERROR: Invalid contract " +:+ dq +:+ contractName +:+ dq +:+
  ", Michelson code is missing!".

Definition msg_different_source (contractName buildSourcePath : string) : string :=
  "ERROR: The compiled version for " +:+ dq +:+ contractName +:+ dq +:+
  " was compiled from a different source path " +:+ dq +:+ buildSourcePath +:+ dq +:+ "!".

Definition msg_parse (contractName : string) (err : JsError) : string :=
  "ERROR: Failed to parse JSON-Michelson for contract " +:+ contractName +:+
  ", given error was: " +:+ err_toString err.

Definition msg_access (contractName contractAddress : string) (err : JsError) : string :=
  "ERROR while accessing contract " +:+ dq +:+ contractName +:+ dq +:+ " at " +:+
  dq +:+ contractAddress +:+ dq +:+ ":" +:+ nl +:+ nl +:+ tab +:+ err_message err +:+ ".".

Definition msg_unable (contractName : string) : string :=
  "Unable to process contract " +:+ contractName +:+ ", deploy failed.".

Definition msg_deploy (contractName : string) (err : JsError) : string :=
  "ERROR while deploying contract " +:+ contractName +:+ ":" +:+ nl +:+ nl +:+ tab +:+
  err_message err +:+ "." +:+ nl +:+ nl +:+
  "Please review test's storage configuration and make sure it matches contract's expected values.".

(** ** The functions of [globals.ts] *)

(** [_setSigner], lines 25-39: nothing once [isSignerSet] holds;
    otherwise the key import, which leaves the faucet's signer in the
    client when it resolves and may have left it there when it rejects,
    or the construction of the in-memory signer, which may throw, and
    [Tezos.setProvider] with it (taken to return); and then the flag. *)
Definition _setSigner (signer : TezosSigner) : M unit :=
  s <- get ;;
  if isSignerSet s then ret tt
  else
    match signer with
    | FaucetSigner f =>
        r <- call_io
               (EImportKey (email f) (password f) (join " " (mnemonic f)) (activation_code f))
               (importKey (email f) (password f) (join " " (mnemonic f)) (activation_code f)) ;;
        match r with
        | ImportOk => modify (set_Tezos_signer (Some signer))
        | ImportFailed err signer_installed =>
            (if signer_installed then modify (set_Tezos_signer (Some signer)) else ret tt) ;;;
            throw err
        end
    | KeySigner secretKey =>
        call_try (ESetProvider signer) (InMemorySigner_new secretKey) ;;;
        modify (set_Tezos_signer (Some signer))
    end ;;;
    modify (set_isSignerSet true).

(** [handleOutdatedBuildfile], lines 44-63. *)
Definition handleOutdatedBuildfile (contractName : string) : M unit :=
  USE_OLD_BUILD <- call_read EEnvUseOldBuild process_env_USE_OLD_BUILD ;;
  if decide (USE_OLD_BUILD = Some "true") then ret tt
  else
    s <- get ;;
    cfg <- match config s with
           | Some c => ret c
           | None =>
               c <- await_read EReadConfigFile bundle_readConfigFile ;;
               modify (set_config (Some c)) ;;;
               ret c
           end ;;
    if negb (autoCompile cfg) then throw (Error (msg_outdated contractName))
    else await_io (ECompile contractName) (compile contractName).

(** [validateContract], lines 65-115.  The [match] on [cached] is the
    truthiness test of line 71: only code is truthy.  What is stored and
    returned at the end is the value of [JSON.parse], whatever it is. *)
Definition validateContract (contractName : string) : M Checked :=
  s <- get ;;
  match _checkedContracts s with
  | None => modify (set_checkedContracts (Some ∅))
  | Some _ => ret tt
  end ;;;
  cached <- read_checked contractName ;;
  match cached with
  | Some (CCode code) => ret (CCode code)
  | _ =>
    write_checked contractName CFalse ;;;
    sourcePath <- call (EGetContractFile contractName) (bundle_getContractFile contractName) ;;
    found <- call_read (EExists sourcePath) (bundle_exists sourcePath) ;;
    (if negb found then throw (Error (msg_doesnt_exist contractName)) else ret tt) ;;;
    built <- call_read (EBuildFileExists contractName) (bundle_buildFileExists contractName) ;;
    (if negb built then throw (Error (msg_never_compiled contractName)) else ret tt) ;;;
    contract <- await_read (EReadContract contractName) (bundle_readContract contractName) ;;
    hash <- call (EGenerateHash contract) (bundle_generateHash contract) ;;
    buildFile <- await_read (EReadBuildFile contractName) (bundle_readBuildFile contractName) ;;
    valid <- call (EIsBuildValid sourcePath hash buildFile)
                  (bundle_isBuildValid sourcePath hash buildFile) ;;
    match valid with
    | MICHELSON_MISSING => throw (Error (msg_michelson_missing contractName))
    | INVALID_HASH => handleOutdatedBuildfile contractName
    | INVALID_SOURCE_PATH =>
        throw (Error (msg_different_source contractName (build_sourcePath buildFile)))
    | BuildValid => ret tt
    end ;;;
    code <- try_catch
              (call_try (EJSONParse (build_michelson buildFile)) (JSON_parse (build_michelson buildFile)))
              (fun err => Error (msg_parse contractName err)) ;;
    write_checked contractName code ;;;
    ret code
  end.

(** [deployContract], lines 117-156; [signer] is [None] when the caller
    leaves the argument out, and the default is read at the call.  The
    first branch of the [match] is the truthiness test of line 121: a
    non-empty address.  The [match] on [code] is the test of line 137:
    every value but code is falsy. *)
Definition deployContract (contractName : string) (storage : Storage)
    (signer : option TezosSigner) : M Handle :=
  s0 <- get ;;
  let signer := default (tezosDefaultSigner s0) signer in
  _setSigner (tezosDefaultSigner s0) ;;;
  s <- get ;;
  match tezosDeployedContracts s ≫= (.!! contractName) with
  | Some (String _ _ as contractAddress) =>
      try_catch
        (await_io (EContractAt contractAddress) (Tezos_contract_at contractAddress))
        (fun err => Error (msg_access contractName contractAddress err))
  | _ =>
      await_read EReadConfigFile bundle_readConfigFile ;;;
      code <- validateContract contractName ;;
      match code with
      | CCode code =>
          detached (_setSigner signer) ;;;
          try_catch
            (op <- await_io (EOriginate code storage) (Tezos_contract_originate code storage) ;;
             await_io (EOpContract op) (op_contract op))
            (fun err => Error (msg_deploy contractName err))
      | CFalse | CFalsy _ => throw (Error (msg_unable contractName))
      end
  end.

(** ** The stages of [validateContract]

    The body of [validateContract] once more, cut where the statements
    below need to speak of an intermediate point.  The lemmas
    [validateContract_miss], [checks_classified] and [outdated_path_steps]
    show that the function is the composition of these stages. *)

(** Lines 104-114: parse the payload, store the code, return it. *)
Definition parse_and_store (contractName : string) (buildFile : BuildFile) : M Checked :=
  code <- try_catch
            (call_try (EJSONParse (build_michelson buildFile)) (JSON_parse (build_michelson buildFile)))
            (fun err => Error (msg_parse contractName err)) ;;
  write_checked contractName code ;;;
  ret code.

(** Lines 92-114: the [switch] on the validator's answer, then the parse. *)
Definition react (contractName : string) (buildFile : BuildFile) (valid : BuildCheck)
    : M Checked :=
  match valid with
  | MICHELSON_MISSING => throw (Error (msg_michelson_missing contractName))
  | INVALID_HASH => handleOutdatedBuildfile contractName
  | INVALID_SOURCE_PATH =>
      throw (Error (msg_different_source contractName (build_sourcePath buildFile)))
  | BuildValid => ret tt
  end ;;;
  parse_and_store contractName buildFile.

(** Lines 78-114: the checks, the reads, the classification, and on. *)
Definition checks (contractName : string) : M Checked :=
  sourcePath <- call (EGetContractFile contractName) (bundle_getContractFile contractName) ;;
  found <- call_read (EExists sourcePath) (bundle_exists sourcePath) ;;
  (if negb found then throw (Error (msg_doesnt_exist contractName)) else ret tt) ;;;
  built <- call_read (EBuildFileExists contractName) (bundle_buildFileExists contractName) ;;
  (if negb built then throw (Error (msg_never_compiled contractName)) else ret tt) ;;;
  contract <- await_read (EReadContract contractName) (bundle_readContract contractName) ;;
  hash <- call (EGenerateHash contract) (bundle_generateHash contract) ;;
  buildFile <- await_read (EReadBuildFile contractName) (bundle_readBuildFile contractName) ;;
  valid <- call (EIsBuildValid sourcePath hash buildFile)
                (bundle_isBuildValid sourcePath hash buildFile) ;;
  react contractName buildFile valid.

(** ** The stages of [deployContract]

    Cut in the same way; [deployContract_steps] shows the composition. *)

(** Lines 122-131: fetch the contract at the registered address. *)
Definition fetch_deployed (contractName contractAddress : string) : M Handle :=
  try_catch
    (await_io (EContractAt contractAddress) (Tezos_contract_at contractAddress))
    (fun err => Error (msg_access contractName contractAddress err)).

(** Lines 145-155: originate and wait for the contract. *)
Definition originate (contractName : string) (code : Code) (storage : Storage) : M Handle :=
  try_catch
    (op <- await_io (EOriginate code storage) (Tezos_contract_originate code storage) ;;
     await_io (EOpContract op) (op_contract op))
    (fun err => Error (msg_deploy contractName err)).

(** Lines 134-155: validate, set the signer, originate. *)
Definition deploy_fresh (contractName : string) (storage : Storage) (signer : TezosSigner)
    : M Handle :=
  await_read EReadConfigFile bundle_readConfigFile ;;;
  code <- validateContract contractName ;;
  match code with
  | CCode code =>
      detached (_setSigner signer) ;;;
      originate contractName code storage
  | CFalse | CFalsy _ => throw (Error (msg_unable contractName))
  end.

(** ** Vocabulary of the statements *)

(** [jestGlobal._checkedContracts?.[contractName]] *)
Definition checked_entry (contractName : string) (s : St) : option Checked :=
  _checkedContracts s ≫= (.!! contractName).

(** [jestGlobal.tezosDeployedContracts && jestGlobal.tezosDeployedContracts[contractName]] *)
Definition deployed_entry (contractName : string) (s : St) : option string :=
  tezosDeployedContracts s ≫= (.!! contractName).

Fixpoint count_events (p : Event -> bool) (t : list Event) : nat :=
  match t with
  | [] => 0
  | e :: t' => (if p e then 1 else 0) + count_events p t'
  end.

Definition is_compile (e : Event) : bool :=
  match e with ECompile _ => true | _ => false end.

Definition is_generateHash (e : Event) : bool :=
  match e with EGenerateHash _ => true | _ => false end.

Definition is_isBuildValid (e : Event) : bool :=
  match e with EIsBuildValid _ _ _ => true | _ => false end.

Definition is_readBuildFile (e : Event) : bool :=
  match e with EReadBuildFile _ => true | _ => false end.

Definition is_readConfigFile (e : Event) : bool :=
  match e with EReadConfigFile => true | _ => false end.

Definition is_envUseOldBuild (e : Event) : bool :=
  match e with EEnvUseOldBuild => true | _ => false end.

Definition is_contract_at (e : Event) : bool :=
  match e with EContractAt _ => true | _ => false end.

Definition is_originate (e : Event) : bool :=
  match e with EOriginate _ _ => true | _ => false end.

(** The calls [handleOutdatedBuildfile] makes. *)
Definition is_outdated_step (e : Event) : bool :=
  match e with
  | EEnvUseOldBuild | EReadConfigFile | ECompile _ => true
  | _ => false
  end.

(** The calls [_setSigner] makes. *)
Definition is_signer_step (e : Event) : bool :=
  match e with
  | EImportKey _ _ _ _ | ESetProvider _ => true
  | _ => false
  end.

(** The calls of an origination. *)
Definition is_origination_step (e : Event) : bool :=
  match e with
  | EOriginate _ _ | EOpContract _ => true
  | _ => false
  end.

(** The calls [validateContract] and [handleOutdatedBuildfile] make. *)
Definition is_validation (e : Event) : bool :=
  match e with
  | EGetContractFile _ | EExists _ | EBuildFileExists _ | EReadContract _
  | EGenerateHash _ | EReadBuildFile _ | EIsBuildValid _ _ _
  | EEnvUseOldBuild | EReadConfigFile | ECompile _ | EJSONParse _ => true
  | _ => false
  end.

(** The fields neither [validateContract] nor [handleOutdatedBuildfile]
    touches: the registry and what belongs to the signer. *)
Definition same_deployment (s s' : St) : Prop :=
  tezosDeployedContracts s' = tezosDeployedContracts s ∧
  tezosDefaultSigner s' = tezosDefaultSigner s ∧
  isSignerSet s' = isSignerSet s ∧
  Tezos_signer s' = Tezos_signer s.

(** In the world [w] both precondition checks pass, both reads succeed,
    and [bundle.isBuildValid] answers [valid]. *)
Definition reads_classified (contractName : string) (w : World)
    (contract : string) (buildFile : BuildFile) (valid : BuildCheck) : Prop :=
  bundle_exists (bundle_getContractFile contractName) w = true ∧
  bundle_buildFileExists contractName w = true ∧
  bundle_readContract contractName w = inr contract ∧
  bundle_readBuildFile contractName w = inr buildFile ∧
  bundle_isBuildValid (bundle_getContractFile contractName)
    (bundle_generateHash contract) buildFile = valid.

(** The call is not served from the cache and reaches the
    classification, which answers [valid]. *)
Definition classified (contractName : string) (s : St)
    (contract : string) (buildFile : BuildFile) (valid : BuildCheck) : Prop :=
  truthy (checked_entry contractName s) = false ∧
  reads_classified contractName (world s) contract buildFile valid.

(** The calls from the first check up to the classification. *)
Definition classification_events (contractName contract : string)
    (buildFile : BuildFile) : list Event :=
  [ EGetContractFile contractName;
    EExists (bundle_getContractFile contractName);
    EBuildFileExists contractName;
    EReadContract contractName;
    EGenerateHash contract;
    EReadBuildFile contractName;
    EIsBuildValid (bundle_getContractFile contractName)
      (bundle_generateHash contract) buildFile ].

(** What parsing the payload of [buildFile] makes of the call. *)
Definition parse_outcome (contractName : string) (buildFile : BuildFile) : Res Checked :=
  match JSON_parse (build_michelson buildFile) with
  | inr code => Ok code
  | inl err => Throw (Error (msg_parse contractName err))
  end.

(** The state with [false] stored for the contract (line 76) and the
    state with more calls in the trace. *)
Definition sentinel_written (contractName : string) (s : St) : St :=
  set_checkedContracts
    (Some (<[contractName := CFalse]> (default ∅ (_checkedContracts s)))) s.

Definition with_events (evs : list Event) (s : St) : St :=
  set_trace (trace s ++ evs) s.

(** The state after the parse: the code is stored, or, when the
    payload does not parse, nothing is. *)
Definition stored (contractName : string) (buildFile : BuildFile) (s : St) : St :=
  match JSON_parse (build_michelson buildFile), _checkedContracts s with
  | inr code, Some m => set_checkedContracts (Some (<[contractName := code]> m)) s
  | _, _ => s
  end.

(** The calls a test makes, and the state after a sequence of them,
    whatever they return. *)
Inductive Call :=
| CallValidate (contractName : string)
| CallDeploy (contractName : string) (storage : Storage) (signer : option TezosSigner).

Definition after_call (s : St) (c : Call) : St :=
  match c with
  | CallValidate contractName => snd (validateContract contractName s)
  | CallDeploy contractName storage signer =>
      snd (deployContract contractName storage signer s)
  end.

Definition after_calls (calls : list Call) (s : St) : St :=
  fold_left after_call calls s.

(** The configuration [handleOutdatedBuildfile] works with: the
    memoized one, or else the one it reads. *)
Definition loaded_config (s : St) : JsError + Config :=
  match config s with
  | Some c => inr c
  | None => bundle_readConfigFile (world s)
  end.

(** The reads of the configuration file that loading takes. *)
Definition config_events (s : St) : list Event :=
  match config s with
  | Some _ => []
  | None => [EReadConfigFile]
  end.

(** ** Kinds of calls *)

(** The collaborator an event is a call of, by number. *)
Definition event_kind (e : Event) : nat :=
  match e with
  | EGetContractFile _ => 0
  | EExists _ => 1
  | EBuildFileExists _ => 2
  | EReadContract _ => 3
  | EGenerateHash _ => 4
  | EReadBuildFile _ => 5
  | EIsBuildValid _ _ _ => 6
  | EEnvUseOldBuild => 7
  | EReadConfigFile => 8
  | ECompile _ => 9
  | EJSONParse _ => 10
  | EImportKey _ _ _ _ => 11
  | ESetProvider _ => 12
  | EContractAt _ => 13
  | EOriginate _ _ => 14
  | EOpContract _ => 15
  end.

Definition same_kind (e e' : Event) : bool := Nat.eqb (event_kind e) (event_kind e').

(** The contract a call of the bundle or of the compiler names. *)
Definition event_contract (e : Event) : option string :=
  match e with
  | EGetContractFile n | EBuildFileExists n | EReadContract n
  | EReadBuildFile n | ECompile n => Some n
  | _ => None
  end.

(** A run of [validateContract] call by call: no collaborator is called
    twice, the calls that name a contract name this one, and the world
    changes only when the compiler is called. *)
Definition tidy_run (contractName : string) (s s' : St) (evs : list Event) : Prop :=
  trace s' = trace s ++ evs ∧
  (∀ e, count_events (same_kind e) evs ≤ 1) ∧
  Forall (λ e, ∀ n, event_contract e = Some n → n = contractName) evs ∧
  (count_events is_compile evs = 0 → world s' = world s).

(** ** More on [_setSigner] and [deployContract] *)

(** The call [_setSigner] makes for a signer. *)
Definition signer_call (signer : TezosSigner) : Event :=
  match signer with
  | FaucetSigner f =>
      EImportKey (email f) (password f) (join " " (mnemonic f)) (activation_code f)
  | KeySigner _ => ESetProvider signer
  end.

(** The answer of that call: the key import resolves or rejects, and
    may change the world; the construction of the in-memory signer
    returns or throws. *)
Definition signer_answer (signer : TezosSigner) (w : World) : (JsError + unit) * World :=
  match signer with
  | FaucetSigner f =>
      let r := importKey (email f) (password f) (join " " (mnemonic f)) (activation_code f) w in
      (match fst r with
       | ImportOk => inr tt
       | ImportFailed err _ => inl err
       end,
       snd r)
  | KeySigner secretKey => (InMemorySigner_new secretKey, w)
  end.

(** Whether that call has left the signer in the client: it has when
    it succeeds; when the key import rejects, as the import says; not
    when the construction of the in-memory signer throws. *)
Definition signer_installed (signer : TezosSigner) (w : World) : bool :=
  match signer with
  | FaucetSigner f =>
      match fst (importKey (email f) (password f) (join " " (mnemonic f))
                   (activation_code f) w) with
      | ImportOk => true
      | ImportFailed _ signer_installed => signer_installed
      end
  | KeySigner secretKey =>
      match InMemorySigner_new secretKey with
      | inr _ => true
      | inl _ => false
      end
  end.

(** ** The runs, path by path

    One rule for each path through [handleOutdatedBuildfile] and through
    [validateContract], with the answers of the collaborators that select
    the path, the result and the final state.  The lemmas
    [handleOutdatedBuildfile_run] and [validateContract_run] show that
    these relations are the graphs of the two functions. *)

Inductive OutdatedRun (contractName : string) (s : St) : Res unit → St → Prop :=
| outdated_override :
    process_env_USE_OLD_BUILD (world s) = Some "true" →
    OutdatedRun contractName s (Ok tt) (with_events [EEnvUseOldBuild] s)
| outdated_config_unreadable (err : JsError) :
    process_env_USE_OLD_BUILD (world s) ≠ Some "true" →
    loaded_config s = inl err →
    OutdatedRun contractName s (Throw err)
      (with_events [EEnvUseOldBuild; EReadConfigFile] s)
| outdated_autoCompile_off (c : Config) :
    process_env_USE_OLD_BUILD (world s) ≠ Some "true" →
    loaded_config s = inr c → autoCompile c = false →
    OutdatedRun contractName s (Throw (Error (msg_outdated contractName)))
      (set_config (Some c) (with_events (EEnvUseOldBuild :: config_events s) s))
| outdated_compiled (c : Config) (w' : World) :
    process_env_USE_OLD_BUILD (world s) ≠ Some "true" →
    loaded_config s = inr c → autoCompile c = true →
    compile contractName (world s) = (inr tt, w') →
    OutdatedRun contractName s (Ok tt)
      (set_world w'
         (set_config (Some c)
            (with_events (EEnvUseOldBuild :: config_events s ++ [ECompile contractName]) s)))
| outdated_compile_failed (c : Config) (err : JsError) (w' : World) :
    process_env_USE_OLD_BUILD (world s) ≠ Some "true" →
    loaded_config s = inr c → autoCompile c = true →
    compile contractName (world s) = (inl err, w') →
    OutdatedRun contractName s (Throw err)
      (set_world w'
         (set_config (Some c)
            (with_events (EEnvUseOldBuild :: config_events s ++ [ECompile contractName]) s))).

Inductive ValidateRun (contractName : string) (s : St) : Res Checked → St → Prop :=
| run_cached (code : Code) :
    checked_entry contractName s = Some (CCode code) →
    ValidateRun contractName s (Ok (CCode code)) s
| run_no_source :
    truthy (checked_entry contractName s) = false →
    bundle_exists (bundle_getContractFile contractName) (world s) = false →
    ValidateRun contractName s (Throw (Error (msg_doesnt_exist contractName)))
      (with_events [EGetContractFile contractName;
                    EExists (bundle_getContractFile contractName)]
                   (sentinel_written contractName s))
| run_no_build :
    truthy (checked_entry contractName s) = false →
    bundle_exists (bundle_getContractFile contractName) (world s) = true →
    bundle_buildFileExists contractName (world s) = false →
    ValidateRun contractName s (Throw (Error (msg_never_compiled contractName)))
      (with_events [EGetContractFile contractName;
                    EExists (bundle_getContractFile contractName);
                    EBuildFileExists contractName]
                   (sentinel_written contractName s))
| run_source_unreadable (err : JsError) :
    truthy (checked_entry contractName s) = false →
    bundle_exists (bundle_getContractFile contractName) (world s) = true →
    bundle_buildFileExists contractName (world s) = true →
    bundle_readContract contractName (world s) = inl err →
    ValidateRun contractName s (Throw err)
      (with_events [EGetContractFile contractName;
                    EExists (bundle_getContractFile contractName);
                    EBuildFileExists contractName;
                    EReadContract contractName]
                   (sentinel_written contractName s))
| run_build_unreadable (contract : string) (err : JsError) :
    truthy (checked_entry contractName s) = false →
    bundle_exists (bundle_getContractFile contractName) (world s) = true →
    bundle_buildFileExists contractName (world s) = true →
    bundle_readContract contractName (world s) = inr contract →
    bundle_readBuildFile contractName (world s) = inl err →
    ValidateRun contractName s (Throw err)
      (with_events [EGetContractFile contractName;
                    EExists (bundle_getContractFile contractName);
                    EBuildFileExists contractName;
                    EReadContract contractName;
                    EGenerateHash contract;
                    EReadBuildFile contractName]
                   (sentinel_written contractName s))
| run_michelson_missing (contract : string) (buildFile : BuildFile) :
    classified contractName s contract buildFile MICHELSON_MISSING →
    ValidateRun contractName s (Throw (Error (msg_michelson_missing contractName)))
      (with_events (classification_events contractName contract buildFile)
                   (sentinel_written contractName s))
| run_invalid_source_path (contract : string) (buildFile : BuildFile) :
    classified contractName s contract buildFile INVALID_SOURCE_PATH →
    ValidateRun contractName s
      (Throw (Error (msg_different_source contractName (build_sourcePath buildFile))))
      (with_events (classification_events contractName contract buildFile)
                   (sentinel_written contractName s))
| run_valid (contract : string) (buildFile : BuildFile) :
    classified contractName s contract buildFile BuildValid →
    ValidateRun contractName s (parse_outcome contractName buildFile)
      (stored contractName buildFile
         (with_events (classification_events contractName contract buildFile
                         ++ [EJSONParse (build_michelson buildFile)])
                      (sentinel_written contractName s)))
| run_outdated_stops (contract : string) (buildFile : BuildFile) (err : JsError) (s2 : St) :
    classified contractName s contract buildFile INVALID_HASH →
    OutdatedRun contractName
      (with_events (classification_events contractName contract buildFile)
                   (sentinel_written contractName s))
      (Throw err) s2 →
    ValidateRun contractName s (Throw err) s2
| run_outdated_goes_on (contract : string) (buildFile : BuildFile) (s2 : St) :
    classified contractName s contract buildFile INVALID_HASH →
    OutdatedRun contractName
      (with_events (classification_events contractName contract buildFile)
                   (sentinel_written contractName s))
      (Ok tt) s2 →
    ValidateRun contractName s (parse_outcome contractName buildFile)
      (stored contractName buildFile
         (with_events [EJSONParse (build_michelson buildFile)] s2)).

End Functions.

Arguments msg_outdated : simpl never.
Arguments msg_doesnt_exist : simpl never.
Arguments msg_never_compiled : simpl never.
Arguments msg_michelson_missing : simpl never.
Arguments msg_different_source : simpl never.
Arguments msg_parse : simpl never.
Arguments msg_access : simpl never.
Arguments msg_unable : simpl never.
Arguments msg_deploy : simpl never.

(** ** [toBytes]

    [toBytes] (line 159) is [Buffer.from(str, 'utf8').toString('hex')].
    A JavaScript string is a sequence of UTF-16 code units, here
    integers below [0x10000].  [Buffer.from(str, 'utf8')] writes the code
    points of the string in UTF-8, a surrogate that is not part of a pair
    as U+FFFD; [buf.toString('hex')] writes every byte as two lowercase
    hexadecimal digits. *)

(** A string by its code units. *)
Definition JsString : Type := list Z.

(** The string of a literal. *)
Definition js_string (s : string) : JsString :=
  map (λ a, Z.of_N (Ascii.N_of_ascii a)) (String.list_ascii_of_string s).

Definition is_high_surrogate (u : Z) : bool := (0xD800 <=? u)%Z && (u <=? 0xDBFF)%Z.
Definition is_low_surrogate (u : Z) : bool := (0xDC00 <=? u)%Z && (u <=? 0xDFFF)%Z.

(** The code points a string is read as: a high surrogate followed by
    a low one is one code point, any other surrogate is U+FFFD. *)
Function code_points (str : JsString) : list Z :=
  match str with
  | [] => []
  | u :: rest =>
      if is_high_surrogate u then
        match rest with
        | v :: rest' =>
            if is_low_surrogate v
            then (0x10000 + (u - 0xD800) * 0x400 + (v - 0xDC00))%Z :: code_points rest'
            else 0xFFFD%Z :: code_points rest
        | [] => [0xFFFD%Z]
        end
      else if is_low_surrogate u then 0xFFFD%Z :: code_points rest
      else u :: code_points rest
  end.

(** The bytes of a code point in UTF-8. *)
Definition utf8 (cp : Z) : list Z :=
  if (cp <? 0x80)%Z then [cp]
  else if (cp <? 0x800)%Z then [0xC0 + cp / 0x40; 0x80 + cp mod 0x40]%Z
  else if (cp <? 0x10000)%Z then
    [0xE0 + cp / 0x1000; 0x80 + (cp / 0x40) mod 0x40; 0x80 + cp mod 0x40]%Z
  else
    [0xF0 + cp / 0x40000; 0x80 + (cp / 0x1000) mod 0x40;
     0x80 + (cp / 0x40) mod 0x40; 0x80 + cp mod 0x40]%Z.

(** [Buffer.from(str, 'utf8')] *)
Definition Buffer_from_utf8 (str : JsString) : list Z :=
  flat_map utf8 (code_points str).

(** The digits [0] to [9] and [a] to [f], by character code. *)
Definition hex_digit (n : Z) : Z := if (n <? 10)%Z then (48 + n)%Z else (87 + n)%Z.

Definition hex (b : Z) : JsString := [hex_digit (b / 16); hex_digit (b mod 16)].

(** [buf.toString('hex')] *)
Definition Buffer_toString_hex (buf : list Z) : JsString := flat_map hex buf.

(** [toBytes], line 159. *)
Definition toBytes (str : JsString) : JsString :=
  Buffer_toString_hex (Buffer_from_utf8 str).

(** Vocabulary: code units, hexadecimal digits, bytes, code points. *)
Definition is_code_unit (u : Z) : Prop := (0 ≤ u < 0x10000)%Z.
Definition is_hex_digit (c : Z) : Prop := (48 ≤ c ≤ 57 ∨ 97 ≤ c ≤ 102)%Z.
Definition is_byte (b : Z) : Prop := (0 ≤ b < 256)%Z.
Definition is_code_point (cp : Z) : Prop := (0 ≤ cp < 0x110000)%Z.

(** [str.isWellFormed()]: no surrogate outside a pair. *)
Fixpoint isWellFormed (str : JsString) : bool :=
  match str with
  | [] => true
  | u :: rest =>
      if is_high_surrogate u then
        match rest with
        | v :: rest' => is_low_surrogate v && isWellFormed rest'
        | [] => false
        end
      else negb (is_low_surrogate u) && isWellFormed rest
  end.

(** The cut between [a] and [b] separates a high surrogate from the
    low surrogate after it. *)
Definition splits_pair (a b : JsString) : bool :=
  match last a, head b with
  | Some u, Some v => is_high_surrogate u && is_low_surrogate v
  | _, _ => false
  end.

(** ** A concrete set of collaborators

    A small world to run the functions in: sources and build files by
    name, a configuration file, a compiler that rewrites the build file
    from the source, and a chain that knows some addresses. *)
Module Demo.

Record DemoWorld := mkWorld {
  env_USE_OLD_BUILD : option string;
  sources : gmap string string;
  builds : gmap string BuildFile;
  config_json : option Config;
  compiler_works : bool;
  chain : list string
}.

Definition getContractFile (contractName : string) : string :=
  "contracts/" +:+ contractName +:+ ".ligo".

Definition generateHash (contract : string) : string := "#" +:+ contract.

Definition ENOENT : JsError := mkError "Error" "ENOENT: no such file or directory".

Definition readContract (contractName : string) (w : DemoWorld) : JsError + string :=
  match sources w !! getContractFile contractName with
  | Some text => inr text
  | None => inl ENOENT
  end.

Definition readBuildFile (contractName : string) (w : DemoWorld) : JsError + BuildFile :=
  match builds w !! contractName with
  | Some b => inr b
  | None => inl ENOENT
  end.

Definition readConfigFile (w : DemoWorld) : JsError + Config :=
  match config_json w with
  | Some c => inr c
  | None => inl ENOENT
  end.

(** Modelled from the spec: [bundle.isBuildValid], whose code is in the
    bundle module.  First match wins: code absent or empty, then a
    different source path, then a different hash, else valid. *)
Definition isBuildValid (path hash : string) (buildFile : BuildFile) : BuildCheck :=
  if decide (build_michelson buildFile = "") then MICHELSON_MISSING
  else if decide (build_sourcePath buildFile = path) then
    if decide (build_hash buildFile = hash) then BuildValid else INVALID_HASH
  else INVALID_SOURCE_PATH.

(** The compiler writes a build file whose payload wraps the source. *)
Definition ligo_compile (contractName : string) (w : DemoWorld) : (JsError + unit) * DemoWorld :=
  match compiler_works w, sources w !! getContractFile contractName with
  | true, Some text =>
      (inr tt,
       mkWorld (env_USE_OLD_BUILD w) (sources w)
         (<[contractName :=
              mkBuildFile (getContractFile contractName) (generateHash text)
                          ("[" +:+ text +:+ "]")]> (builds w))
         (config_json w) (compiler_works w) (chain w))
  | _, _ => (inl (mkError "Error" "ligo: compilation failed"), w)
  end.

Definition contract_at (address : string) (w : DemoWorld) : (JsError + string) * DemoWorld :=
  if decide (address ∈ chain w) then (inr address, w)
  else (inl (mkError "HttpResponseError" "contract not found"), w).

(** Origination puts a new address on the chain. *)
Definition chain_originate (code : list string) (storage : string) (w : DemoWorld)
    : (JsError + string) * DemoWorld :=
  if decide (storage = "") then (inl (mkError "Error" "invalid storage"), w)
  else
    let address := "KT1" +:+ storage in
    (inr address,
     mkWorld (env_USE_OLD_BUILD w) (sources w) (builds w) (config_json w)
             (compiler_works w) (address :: chain w)).

Definition types : Types := {|
  World := DemoWorld;
  Storage := string;
  Code := list string;
  Handle := string;
  Operation := string
|}.

(** A payload parses when it opens a bracket, and the code is the
    payload; the payloads [null], [false] and [0] parse to these
    values. *)
Definition parse (payload : string) : JsError + Checked (T := types) :=
  if startsWith "[" payload then inr (@CCode types [payload])
  else if decide (payload = "null") then inr (CFalsy JNull)
  else if decide (payload = "false") then inr CFalse
  else if decide (payload = "0") then inr (CFalsy JZero)
  else inl (mkError "SyntaxError" "Unexpected token in JSON at position 0").

Definition exists_ (path : string) (w : DemoWorld) : bool :=
  bool_decide (is_Some (sources w !! path)).

Definition buildFileExists (contractName : string) (w : DemoWorld) : bool :=
  bool_decide (is_Some (builds w !! contractName)).

Definition import_key (email password mnemonic activation_code : string) (w : DemoWorld)
    : Imported * DemoWorld :=
  (ImportOk, w).

(** A key can be read when it starts with [edsk]. *)
Definition new_signer (secretKey : string) : JsError + unit :=
  if startsWith "edsk" secretKey then inr tt
  else inl (mkError "Error" "Unsupported key type").

Definition confirm (op : string) (w : DemoWorld) : (JsError + string) * DemoWorld :=
  (inr op, w).

Definition collaborators : @Collaborators types :=
  @Build_Collaborators types
    env_USE_OLD_BUILD getContractFile exists_ buildFileExists readContract generateHash
    readBuildFile isBuildValid readConfigFile ligo_compile parse import_key new_signer
    contract_at chain_originate confirm.

(** The contract [Foo] and a build file compiled from the source [v1]. *)
Definition build_v1 : BuildFile :=
  mkBuildFile "contracts/Foo.ligo" "#v1" "[v1]".

(** A build file without Michelson, one compiled from another path and
    one whose payload does not parse. *)
Definition build_empty : BuildFile :=
  mkBuildFile "contracts/Foo.ligo" "#v1" "".
Definition build_elsewhere : BuildFile :=
  mkBuildFile "old/Foo.ligo" "#v1" "[v1]".
Definition build_broken : BuildFile :=
  mkBuildFile "contracts/Foo.ligo" "#v1" "v1]".

(** A world where [Foo] has the source [text] and the build file [b]. *)
Definition world_with (env : option string) (text : string) (b : BuildFile)
    (cfg : option Config) (works : bool) : DemoWorld :=
  mkWorld env {[ "contracts/Foo.ligo" := text ]} {[ "Foo" := b ]} cfg works ["KT1old"].

(** Worlds where [Foo] has no source, and a source but no build file. *)
Definition world_no_source : DemoWorld :=
  mkWorld None ∅ ∅ None true ["KT1old"].
Definition world_no_build : DemoWorld :=
  mkWorld None {[ "contracts/Foo.ligo" := "v1" ]} ∅ None true ["KT1old"].

Definition alice : TezosSigner := KeySigner "edsk-alice".
Definition bob : TezosSigner := KeySigner "edsk-bob".

(** The state when the module has just been loaded: the default signer
    is [alice], nothing is cached, no signer is set. *)
Definition fresh (deployed : option (gmap string string)) (w : DemoWorld) : St (T := types) :=
  mkSt (T := types) None deployed alice false None None w [].

(** The source is unchanged since the build. *)
Definition st_valid : St (T := types) :=
  fresh None (world_with None "v1" build_v1 (Some (mkConfig true)) true).

(** The source was edited to [v2] after the build. *)
Definition st_edited (env : option string) (autoCompile works : bool) : St (T := types) :=
  fresh None (world_with env "v2" build_v1 (Some (mkConfig autoCompile)) works).

Definition st_no_michelson : St (T := types) :=
  fresh None (world_with None "v1" build_empty None true).
Definition st_elsewhere : St (T := types) :=
  fresh None (world_with None "v1" build_elsewhere None true).
Definition st_broken : St (T := types) :=
  fresh None (world_with None "v1" build_broken None true).
Definition st_no_source : St (T := types) := fresh None world_no_source.
Definition st_no_build : St (T := types) := fresh None world_no_build.

(** The registry holds an address for [Foo]: one the chain knows, and
    one it does not. *)
Definition st_registered : St (T := types) :=
  fresh (Some {[ "Foo" := "KT1old" ]})
        (world_with None "v1" build_v1 (Some (mkConfig true)) true).
Definition st_registered_lost : St (T := types) :=
  fresh (Some {[ "Foo" := "KT1gone" ]})
        (world_with None "v1" build_v1 (Some (mkConfig true)) true).

(** The same collaborators with a source file that cannot be read, and
    with a key import that is refused. *)
Definition EACCES : JsError := mkError "Error" "EACCES: permission denied".

Definition readContract_denied (contractName : string) (w : DemoWorld) : JsError + string :=
  inl EACCES.

Definition collaborators_locked : @Collaborators types :=
  @Build_Collaborators types
    env_USE_OLD_BUILD getContractFile exists_ buildFileExists readContract_denied generateHash
    readBuildFile isBuildValid readConfigFile ligo_compile parse import_key new_signer
    contract_at chain_originate confirm.

Definition refused : JsError := mkError "HttpResponseError" "activation refused".

(** The import installs the signer and then fails to activate the
    account. *)
Definition import_key_refused (email password mnemonic activation_code : string)
    (w : DemoWorld) : Imported * DemoWorld :=
  (ImportFailed refused true, w).

Definition collaborators_no_key : @Collaborators types :=
  @Build_Collaborators types
    env_USE_OLD_BUILD getContractFile exists_ buildFileExists readContract generateHash
    readBuildFile isBuildValid readConfigFile ligo_compile parse import_key_refused
    new_signer contract_at chain_originate confirm.

(** A faucet account, and the state when it is the default signer. *)
Definition carol : TezosSigner :=
  FaucetSigner (mkFaucet "carol@example.org" "secret" ["one"; "two"; "three"] "a1b2").

Definition st_faucet : St (T := types) :=
  mkSt (T := types) None None carol false None None
       (world_with None "v1" build_v1 (Some (mkConfig true)) true) [].

(** A default signer whose key cannot be read. *)
Definition mallory : TezosSigner := KeySigner "not-a-key".

Definition st_bad_key : St (T := types) :=
  mkSt (T := types) None None mallory false None None
       (world_with None "v1" build_v1 (Some (mkConfig true)) true) [].

(** A build file whose payload is the JSON text [null]. *)
Definition build_null : BuildFile :=
  mkBuildFile "contracts/Foo.ligo" "#v1" "null".

Definition st_null : St (T := types) :=
  fresh None (world_with None "v1" build_null (Some (mkConfig true)) true).

(** The registry holds the empty string for [Foo]. *)
Definition st_registered_empty : St (T := types) :=
  fresh (Some {[ "Foo" := "" ]})
        (world_with None "v1" build_v1 (Some (mkConfig true)) true).

End Demo.


(** * Properties *)

(** ** Strings *)

Lemma startsWith_app (t b : string) : startsWith t (t +:+ b) = true.
Proof.
  induction t as [|a t IH]; simpl; [reflexivity|].
  destruct (decide (a = a)); [exact IH | congruence].
Qed.

Lemma includes_here (t b : string) : includes t (t +:+ b) = true.
Proof.
  destruct t; simpl.
  - destruct b; reflexivity.
  - destruct (decide (a = a)); [|congruence].
    rewrite startsWith_app. reflexivity.
Qed.

Lemma includes_app_r (t a s : string) :
  includes t s = true → includes t (a +:+ s) = true.
Proof.
  intros H. induction a as [|c a IH]; simpl; [exact H|].
  rewrite IH. apply orb_true_r.
Qed.

Create HintDb strs.
#[local] Hint Resolve includes_here includes_app_r : strs.

(** Running the functions: unfold the monad, then follow the branches,
    by a known answer when there is one and by cases otherwise. *)
Ltac run :=
  cbv beta iota zeta delta
    [bind ret throw try_catch detached get modify emit call call_read call_try
     call_io await_read await_io read_checked write_checked
     sentinel_written with_events checked_entry deployed_entry
     set_checkedContracts set_isSignerSet set_config set_Tezos_signer set_world set_trace
     _checkedContracts tezosDeployedContracts tezosDefaultSigner isSignerSet config
     Tezos_signer world trace
     truthy truthy_str negb fst snd mbind option_bind default from_option id] in *.

Ltac innermost x :=
  lazymatch x with
  | context [match _ with _ => _ end] => fail
  | _ => idtac
  end.

Ltac branch :=
  match goal with
  | H : ?x = _ |- context [?x] => tryif is_var x then fail else rewrite H
  | |- context [match ?x with _ => _ end] => innermost x; destruct x eqn:?
  end.

Ltac exec := run; repeat (branch; run).

Ltac traces := repeat rewrite <- app_assoc; cbn [app].

Section Properties.

Context `{C : Collaborators}.

Lemma count_events_app (p : Event -> bool) (t u : list Event) :
  count_events p (t ++ u) = count_events p t + count_events p u.
Proof.
  induction t as [|e t IH]; simpl; [reflexivity|].
  rewrite IH. lia.
Qed.

(** ** [validateContract] by stages *)

Lemma validateContract_hit (contractName : string) (s : St) (code : Code) :
  checked_entry contractName s = Some (CCode code) →
  validateContract contractName s = (Ok (CCode code), s).
Proof.
  unfold validateContract. destruct s as [cc dc ds iss cfg ts w tr].
  intros H. run. destruct cc as [m|]; [|discriminate H].
  run. rewrite H. reflexivity.
Qed.

Lemma validateContract_miss (contractName : string) (s : St) :
  truthy (checked_entry contractName s) = false →
  validateContract contractName s = checks contractName (sentinel_written contractName s).
Proof.
  unfold validateContract. destruct s as [cc dc ds iss cfg ts w tr].
  intros H. run. destruct cc as [m|]; run.
  - destruct (m !! contractName) as [[|c|v]|]; try discriminate H; reflexivity.
  - rewrite lookup_empty. reflexivity.
Qed.

Lemma checks_no_source (contractName : string) (s : St) :
  bundle_exists (bundle_getContractFile contractName) (world s) = false →
  checks contractName s =
    (Throw (Error (msg_doesnt_exist contractName)),
     with_events [EGetContractFile contractName;
                  EExists (bundle_getContractFile contractName)] s).
Proof.
  intros Hex. unfold checks. destruct s as [cc dc ds iss cfg ts w tr].
  exec. traces. reflexivity.
Qed.

Lemma checks_no_build (contractName : string) (s : St) :
  bundle_exists (bundle_getContractFile contractName) (world s) = true →
  bundle_buildFileExists contractName (world s) = false →
  checks contractName s =
    (Throw (Error (msg_never_compiled contractName)),
     with_events [EGetContractFile contractName;
                  EExists (bundle_getContractFile contractName);
                  EBuildFileExists contractName] s).
Proof.
  intros Hex Hb. unfold checks. destruct s as [cc dc ds iss cfg ts w tr].
  exec. traces. reflexivity.
Qed.

Lemma checks_source_unreadable (contractName : string) (s : St) (err : JsError) :
  bundle_exists (bundle_getContractFile contractName) (world s) = true →
  bundle_buildFileExists contractName (world s) = true →
  bundle_readContract contractName (world s) = inl err →
  checks contractName s =
    (Throw err,
     with_events [EGetContractFile contractName;
                  EExists (bundle_getContractFile contractName);
                  EBuildFileExists contractName;
                  EReadContract contractName] s).
Proof.
  intros Hex Hb Hrc. unfold checks. destruct s as [cc dc ds iss cfg ts w tr].
  exec. traces. reflexivity.
Qed.

Lemma checks_build_unreadable (contractName : string) (s : St)
    (contract : string) (err : JsError) :
  bundle_exists (bundle_getContractFile contractName) (world s) = true →
  bundle_buildFileExists contractName (world s) = true →
  bundle_readContract contractName (world s) = inr contract →
  bundle_readBuildFile contractName (world s) = inl err →
  checks contractName s =
    (Throw err,
     with_events [EGetContractFile contractName;
                  EExists (bundle_getContractFile contractName);
                  EBuildFileExists contractName;
                  EReadContract contractName;
                  EGenerateHash contract;
                  EReadBuildFile contractName] s).
Proof.
  intros Hex Hb Hrc Hrb. unfold checks. destruct s as [cc dc ds iss cfg ts w tr].
  exec. traces. reflexivity.
Qed.

Lemma checks_classified (contractName : string) (s : St)
    (contract : string) (buildFile : BuildFile) (valid : BuildCheck) :
  reads_classified contractName (world s) contract buildFile valid →
  checks contractName s =
    react contractName buildFile valid
      (with_events (classification_events contractName contract buildFile) s).
Proof.
  intros (Hex & Hb & Hrc & Hrb & Hv). unfold checks, classification_events.
  destruct s as [cc dc ds iss cfg ts w tr].
  exec. traces. reflexivity.
Qed.

Lemma parse_and_store_spec (contractName : string) (buildFile : BuildFile) (s : St) :
  is_Some (_checkedContracts s) →
  parse_and_store contractName buildFile s =
    (parse_outcome contractName buildFile,
     stored contractName buildFile (with_events [EJSONParse (build_michelson buildFile)] s)).
Proof.
  intros [m Hm]. unfold parse_and_store, parse_outcome, stored.
  destruct s as [cc dc ds iss cfg ts w tr]. run. subst cc.
  destruct (JSON_parse (build_michelson buildFile)); reflexivity.
Qed.

(** ** [handleOutdatedBuildfile] case by case *)

Lemma handleOutdatedBuildfile_override (contractName : string) (s : St) :
  process_env_USE_OLD_BUILD (world s) = Some "true" →
  handleOutdatedBuildfile contractName s = (Ok tt, with_events [EEnvUseOldBuild] s).
Proof.
  intros Henv. unfold handleOutdatedBuildfile. destruct s as [cc dc ds iss cfg ts w tr].
  run. rewrite Henv. destruct (decide _) as [_|n]; [reflexivity | congruence].
Qed.

Lemma handleOutdatedBuildfile_config_unreadable (contractName : string) (s : St)
    (err : JsError) :
  process_env_USE_OLD_BUILD (world s) ≠ Some "true" →
  loaded_config s = inl err →
  handleOutdatedBuildfile contractName s =
    (Throw err, with_events [EEnvUseOldBuild; EReadConfigFile] s).
Proof.
  intros Henv Hc. unfold handleOutdatedBuildfile, loaded_config in *.
  destruct s as [cc dc ds iss cfg ts w tr].
  run. destruct (decide _) as [e|_]; [contradiction|].
  destruct cfg as [c|]; [discriminate Hc|]. exec. traces. reflexivity.
Qed.

Lemma handleOutdatedBuildfile_autoCompile_off (contractName : string) (s : St)
    (c : Config) :
  process_env_USE_OLD_BUILD (world s) ≠ Some "true" →
  loaded_config s = inr c → autoCompile c = false →
  handleOutdatedBuildfile contractName s =
    (Throw (Error (msg_outdated contractName)),
     set_config (Some c) (with_events (EEnvUseOldBuild :: config_events s) s)).
Proof.
  intros Henv Hc Hauto. unfold handleOutdatedBuildfile, loaded_config, config_events in *.
  destruct s as [cc dc ds iss cfg ts w tr].
  run. destruct (decide _) as [e|_]; [contradiction|].
  destruct cfg as [c'|]; [injection Hc as ->|]; exec; traces; reflexivity.
Qed.

Lemma handleOutdatedBuildfile_autoCompile_on (contractName : string) (s : St)
    (c : Config) :
  process_env_USE_OLD_BUILD (world s) ≠ Some "true" →
  loaded_config s = inr c → autoCompile c = true →
  handleOutdatedBuildfile contractName s =
    (match fst (compile contractName (world s)) with
     | inr _ => Ok tt
     | inl err => Throw err
     end,
     set_world (snd (compile contractName (world s)))
       (set_config (Some c)
          (with_events (EEnvUseOldBuild :: config_events s ++ [ECompile contractName]) s))).
Proof.
  intros Henv Hc Hauto. unfold handleOutdatedBuildfile, loaded_config, config_events in *.
  destruct s as [cc dc ds iss cfg ts w tr].
  run. destruct (decide _) as [e|_]; [contradiction|].
  destruct cfg as [c'|]; [injection Hc as ->|]; exec; traces; try reflexivity.
  all: destruct u; reflexivity.
Qed.

(** ** String facts about the messages *)

Lemma string_app_inv_head (a x y : string) : a +:+ x = a +:+ y → x = y.
Proof.
  induction a as [|c a IH]; simpl; [tauto|].
  intros H. injection H as H. exact (IH H).
Qed.

Lemma msg_doesnt_exist_never_compiled (contractName : string) :
  msg_doesnt_exist contractName ≠ msg_never_compiled contractName.
Proof.
  unfold msg_doesnt_exist, msg_never_compiled. intros H.
  do 4 apply string_app_inv_head in H. discriminate H.
Qed.

Lemma includes_msg_michelson_missing (contractName : string) :
  includes contractName (msg_michelson_missing contractName) = true.
Proof. unfold msg_michelson_missing. auto with strs. Qed.

Lemma includes_msg_different_source (contractName buildSourcePath : string) :
  includes contractName (msg_different_source contractName buildSourcePath) = true ∧
  includes buildSourcePath (msg_different_source contractName buildSourcePath) = true.
Proof. unfold msg_different_source. split; auto 10 with strs. Qed.

Lemma includes_msg_outdated (contractName : string) :
  includes contractName (msg_outdated contractName) = true ∧
  includes "edited since last compilation" (msg_outdated contractName) = true.
Proof.
  unfold msg_outdated. split; [auto 10 with strs|].
  do 3 apply includes_app_r. vm_compute. reflexivity.
Qed.

(** ** [validateContract]: preconditions and classification *)

(** C7: a call that is not served from the cache checks its
    preconditions first.  When the source file does not exist it throws
    the "doesn't exist" error after the calls [getContractFile] and
    [exists] only; when the source exists and there is no build file it
    throws the "has never been compiled" error after [getContractFile],
    [exists] and [buildFileExists] only.  In both cases nothing was
    hashed, no build file was read and the validator was not called, the
    entry of the contract holds the sentinel, and the two messages
    differ. *)
Theorem validateContract_preconditions_first (contractName : string) (s : St) :
  truthy (checked_entry contractName s) = false →
  (bundle_exists (bundle_getContractFile contractName) (world s) = false →
   validateContract contractName s =
     (Throw (Error (msg_doesnt_exist contractName)),
      with_events [EGetContractFile contractName;
                   EExists (bundle_getContractFile contractName)]
                  (sentinel_written contractName s))) ∧
  (bundle_exists (bundle_getContractFile contractName) (world s) = true →
   bundle_buildFileExists contractName (world s) = false →
   validateContract contractName s =
     (Throw (Error (msg_never_compiled contractName)),
      with_events [EGetContractFile contractName;
                   EExists (bundle_getContractFile contractName);
                   EBuildFileExists contractName]
                  (sentinel_written contractName s))) ∧
  msg_doesnt_exist contractName ≠ msg_never_compiled contractName.
Proof.
  intros Hmiss. rewrite (validateContract_miss _ _ Hmiss). split; [|split].
  - intros Hex. apply checks_no_source. exact Hex.
  - intros Hex Hb. apply checks_no_build; assumption.
  - apply msg_doesnt_exist_never_compiled.
Qed.

(** C6: when the validator answers [MICHELSON_MISSING] the call throws
    the "Michelson code is missing" error right after the
    classification: the environment is not read, the configuration is
    neither read nor loaded, the compiler is not called and the world is
    as before, whatever the override and [autoCompile] are; the entry of
    the contract holds the sentinel. *)
Theorem validateContract_michelson_missing
    (contractName : string) (s : St) (contract : string) (buildFile : BuildFile) :
  classified contractName s contract buildFile MICHELSON_MISSING →
  validateContract contractName s =
    (Throw (Error (msg_michelson_missing contractName)),
     with_events (classification_events contractName contract buildFile)
                 (sentinel_written contractName s)) ∧
  count_events is_envUseOldBuild (classification_events contractName contract buildFile) = 0 ∧
  count_events is_readConfigFile (classification_events contractName contract buildFile) = 0 ∧
  count_events is_compile (classification_events contractName contract buildFile) = 0 ∧
  includes contractName (msg_michelson_missing contractName) = true.
Proof.
  intros [Hmiss Hcl].
  split; [|repeat split; try reflexivity; apply includes_msg_michelson_missing].
  rewrite (validateContract_miss _ _ Hmiss).
  rewrite (checks_classified _ _ contract buildFile MICHELSON_MISSING); [reflexivity|exact Hcl].
Qed.

(** C5 (amended): when the validator answers [INVALID_SOURCE_PATH] the
    call throws right after the classification an error whose message
    names the contract and the source path recorded in the build file;
    the environment and the configuration are not consulted, the
    compiler is not called, and the entry of the contract holds the
    sentinel. *)
Theorem validateContract_invalid_source_path
    (contractName : string) (s : St) (contract : string) (buildFile : BuildFile) :
  classified contractName s contract buildFile INVALID_SOURCE_PATH →
  validateContract contractName s =
    (Throw (Error (msg_different_source contractName (build_sourcePath buildFile))),
     with_events (classification_events contractName contract buildFile)
                 (sentinel_written contractName s)) ∧
  count_events is_envUseOldBuild (classification_events contractName contract buildFile) = 0 ∧
  count_events is_readConfigFile (classification_events contractName contract buildFile) = 0 ∧
  count_events is_compile (classification_events contractName contract buildFile) = 0 ∧
  includes contractName
    (msg_different_source contractName (build_sourcePath buildFile)) = true ∧
  includes (build_sourcePath buildFile)
    (msg_different_source contractName (build_sourcePath buildFile)) = true.
Proof.
  intros [Hmiss Hcl].
  split; [|repeat split; try reflexivity; apply includes_msg_different_source].
  rewrite (validateContract_miss _ _ Hmiss).
  rewrite (checks_classified _ _ contract buildFile INVALID_SOURCE_PATH); [reflexivity|exact Hcl].
Qed.

(** The call on the [INVALID_HASH] path: [handleOutdatedBuildfile], and
    the parse when it returns. *)
Lemma outdated_path_steps
    (contractName : string) (s : St) (contract : string) (buildFile : BuildFile) :
  classified contractName s contract buildFile INVALID_HASH →
  validateContract contractName s =
    (handleOutdatedBuildfile contractName ;;; parse_and_store contractName buildFile)
      (with_events (classification_events contractName contract buildFile)
                   (sentinel_written contractName s)).
Proof.
  intros [Hmiss Hcl]. rewrite (validateContract_miss _ _ Hmiss).
  rewrite (checks_classified _ _ contract buildFile INVALID_HASH); [reflexivity|exact Hcl].
Qed.

(** C1: when the validator answers [INVALID_HASH], (a) with the
    override [USE_OLD_BUILD] equal to ["true"] the call goes on to parse
    the payload it has, and the compiler is not called; (b) otherwise,
    with a configuration (the memoized one, or the one read now and
    memoized) whose [autoCompile] is off, it throws the "edited since
    last compilation" error, which names the contract, and the compiler
    is not called; (c) otherwise the compiler is called exactly once,
    and if it succeeds the call goes on to parse the payload: over the
    whole call the hash was computed once and the validator was called
    once.  The configuration file is read only when no configuration is
    memoized, and the configuration read is memoized. *)
Theorem validateContract_invalid_hash
    (contractName : string) (s : St) (contract : string) (buildFile : BuildFile) :
  classified contractName s contract buildFile INVALID_HASH →
  let r := fst (validateContract contractName s) in
  let s' := snd (validateContract contractName s) in
  let cls := classification_events contractName contract buildFile in
  (process_env_USE_OLD_BUILD (world s) = Some "true" →
     r = parse_outcome contractName buildFile ∧
     trace s' = trace s ++ cls ++ [EEnvUseOldBuild; EJSONParse (build_michelson buildFile)] ∧
     count_events is_compile
       (cls ++ [EEnvUseOldBuild; EJSONParse (build_michelson buildFile)]) = 0 ∧
     world s' = world s ∧ config s' = config s) ∧
  (∀ c, process_env_USE_OLD_BUILD (world s) ≠ Some "true" →
     loaded_config s = inr c → autoCompile c = false →
     let evs := cls ++ [EEnvUseOldBuild] ++ config_events s in
     r = Throw (Error (msg_outdated contractName)) ∧
     trace s' = trace s ++ evs ∧
     count_events is_compile evs = 0 ∧
     count_events is_readConfigFile evs = length (config_events s) ∧
     world s' = world s ∧ config s' = Some c ∧
     checked_entry contractName s' = Some CFalse ∧
     includes contractName (msg_outdated contractName) = true ∧
     includes "edited since last compilation" (msg_outdated contractName) = true) ∧
  (∀ c, process_env_USE_OLD_BUILD (world s) ≠ Some "true" →
     loaded_config s = inr c → autoCompile c = true →
     let evs := cls ++ [EEnvUseOldBuild] ++ config_events s ++ [ECompile contractName] in
     config s' = Some c ∧
     world s' = snd (compile contractName (world s)) ∧
     count_events is_readConfigFile evs = length (config_events s) ∧
     match fst (compile contractName (world s)) with
     | inr _ =>
         let all := evs ++ [EJSONParse (build_michelson buildFile)] in
         r = parse_outcome contractName buildFile ∧
         trace s' = trace s ++ all ∧
         count_events is_compile all = 1 ∧
         count_events is_generateHash all = 1 ∧
         count_events is_isBuildValid all = 1
     | inl err =>
         r = Throw err ∧
         trace s' = trace s ++ evs ∧
         count_events is_compile evs = 1 ∧
         checked_entry contractName s' = Some CFalse
     end).
Proof.
  intros Hcl. pose proof (outdated_path_steps _ _ _ _ Hcl) as E.
  cbv zeta. destruct (validateContract contractName s) as [r s']. cbn [fst snd].
  unfold bind in E. destruct s as [cc dc ds iss cfg ts w tr].
  split; [|split].
  - intros Henv. rewrite handleOutdatedBuildfile_override in E by exact Henv.
    rewrite parse_and_store_spec in E by (eexists; reflexivity).
    injection E as -> ->. unfold stored, classification_events.
    run. destruct (JSON_parse _); traces; repeat split; reflexivity.
  - intros c Henv Hc Hauto.
    rewrite (handleOutdatedBuildfile_autoCompile_off _ _ c) in E by assumption.
    injection E as -> ->. unfold classification_events, config_events.
    run. traces. destruct cfg; repeat split; try reflexivity;
      try apply includes_msg_outdated; apply lookup_insert_eq.
  - intros c Henv Hc Hauto.
    rewrite (handleOutdatedBuildfile_autoCompile_on _ _ c) in E by assumption.
    unfold classification_events, config_events in *.
    run. destruct (compile contractName w) as [[err|[]] w'] eqn:Hco; run.
    + injection E as -> ->. run. traces.
      destruct cfg; repeat split; try reflexivity; apply lookup_insert_eq.
    + rewrite parse_and_store_spec in E by (eexists; reflexivity).
      injection E as -> ->. unfold stored. run.
      destruct (JSON_parse _); traces; destruct cfg; repeat split; reflexivity.
Qed.

(** ** The relations are the graphs of the functions *)

Lemma handleOutdatedBuildfile_sound (contractName : string) (s : St)
    (r : Res unit) (s' : St) :
  OutdatedRun contractName s r s' → handleOutdatedBuildfile contractName s = (r, s').
Proof.
  intros [Henv | err Henv Hc | c Henv Hc Hauto | c w' Henv Hc Hauto Hco
          | c err w' Henv Hc Hauto Hco].
  - apply handleOutdatedBuildfile_override, Henv.
  - apply handleOutdatedBuildfile_config_unreadable; assumption.
  - apply handleOutdatedBuildfile_autoCompile_off; assumption.
  - rewrite (handleOutdatedBuildfile_autoCompile_on _ _ c) by assumption.
    rewrite Hco. reflexivity.
  - rewrite (handleOutdatedBuildfile_autoCompile_on _ _ c) by assumption.
    rewrite Hco. reflexivity.
Qed.

Lemma handleOutdatedBuildfile_complete (contractName : string) (s : St) :
  OutdatedRun contractName s
    (fst (handleOutdatedBuildfile contractName s))
    (snd (handleOutdatedBuildfile contractName s)).
Proof.
  destruct (decide (process_env_USE_OLD_BUILD (world s) = Some "true")) as [Henv|Henv].
  - rewrite handleOutdatedBuildfile_override by exact Henv. constructor. exact Henv.
  - destruct (loaded_config s) as [err|c] eqn:Hc.
    + rewrite (handleOutdatedBuildfile_config_unreadable _ _ err) by assumption.
      constructor; assumption.
    + destruct (autoCompile c) eqn:Hauto.
      * rewrite (handleOutdatedBuildfile_autoCompile_on _ _ c) by assumption.
        destruct (compile contractName (world s)) as [[err|[]] w'] eqn:Hco; cbn [fst snd].
        -- eapply outdated_compile_failed; eassumption.
        -- eapply outdated_compiled; eassumption.
      * rewrite (handleOutdatedBuildfile_autoCompile_off _ _ c) by assumption.
        constructor; assumption.
Qed.

Lemma handleOutdatedBuildfile_run (contractName : string) (s : St)
    (r : Res unit) (s' : St) :
  OutdatedRun contractName s r s' ↔ handleOutdatedBuildfile contractName s = (r, s').
Proof.
  split; [apply handleOutdatedBuildfile_sound|].
  intros H. pose proof (handleOutdatedBuildfile_complete contractName s) as Hr.
  rewrite H in Hr. exact Hr.
Qed.

Lemma sentinel_written_is_Some (contractName : string) (s : St) (evs : list Event) :
  is_Some (_checkedContracts (with_events evs (sentinel_written contractName s))).
Proof. eexists. reflexivity. Qed.

Lemma OutdatedRun_checkedContracts (contractName : string) (s : St)
    (r : Res unit) (s' : St) :
  OutdatedRun contractName s r s' → _checkedContracts s' = _checkedContracts s.
Proof. intros []; reflexivity. Qed.

Lemma validateContract_sound (contractName : string) (s : St)
    (r : Res Checked) (s' : St) :
  ValidateRun contractName s r s' → validateContract contractName s = (r, s').
Proof.
  intros [code H | Hm Hex | Hm Hex Hb | err Hm Hex Hb Hrc | contract err Hm Hex Hb Hrc Hrb
          | contract bf [Hm Hcl] | contract bf [Hm Hcl] | contract bf [Hm Hcl]
          | contract bf err s2 Hcl Hrun | contract bf s2 Hcl Hrun].
  - apply validateContract_hit, H.
  - rewrite (validateContract_miss _ _ Hm). apply checks_no_source, Hex.
  - rewrite (validateContract_miss _ _ Hm). apply checks_no_build; assumption.
  - rewrite (validateContract_miss _ _ Hm). apply checks_source_unreadable; assumption.
  - rewrite (validateContract_miss _ _ Hm). apply checks_build_unreadable; assumption.
  - rewrite (validateContract_miss _ _ Hm).
    rewrite (checks_classified _ _ contract bf MICHELSON_MISSING); [reflexivity|exact Hcl].
  - rewrite (validateContract_miss _ _ Hm).
    rewrite (checks_classified _ _ contract bf INVALID_SOURCE_PATH); [reflexivity|exact Hcl].
  - rewrite (validateContract_miss _ _ Hm).
    rewrite (checks_classified _ _ contract bf BuildValid) by exact Hcl.
    unfold react, bind, ret. rewrite parse_and_store_spec by apply sentinel_written_is_Some.
    unfold with_events, stored. cbn. rewrite <- app_assoc. reflexivity.
  - rewrite (outdated_path_steps _ _ _ _ Hcl). unfold bind.
    rewrite (handleOutdatedBuildfile_sound _ _ _ _ Hrun). reflexivity.
  - rewrite (outdated_path_steps _ _ _ _ Hcl). unfold bind.
    rewrite (handleOutdatedBuildfile_sound _ _ _ _ Hrun).
    apply parse_and_store_spec.
    rewrite (OutdatedRun_checkedContracts _ _ _ _ Hrun). apply sentinel_written_is_Some.
Qed.

Lemma validateContract_complete (contractName : string) (s : St) :
  ValidateRun contractName s
    (fst (validateContract contractName s))
    (snd (validateContract contractName s)).
Proof.
  destruct (checked_entry contractName s) as [[|code|v]|] eqn:He.
  2: { rewrite (validateContract_hit _ _ code He). constructor. exact He. }
  all: assert (Hm : truthy (checked_entry contractName s) = false) by (rewrite He; reflexivity).
  all: clear He.
  all: destruct (bundle_exists (bundle_getContractFile contractName) (world s)) eqn:Hex;
    [|erewrite validateContract_sound by (apply run_no_source; assumption);
      apply run_no_source; assumption].
  all: destruct (bundle_buildFileExists contractName (world s)) eqn:Hb;
    [|erewrite validateContract_sound by (apply run_no_build; assumption);
      apply run_no_build; assumption].
  all: destruct (bundle_readContract contractName (world s)) as [err|contract] eqn:Hrc;
    [erewrite validateContract_sound by (eapply run_source_unreadable; eassumption);
      eapply run_source_unreadable; eassumption|].
  all: destruct (bundle_readBuildFile contractName (world s)) as [err|bf] eqn:Hrb;
    [erewrite validateContract_sound by (eapply run_build_unreadable; eassumption);
      eapply run_build_unreadable; eassumption|].
  all: remember (bundle_isBuildValid (bundle_getContractFile contractName)
                   (bundle_generateHash contract) bf) as valid eqn:Hv; symmetry in Hv.
  all: assert (Hcl : classified contractName s contract bf valid)
         by (repeat split; assumption).
  all: clear Hv; destruct valid.
  all: try (erewrite validateContract_sound by (econstructor; eassumption);
            econstructor; eassumption).
  all: pose proof (handleOutdatedBuildfile_complete contractName
         (with_events (classification_events contractName contract bf)
                      (sentinel_written contractName s))) as Hrun.
  all: destruct (handleOutdatedBuildfile contractName _) as [[[]|err] s2]; cbn [fst snd] in Hrun.
  all: try (erewrite validateContract_sound by (eapply run_outdated_goes_on; eassumption);
            eapply run_outdated_goes_on; eassumption).
  all: erewrite validateContract_sound by (eapply run_outdated_stops; eassumption);
       eapply run_outdated_stops; eassumption.
Qed.

Lemma validateContract_run (contractName : string) (s : St)
    (r : Res Checked) (s' : St) :
  ValidateRun contractName s r s' ↔ validateContract contractName s = (r, s').
Proof.
  split; [apply validateContract_sound|].
  intros H. pose proof (validateContract_complete contractName s) as Hr.
  rewrite H in Hr. exact Hr.
Qed.

(** ** What a run changes *)

Lemma count_events_none (p q : Event → bool) (evs : list Event) :
  Forall (λ e, q e = true) evs → (∀ e, q e = true → p e = false) →
  count_events p evs = 0.
Proof.
  intros Hall Hpq. induction Hall as [|e evs He _ IH]; [reflexivity|].
  simpl. rewrite (Hpq e He), IH. reflexivity.
Qed.

Lemma OutdatedRun_effects (contractName : string) (s : St) (r : Res unit) (s' : St) :
  OutdatedRun contractName s r s' →
  _checkedContracts s' = _checkedContracts s ∧
  loaded_config s' = loaded_config s ∧
  same_deployment s s' ∧
  ∃ hevs, trace s' = trace s ++ hevs ∧ Forall (λ e, is_outdated_step e = true) hevs.
Proof.
  destruct s as [cc dc ds iss cfg ts w tr].
  intros [Henv | err Henv Hc | c Henv Hc Hauto | c w' Henv Hc Hauto Hco
          | c err w' Henv Hc Hauto Hco];
    unfold same_deployment, loaded_config, config_events in *; run.
  all: repeat split; try reflexivity; try (symmetry; assumption).
  all: eexists; split; [reflexivity|].
  all: destruct cfg; repeat constructor.
Qed.

Lemma OutdatedRun_replay (contractName : string) (s : St) (r : Res unit) (s' t : St) :
  OutdatedRun contractName s r s' →
  world t = world s → loaded_config t = loaded_config s →
  ∃ t', OutdatedRun contractName t r t'.
Proof.
  intros [Henv | err Henv Hc | c Henv Hc Hauto | c w' Henv Hc Hauto Hco
          | c err w' Henv Hc Hauto Hco] Hw Hl; eexists.
  - apply outdated_override. rewrite Hw. assumption.
  - apply outdated_config_unreadable; rewrite ?Hw, ?Hl; eassumption.
  - eapply outdated_autoCompile_off; rewrite ?Hw, ?Hl; eassumption.
  - eapply outdated_compiled; rewrite ?Hw, ?Hl; eassumption.
  - eapply outdated_compile_failed; rewrite ?Hw, ?Hl; eassumption.
Qed.

Lemma checked_entry_sentinel (contractName other : string) (s : St) (evs : list Event) :
  checked_entry other (with_events evs (sentinel_written contractName s)) =
    if decide (contractName = other) then Some CFalse else checked_entry other s.
Proof.
  destruct s as [cc dc ds iss cfg ts w tr]. run.
  rewrite lookup_insert. destruct (decide _); [reflexivity|].
  destruct cc; [reflexivity|]. apply lookup_empty.
Qed.

Lemma stored_effects (contractName : string) (buildFile : BuildFile) (s : St)
    (m : gmap string Checked) :
  _checkedContracts s = Some m →
  loaded_config (stored contractName buildFile s) = loaded_config s ∧
  same_deployment s (stored contractName buildFile s) ∧
  world (stored contractName buildFile s) = world s ∧
  trace (stored contractName buildFile s) = trace s ∧
  (∀ other, other ≠ contractName →
     checked_entry other (stored contractName buildFile s) = checked_entry other s) ∧
  match parse_outcome contractName buildFile with
  | Ok v => JSON_parse (build_michelson buildFile) = inr v ∧
            checked_entry contractName (stored contractName buildFile s) = Some v
  | Throw e => stored contractName buildFile s = s ∧
               ∃ err, JSON_parse (build_michelson buildFile) = inl err ∧
                      e = Error (msg_parse contractName err)
  end.
Proof.
  intros Hm. unfold stored, parse_outcome, same_deployment, loaded_config.
  destruct s as [cc dc ds iss cfg ts w tr]. run. subst cc.
  destruct (JSON_parse (build_michelson buildFile)) as [err|code]; run.
  - repeat split; eauto.
  - repeat split; try reflexivity.
    + intros other Hne. apply lookup_insert_ne. congruence.
    + apply lookup_insert_eq.
Qed.

Lemma sentinel_effects (contractName : string) (s : St) (evs : list Event) :
  let s1 := with_events evs (sentinel_written contractName s) in
  loaded_config s1 = loaded_config s ∧
  same_deployment s s1 ∧
  world s1 = world s ∧
  trace s1 = trace s ++ evs ∧
  (∀ other, other ≠ contractName → checked_entry other s1 = checked_entry other s) ∧
  checked_entry contractName s1 = Some CFalse.
Proof.
  cbv zeta. repeat split.
  - intros other Hne. rewrite checked_entry_sentinel.
    destruct (decide _); [congruence|reflexivity].
  - rewrite checked_entry_sentinel. destruct (decide _); [reflexivity|congruence].
Qed.

Lemma ValidateRun_effects (contractName : string) (s : St) (r : Res Checked) (s' : St) :
  ValidateRun contractName s r s' →
  loaded_config s' = loaded_config s ∧
  same_deployment s s' ∧
  (∀ other, other ≠ contractName → checked_entry other s' = checked_entry other s) ∧
  match r with
  | Ok v => checked_entry contractName s' = Some v
  | Throw _ => checked_entry contractName s' = Some CFalse
  end ∧
  ∃ evs, trace s' = trace s ++ evs ∧ Forall (λ e, is_validation e = true) evs.
Proof.
  intros [code H | Hm Hex | Hm Hex Hb | err Hm Hex Hb Hrc | contract err Hm Hex Hb Hrc Hrb
          | contract bf [Hm Hcl] | contract bf [Hm Hcl] | contract bf [Hm Hcl]
          | contract bf err s2 Hcl Hrun | contract bf s2 Hcl Hrun].
  - repeat split; eauto. exists []. rewrite app_nil_r. split; [reflexivity|constructor].
  - match goal with |- context [with_events ?evs _] =>
      destruct (sentinel_effects contractName s evs) as (Hl & Hd & Hw & Ht & Ho & He) end.
    repeat split; try apply Hd; auto. eexists. split; [exact Ht|repeat constructor].
  - match goal with |- context [with_events ?evs _] =>
      destruct (sentinel_effects contractName s evs) as (Hl & Hd & Hw & Ht & Ho & He) end.
    repeat split; try apply Hd; auto. eexists. split; [exact Ht|repeat constructor].
  - match goal with |- context [with_events ?evs _] =>
      destruct (sentinel_effects contractName s evs) as (Hl & Hd & Hw & Ht & Ho & He) end.
    repeat split; try apply Hd; auto. eexists. split; [exact Ht|repeat constructor].
  - match goal with |- context [with_events ?evs _] =>
      destruct (sentinel_effects contractName s evs) as (Hl & Hd & Hw & Ht & Ho & He) end.
    repeat split; try apply Hd; auto. eexists. split; [exact Ht|repeat constructor].
  - match goal with |- context [with_events ?evs _] =>
      destruct (sentinel_effects contractName s evs) as (Hl & Hd & Hw & Ht & Ho & He) end.
    repeat split; try apply Hd; auto. eexists. split; [exact Ht|repeat constructor].
  - match goal with |- context [with_events ?evs _] =>
      destruct (sentinel_effects contractName s evs) as (Hl & Hd & Hw & Ht & Ho & He) end.
    repeat split; try apply Hd; auto. eexists. split; [exact Ht|repeat constructor].
  - match goal with |- context [with_events ?evs _] =>
      destruct (sentinel_effects contractName s evs) as (Hl & Hd & Hw & Ht & Ho & He);
      destruct (sentinel_written_is_Some contractName s evs) as [m Hs];
      destruct (stored_effects contractName bf _ m Hs) as (Hl' & Hd' & Hw' & Ht' & Ho' & He')
    end.
    refine (conj _ (conj _ (conj _ (conj _ _)))).
    + congruence.
    + unfold same_deployment in *. intuition congruence.
    + intros other Hne. rewrite Ho', Ho by assumption. reflexivity.
    + destruct (parse_outcome contractName bf) as [v|e].
      * exact (proj2 He').
      * destruct He' as [-> _]. exact He.
    + eexists. split; [rewrite Ht'; exact Ht|repeat constructor].
  - destruct (OutdatedRun_effects _ _ _ _ Hrun) as (Hc2 & Hl2 & Hd2 & hevs & Ht2 & Hall).
    match type of Hrun with context [with_events ?evs _] =>
      destruct (sentinel_effects contractName s evs) as (Hl & Hd & Hw & Ht & Ho & He) end.
    refine (conj _ (conj _ (conj _ (conj _ _)))).
    + congruence.
    + unfold same_deployment in *. intuition congruence.
    + intros other Hne. unfold checked_entry in *. rewrite Hc2. apply Ho, Hne.
    + unfold checked_entry in *. rewrite Hc2. exact He.
    + exists (classification_events contractName contract bf ++ hevs).
      split; [rewrite Ht2, Ht, app_assoc; reflexivity|].
      apply Forall_app. split; [repeat constructor|].
      eapply Forall_impl; [exact Hall|]. intros []; simpl; congruence.
  - destruct (OutdatedRun_effects _ _ _ _ Hrun) as (Hc2 & Hl2 & Hd2 & hevs & Ht2 & Hall).
    match type of Hrun with context [with_events ?evs _] =>
      destruct (sentinel_effects contractName s evs) as (Hl & Hd & Hw & Ht & Ho & He);
      destruct (sentinel_written_is_Some contractName s evs) as [m Hs]
    end.
    rewrite <- Hc2 in Hs.
    destruct (stored_effects contractName bf
                (with_events [EJSONParse (build_michelson bf)] s2) m Hs)
      as (Hl' & Hd' & Hw' & Ht' & Ho' & He').
    refine (conj _ (conj _ (conj _ (conj _ _)))).
    + rewrite Hl'. unfold loaded_config in *. cbn. congruence.
    + unfold same_deployment in *. cbn in *. intuition congruence.
    + intros other Hne. rewrite Ho' by assumption.
      unfold checked_entry in *. cbn. rewrite Hc2. apply Ho, Hne.
    + destruct (parse_outcome contractName bf) as [v|e].
      * exact (proj2 He').
      * destruct He' as [-> _]. unfold checked_entry in *. cbn. rewrite Hc2. exact He.
    + exists (classification_events contractName contract bf ++ hevs
              ++ [EJSONParse (build_michelson bf)]).
      split.
      * rewrite Ht'. cbn. rewrite Ht2, Ht. rewrite <- !app_assoc. reflexivity.
      * apply Forall_app. split; [repeat constructor|].
        apply Forall_app. split; [|repeat constructor].
        eapply Forall_impl; [exact Hall|]. intros []; simpl; congruence.
Qed.

(** A run that was not served from the cache depends on the world and
    on the configuration in use only: from another state with the same
    two, and no code cached either, the same rule gives the same result. *)
Lemma ValidateRun_replay (contractName : string) (s : St) (r : Res Checked) (s' t : St) :
  ValidateRun contractName s r s' →
  truthy (checked_entry contractName s) = false →
  truthy (checked_entry contractName t) = false →
  world t = world s → loaded_config t = loaded_config s →
  ∃ t', ValidateRun contractName t r t'.
Proof.
  intros Hrun Hs Ht Hw Hl.
  assert (Hcl : ∀ contract bf valid,
    classified contractName s contract bf valid → classified contractName t contract bf valid).
  { intros contract bf valid [_ H]. split; [exact Ht|]. rewrite Hw. exact H. }
  destruct Hrun as [code H | Hm Hex | Hm Hex Hb | err Hm Hex Hb Hrc
          | contract err Hm Hex Hb Hrc Hrb
          | contract bf Hc | contract bf Hc | contract bf Hc
          | contract bf err s2 Hc Hrun | contract bf s2 Hc Hrun].
  - rewrite H in Hs. discriminate Hs.
  - eexists. apply run_no_source; rewrite ?Hw; assumption.
  - eexists. apply run_no_build; rewrite ?Hw; assumption.
  - eexists. apply run_source_unreadable; rewrite ?Hw; assumption.
  - eexists. eapply run_build_unreadable; rewrite ?Hw; eassumption.
  - eexists. eapply run_michelson_missing, Hcl, Hc.
  - eexists. eapply run_invalid_source_path, Hcl, Hc.
  - eexists. eapply run_valid, Hcl, Hc.
  - destruct (OutdatedRun_replay _ _ _ _
                (with_events (classification_events contractName contract bf)
                             (sentinel_written contractName t)) Hrun)
      as [t2 Hrun2]; [exact Hw | exact Hl |].
    eexists. eapply run_outdated_stops; [apply Hcl, Hc | exact Hrun2].
  - destruct (OutdatedRun_replay _ _ _ _
                (with_events (classification_events contractName contract bf)
                             (sentinel_written contractName t)) Hrun)
      as [t2 Hrun2]; [exact Hw | exact Hl |].
    eexists. eapply run_outdated_goes_on; [apply Hcl, Hc | exact Hrun2].
Qed.

(** A run that is not served from the cache starts with the first check. *)
Lemma ValidateRun_starts (contractName : string) (s : St) (r : Res Checked) (s' : St) :
  ValidateRun contractName s r s' →
  truthy (checked_entry contractName s) = false →
  ∃ evs, trace s' =
    trace s ++ EGetContractFile contractName
            :: EExists (bundle_getContractFile contractName) :: evs.
Proof.
  intros Hrun Hs.
  destruct Hrun as [code H | Hm Hex | Hm Hex Hb | err Hm Hex Hb Hrc
          | contract err Hm Hex Hb Hrc Hrb
          | contract bf Hc | contract bf Hc | contract bf Hc
          | contract bf err s2 Hc Hrun | contract bf s2 Hc Hrun].
  - rewrite H in Hs. discriminate Hs.
  - eexists. reflexivity.
  - eexists. reflexivity.
  - eexists. reflexivity.
  - eexists. reflexivity.
  - eexists. reflexivity.
  - eexists. reflexivity.
  - destruct (sentinel_written_is_Some contractName s
                (classification_events contractName contract bf
                   ++ [EJSONParse (build_michelson bf)])) as [m Hm'].
    destruct (stored_effects contractName bf _ m Hm') as (_ & _ & _ & Ht' & _).
    rewrite Ht'. eexists. reflexivity.
  - destruct (OutdatedRun_effects _ _ _ _ Hrun) as (_ & _ & _ & hevs & Ht2 & _).
    rewrite Ht2. eexists. cbn. rewrite <- app_assoc. reflexivity.
  - destruct (OutdatedRun_effects _ _ _ _ Hrun) as (Hc2 & _ & _ & hevs & Ht2 & _).
    destruct (sentinel_written_is_Some contractName s
                (classification_events contractName contract bf)) as [m Hm'].
    rewrite <- Hc2 in Hm'.
    destruct (stored_effects contractName bf
                (with_events [EJSONParse (build_michelson bf)] s2) m Hm')
      as (_ & _ & _ & Ht' & _).
    rewrite Ht'. cbn. rewrite Ht2. eexists. cbn. rewrite <- !app_assoc. reflexivity.
Qed.

Lemma ValidateRun_success (contractName : string) (s : St) (v : Checked) (s' : St) :
  ValidateRun contractName s (Ok v) s' →
  truthy (checked_entry contractName s) = false →
  ∃ contract buildFile valid,
    classified contractName s contract buildFile valid ∧
    (valid = BuildValid ∨ valid = INVALID_HASH) ∧
    JSON_parse (build_michelson buildFile) = inr v.
Proof.
  intros Hrun Hs. remember (Ok v) as r eqn:Hr.
  destruct Hrun as [code' H | | | | | | | contract bf Hc | | contract bf s2 Hc Hrun];
    try discriminate Hr.
  - rewrite H in Hs. discriminate Hs.
  - exists contract, bf, BuildValid. split; [exact Hc|]. split; [left; reflexivity|].
    unfold parse_outcome in Hr.
    destruct (JSON_parse _); [discriminate Hr|]. injection Hr as ->. reflexivity.
  - exists contract, bf, INVALID_HASH. split; [exact Hc|]. split; [right; reflexivity|].
    unfold parse_outcome in Hr.
    destruct (JSON_parse _); [discriminate Hr|]. injection Hr as ->. reflexivity.
Qed.


Ltac events_in H :=
  repeat (rewrite ?elem_of_app, ?elem_of_cons, ?elem_of_nil in H);
  unfold classification_events in H;
  repeat (rewrite ?elem_of_app, ?elem_of_cons, ?elem_of_nil in H).

(** When [JSON.parse] is among the calls of a run, it is the parse of
    the payload of the build file the run read, and its outcome is the
    outcome of the run. *)
Lemma ValidateRun_parse_event (contractName : string) (s : St)
    (r : Res Checked) (s' : St) (evs : list Event) (payload : string) :
  ValidateRun contractName s r s' →
  trace s' = trace s ++ evs → EJSONParse payload ∈ evs →
  ∃ buildFile, payload = build_michelson buildFile ∧ r = parse_outcome contractName buildFile.
Proof.
  intros Hrun Ht Hin.
  destruct Hrun as [code H | Hm Hex | Hm Hex Hb | err Hm Hex Hb Hrc
          | contract err Hm Hex Hb Hrc Hrb
          | contract bf Hc | contract bf Hc | contract bf Hc
          | contract bf err s2 Hc Hrun | contract bf s2 Hc Hrun].
  - rewrite <- (app_nil_r (trace s)) in Ht at 1. apply app_inv_head in Ht. subst evs.
    events_in Hin. tauto.
  - apply app_inv_head in Ht. subst evs. events_in Hin. intuition discriminate.
  - apply app_inv_head in Ht. subst evs. events_in Hin. intuition discriminate.
  - apply app_inv_head in Ht. subst evs. events_in Hin. intuition discriminate.
  - apply app_inv_head in Ht. subst evs. events_in Hin. intuition discriminate.
  - apply app_inv_head in Ht. subst evs. events_in Hin. intuition discriminate.
  - apply app_inv_head in Ht. subst evs. events_in Hin. intuition discriminate.
  - destruct (sentinel_written_is_Some contractName s
                (classification_events contractName contract bf
                   ++ [EJSONParse (build_michelson bf)])) as [m Hm'].
    destruct (stored_effects contractName bf _ m Hm') as (_ & _ & _ & Ht' & _).
    rewrite Ht' in Ht. apply app_inv_head in Ht. subst evs. events_in Hin.
    exists bf. split; [|reflexivity]. intuition congruence.
  - destruct (OutdatedRun_effects _ _ _ _ Hrun) as (_ & _ & _ & hevs & Ht2 & Hall).
    rewrite Ht2 in Ht. cbn in Ht. rewrite <- app_assoc in Ht.
    apply app_inv_head in Ht. subst evs.
    rewrite elem_of_app in Hin. destruct Hin as [Hin|Hin].
    + events_in Hin. intuition discriminate.
    + rewrite Forall_forall in Hall. specialize (Hall _ Hin). discriminate Hall.
  - destruct (OutdatedRun_effects _ _ _ _ Hrun) as (Hc2 & _ & _ & hevs & Ht2 & Hall).
    destruct (sentinel_written_is_Some contractName s
                (classification_events contractName contract bf)) as [m Hm'].
    rewrite <- Hc2 in Hm'.
    destruct (stored_effects contractName bf
                (with_events [EJSONParse (build_michelson bf)] s2) m Hm')
      as (_ & _ & _ & Ht' & _).
    rewrite Ht' in Ht. cbn in Ht. rewrite Ht2 in Ht. cbn in Ht.
    rewrite <- !app_assoc in Ht. apply app_inv_head in Ht. subst evs.
    exists bf. split; [|reflexivity].
    rewrite !elem_of_app in Hin. destruct Hin as [Hin|[Hin|Hin]].
    + events_in Hin. intuition discriminate.
    + rewrite Forall_forall in Hall. specialize (Hall _ Hin). discriminate Hall.
    + events_in Hin. intuition congruence.
Qed.

Lemma includes_self (t : string) : includes t t = true.
Proof.
  assert (H : startsWith t t = true).
  { induction t as [|a t IH]; simpl; [reflexivity|].
    destruct (decide (a = a)); [exact IH|congruence]. }
  destruct t; simpl in *; [reflexivity|]. rewrite H. reflexivity.
Qed.

Lemma includes_msg_parse (contractName : string) (err : JsError) :
  includes contractName (msg_parse contractName err) = true ∧
  includes (err_toString err) (msg_parse contractName err) = true.
Proof.
  unfold msg_parse. split; [auto 10 with strs|].
  do 3 apply includes_app_r. apply includes_self.
Qed.

Lemma msg_parse_distinct (contractName : string) (err : JsError) (n p : string) :
  msg_parse contractName err ≠ msg_doesnt_exist n ∧
  msg_parse contractName err ≠ msg_never_compiled n ∧
  msg_parse contractName err ≠ msg_michelson_missing n ∧
  msg_parse contractName err ≠ msg_different_source n p ∧
  msg_parse contractName err ≠ msg_outdated n.
Proof. repeat split; discriminate. Qed.

(** C8: whenever a call of [validateContract] hands a payload to
    [JSON.parse] and the parse throws, the call throws the "Failed to
    parse JSON-Michelson" error and the entry of the contract holds the
    sentinel, so no code is cached.  A call gets there when the build is
    classified valid, and when it is classified outdated and
    [handleOutdatedBuildfile] returns.  The message names the contract,
    carries the text of the parse error, and differs from the message of
    every other [throw] of the function. *)
Theorem validateContract_malformed_payload (contractName : string) (s : St)
    (err : JsError) :
  let r := fst (validateContract contractName s) in
  let s' := snd (validateContract contractName s) in
  (∀ evs payload,
     trace s' = trace s ++ evs → EJSONParse payload ∈ evs →
     JSON_parse payload = inl err →
     r = Throw (Error (msg_parse contractName err)) ∧
     checked_entry contractName s' = Some CFalse) ∧
  (∀ contract buildFile,
     classified contractName s contract buildFile BuildValid →
     JSON_parse (build_michelson buildFile) = inl err →
     r = Throw (Error (msg_parse contractName err)) ∧
     checked_entry contractName s' = Some CFalse) ∧
  (∀ contract buildFile s2,
     classified contractName s contract buildFile INVALID_HASH →
     handleOutdatedBuildfile contractName
       (with_events (classification_events contractName contract buildFile)
                    (sentinel_written contractName s)) = (Ok tt, s2) →
     JSON_parse (build_michelson buildFile) = inl err →
     r = Throw (Error (msg_parse contractName err)) ∧
     checked_entry contractName s' = Some CFalse) ∧
  includes contractName (msg_parse contractName err) = true ∧
  includes (err_toString err) (msg_parse contractName err) = true ∧
  (∀ n p,
     msg_parse contractName err ≠ msg_doesnt_exist n ∧
     msg_parse contractName err ≠ msg_never_compiled n ∧
     msg_parse contractName err ≠ msg_michelson_missing n ∧
     msg_parse contractName err ≠ msg_different_source n p ∧
     msg_parse contractName err ≠ msg_outdated n).
Proof.
  cbv zeta.
  pose proof (validateContract_complete contractName s) as Hrun.
  destruct (validateContract contractName s) as [r s'] eqn:Hv. cbn [fst snd] in *.
  destruct (ValidateRun_effects _ _ _ _ Hrun) as (_ & _ & _ & He & _).
  assert (Hparsed : ∀ buildFile,
            r = parse_outcome contractName buildFile →
            JSON_parse (build_michelson buildFile) = inl err →
            r = Throw (Error (msg_parse contractName err)) ∧
            checked_entry contractName s' = Some CFalse).
  { intros bf -> Hparse. unfold parse_outcome in *. rewrite Hparse in *.
    split; [reflexivity|exact He]. }
  refine (conj _ (conj _ (conj _ (conj _ (conj _ _))))).
  - intros evs payload Ht Hin Hparse.
    destruct (ValidateRun_parse_event _ _ _ _ _ _ Hrun Ht Hin) as (bf & -> & Hr).
    exact (Hparsed bf Hr Hparse).
  - intros contract bf Hcl Hparse. apply (Hparsed bf); [|exact Hparse].
    pose proof (validateContract_sound _ _ _ _ (run_valid _ _ _ _ Hcl)) as Hv'.
    congruence.
  - intros contract bf s2 Hcl Hh Hparse. apply (Hparsed bf); [|exact Hparse].
    apply handleOutdatedBuildfile_run in Hh.
    pose proof (validateContract_sound _ _ _ _ (run_outdated_goes_on _ _ _ _ _ Hcl Hh)) as Hv'.
    congruence.
  - apply includes_msg_parse.
  - apply includes_msg_parse.
  - intros n p. apply msg_parse_distinct.
Qed.

(** C10: on the [INVALID_HASH] path, when [handleOutdatedBuildfile]
    returns (the override is set, or the compiler ran and succeeded),
    the call parses the payload of the build file it read before, in the
    world as it was then: the outcome is the parse of that payload, and
    its code is what is returned and cached.  The build file is read
    once, before [handleOutdatedBuildfile]; among the calls made from
    there on, the compiler's included, none reads it again. *)
Theorem validateContract_parses_the_build_read_before
    (contractName : string) (s : St) (contract : string) (buildFile : BuildFile) (s2 : St) :
  classified contractName s contract buildFile INVALID_HASH →
  handleOutdatedBuildfile contractName
    (with_events (classification_events contractName contract buildFile)
                 (sentinel_written contractName s)) = (Ok tt, s2) →
  let r := fst (validateContract contractName s) in
  let s' := snd (validateContract contractName s) in
  bundle_readBuildFile contractName (world s) = inr buildFile ∧
  r = parse_outcome contractName buildFile ∧
  (∀ code, JSON_parse (build_michelson buildFile) = inr code →
     r = Ok code ∧ checked_entry contractName s' = Some code) ∧
  world s' = world s2 ∧
  ∃ hevs,
    trace s' = trace s ++ classification_events contractName contract buildFile
                       ++ hevs ++ [EJSONParse (build_michelson buildFile)] ∧
    Forall (λ e, is_outdated_step e = true) hevs ∧
    count_events is_readBuildFile (hevs ++ [EJSONParse (build_michelson buildFile)]) = 0 ∧
    count_events is_readBuildFile
      (classification_events contractName contract buildFile
         ++ hevs ++ [EJSONParse (build_michelson buildFile)]) = 1.
Proof.
  intros Hcl Hh. cbv zeta.
  apply handleOutdatedBuildfile_run in Hh.
  rewrite (validateContract_sound _ _ _ _ (run_outdated_goes_on _ _ _ _ _ Hcl Hh)).
  cbn [fst snd].
  destruct (OutdatedRun_effects _ _ _ _ Hh) as (Hc2 & _ & _ & hevs & Ht2 & Hall).
  destruct (sentinel_written_is_Some contractName s
              (classification_events contractName contract buildFile)) as [m Hm].
  rewrite <- Hc2 in Hm.
  destruct (stored_effects contractName buildFile
              (with_events [EJSONParse (build_michelson buildFile)] s2) m Hm)
    as (_ & _ & Hw' & Ht' & _ & He').
  refine (conj _ (conj eq_refl (conj _ (conj Hw' _)))).
  - apply Hcl.
  - intros code Hparse. unfold parse_outcome in *. rewrite Hparse in *.
    split; [reflexivity|exact (proj2 He')].
  - exists hevs. split; [|split; [exact Hall|]].
    + rewrite Ht'. cbn. rewrite Ht2. cbn. rewrite <- !app_assoc. reflexivity.
    + assert (H0 : count_events is_readBuildFile hevs = 0).
      { apply (count_events_none _ _ _ Hall). intros []; simpl; congruence. }
      rewrite !count_events_app, H0. split; reflexivity.
Qed.

(** ** [deployContract] by stages *)

Lemma deployContract_steps (contractName : string) (storage : Storage)
    (signer : option TezosSigner) (s : St) :
  deployContract contractName storage signer s =
    match _setSigner (tezosDefaultSigner s) s with
    | (Throw e, s1) => (Throw e, s1)
    | (Ok _, s1) =>
        match deployed_entry contractName s1 with
        | Some (String _ _ as contractAddress) =>
            fetch_deployed contractName contractAddress s1
        | _ => deploy_fresh contractName storage (default (tezosDefaultSigner s) signer) s1
        end
    end.
Proof.
  unfold deployContract, fetch_deployed, deploy_fresh, originate, deployed_entry.
  unfold bind at 1. unfold get at 1. unfold bind at 1.
  destruct (_setSigner (tezosDefaultSigner s) s) as [[[]|e] s1]; [|reflexivity].
  unfold bind at 1. unfold get at 1.
  destruct (tezosDeployedContracts s1 ≫= _) as [[|a addr]|]; reflexivity.
Qed.

Lemma _setSigner_set (signer : TezosSigner) (s : St) :
  isSignerSet s = true → _setSigner signer s = (Ok tt, s).
Proof.
  intros H. unfold _setSigner. destruct s as [cc dc ds iss cfg ts w tr].
  run. subst iss. reflexivity.
Qed.

(** What [_setSigner] changes: the signer of the client and the flag,
    by at most one call, and nothing once the flag is set. *)
Lemma _setSigner_effects (signer : TezosSigner) (s : St) :
  let r := fst (_setSigner signer s) in
  let s' := snd (_setSigner signer s) in
  _checkedContracts s' = _checkedContracts s ∧
  tezosDeployedContracts s' = tezosDeployedContracts s ∧
  tezosDefaultSigner s' = tezosDefaultSigner s ∧
  config s' = config s ∧
  (r = Ok tt → isSignerSet s' = true) ∧
  (r = Ok tt → isSignerSet s = false → Tezos_signer s' = Some signer) ∧
  ∃ evs, trace s' = trace s ++ evs ∧ Forall (λ e, is_signer_step e = true) evs.
Proof.
  unfold _setSigner. destruct s as [cc dc ds iss cfg ts w tr].
  run. destruct iss; run.
  - repeat split; try reflexivity; try discriminate.
    exists []. rewrite app_nil_r. split; [reflexivity|constructor].
  - destruct signer as [f|k]; run.
    + destruct (importKey _ _ _ _ w) as [[|err installed] w']; run.
      * repeat split; try reflexivity.
        eexists. split; [reflexivity|repeat constructor].
      * destruct installed; run.
        all: repeat split; try reflexivity; try discriminate.
        all: eexists; split; [reflexivity|repeat constructor].
    + destruct (InMemorySigner_new k) as [err|[]]; run.
      * repeat split; try reflexivity; try discriminate.
        eexists. split; [reflexivity|repeat constructor].
      * repeat split; try reflexivity.
        eexists. split; [reflexivity|repeat constructor].
Qed.

Lemma includes_msg_access (contractName contractAddress : string) (err : JsError) :
  includes contractName (msg_access contractName contractAddress err) = true ∧
  includes contractAddress (msg_access contractName contractAddress err) = true ∧
  includes (err_message err) (msg_access contractName contractAddress err) = true.
Proof. unfold msg_access. repeat split; auto 15 with strs. Qed.

(** C4: when the registry holds an address (a non-empty string) for
    the contract, [deployContract], once the default signer is in place,
    calls [Tezos.contract.at] with that address, exactly once, and its
    result is the handle fetched or, when the fetch fails, an error whose
    message names the contract, the address and the cause.  In every
    case, the failure of the signer's set-up included, it makes no call
    of an origination, none of the validation (no check, no read, no
    compilation, no parse), and leaves the cache of checked contracts and
    the configuration as they are. *)
Theorem deployContract_registered_address (contractName : string) (storage : Storage)
    (signer : option TezosSigner) (s : St) (contractAddress : string) :
  deployed_entry contractName s = Some contractAddress →
  contractAddress ≠ "" →
  let r1 := fst (_setSigner (tezosDefaultSigner s) s) in
  let s1 := snd (_setSigner (tezosDefaultSigner s) s) in
  let r := fst (deployContract contractName storage signer s) in
  let s' := snd (deployContract contractName storage signer s) in
  (∀ e, r1 = Throw e → r = Throw e ∧ s' = s1) ∧
  (r1 = Ok tt →
     r = match fst (Tezos_contract_at contractAddress (world s1)) with
         | inr handle => Ok handle
         | inl err => Throw (Error (msg_access contractName contractAddress err))
         end ∧
     s' = set_world (snd (Tezos_contract_at contractAddress (world s1)))
            (with_events [EContractAt contractAddress] s1)) ∧
  (∃ evs, trace s' = trace s ++ evs ∧
     count_events is_origination_step evs = 0 ∧
     count_events is_validation evs = 0 ∧
     (r1 = Ok tt → count_events is_contract_at evs = 1 ∧ EContractAt contractAddress ∈ evs)) ∧
  _checkedContracts s' = _checkedContracts s ∧
  config s' = config s ∧
  tezosDeployedContracts s' = tezosDeployedContracts s ∧
  (∀ err,
     includes contractName (msg_access contractName contractAddress err) = true ∧
     includes contractAddress (msg_access contractName contractAddress err) = true ∧
     includes (err_message err) (msg_access contractName contractAddress err) = true).
Proof.
  intros Hentry Hne. cbv zeta. rewrite deployContract_steps.
  destruct (_setSigner_effects (tezosDefaultSigner s) s)
    as (Hcc & Hdc & _ & Hcfg & _ & _ & sevs & Hts & Hall).
  assert (H0 : ∀ p, (∀ e, is_signer_step e = true → p e = false) → count_events p sevs = 0)
    by (intros p Hp; exact (count_events_none _ _ _ Hall Hp)).
  destruct (_setSigner (tezosDefaultSigner s) s) as [[[]|e] s1]; cbn [fst snd] in *.
  - assert (He1 : deployed_entry contractName s1 = Some contractAddress)
      by (unfold deployed_entry in *; rewrite Hdc; exact Hentry).
    rewrite He1. destruct contractAddress as [|a addr]; [congruence|].
    unfold fetch_deployed. destruct s1 as [cc dc ds iss cfg ts w tr]. run.
    destruct (Tezos_contract_at (String a addr) w) as [[err|handle] w']; run.
    all: refine (conj _ (conj _ (conj _ (conj Hcc (conj Hcfg (conj Hdc _)))))).
    all: try (intros ? ?; discriminate).
    all: try (intros _; split; reflexivity).
    all: try (intros err'; apply includes_msg_access).
    all: exists (sevs ++ [EContractAt (String a addr)]).
    all: rewrite Hts, <- app_assoc; split; [reflexivity|].
    all: rewrite !count_events_app, !H0 by (intros []; simpl; congruence).
    all: repeat split; try reflexivity.
    all: rewrite elem_of_app, elem_of_cons; auto.
  - refine (conj _ (conj _ (conj _ (conj Hcc (conj Hcfg (conj Hdc _)))))).
    + intros e' [= <-]. split; reflexivity.
    + discriminate.
    + exists sevs. split; [exact Hts|]. rewrite !H0 by (intros []; simpl; congruence).
      repeat split. all: discriminate.
    + intros err. apply includes_msg_access.
Qed.

Lemma originate_spec (contractName : string) (code : Code) (storage : Storage) (s : St) :
  originate contractName code storage s =
    match Tezos_contract_originate code storage (world s) with
    | (inl err, w1) =>
        (Throw (Error (msg_deploy contractName err)),
         set_world w1 (with_events [EOriginate code storage] s))
    | (inr op, w1) =>
        match op_contract op w1 with
        | (inl err, w2) =>
            (Throw (Error (msg_deploy contractName err)),
             set_world w2 (with_events [EOriginate code storage; EOpContract op] s))
        | (inr handle, w2) =>
            (Ok handle,
             set_world w2 (with_events [EOriginate code storage; EOpContract op] s))
        end
    end.
Proof.
  unfold originate. destruct s as [cc dc ds iss cfg ts w tr]. run.
  destruct (Tezos_contract_originate code storage w) as [[err|op] w1]; run; [reflexivity|].
  destruct (op_contract op w1) as [[err|handle] w2]; run; traces; reflexivity.
Qed.

(** What an origination leaves alone, and the call it starts with. *)
Lemma originate_effects (contractName : string) (code : Code) (storage : Storage) (s : St) :
  let s' := snd (originate contractName code storage s) in
  _checkedContracts s' = _checkedContracts s ∧
  tezosDeployedContracts s' = tezosDeployedContracts s ∧
  isSignerSet s' = isSignerSet s ∧
  Tezos_signer s' = Tezos_signer s ∧
  ∃ post, trace s' = trace s ++ EOriginate code storage :: post ∧
          count_events is_contract_at (EOriginate code storage :: post) = 0 ∧
          count_events is_originate (EOriginate code storage :: post) = 1.
Proof.
  cbv zeta. rewrite originate_spec.
  destruct (Tezos_contract_originate code storage (world s)) as [[err|op] w1].
  - repeat split. exists []. repeat split.
  - destruct (op_contract op w1) as [[err|handle] w2];
      repeat split; eexists; repeat split.
Qed.

(** The steps after the registry, with the signer flag set: the
    configuration file is read, the contract validated, and the code
    originated; the signer given to [_setSigner] at line 142 plays no
    part. *)
Lemma deploy_fresh_steps (contractName : string) (storage : Storage)
    (signer : TezosSigner) (s : St) :
  isSignerSet s = true →
  deploy_fresh contractName storage signer s =
    match bundle_readConfigFile (world s) with
    | inl err => (Throw err, with_events [EReadConfigFile] s)
    | inr _ =>
        match validateContract contractName (with_events [EReadConfigFile] s) with
        | (Throw e, s2) => (Throw e, s2)
        | (Ok (CCode code), s2) => originate contractName code storage s2
        | (Ok _, s2) => (Throw (Error (msg_unable contractName)), s2)
        end
    end.
Proof.
  intros Hset. unfold deploy_fresh.
  unfold bind at 1. unfold await_read at 1. unfold bind at 1.
  unfold emit, modify. fold (with_events [EReadConfigFile] s).
  change (world (with_events [EReadConfigFile] s)) with (world s).
  destruct (bundle_readConfigFile (world s)) as [err|cfg]; [reflexivity|].
  unfold bind at 1.
  pose proof (validateContract_complete contractName (with_events [EReadConfigFile] s)) as Hrun.
  destruct (validateContract contractName _) as [[[|code|v]|e] s2]; try reflexivity.
  cbn [fst snd] in Hrun.
  destruct (ValidateRun_effects _ _ _ _ Hrun) as (_ & (_ & _ & Hiss & _) & _).
  unfold bind, detached. rewrite _setSigner_set by (rewrite Hiss; exact Hset). cbn [snd].
  reflexivity.
Qed.

Lemma deploy_fresh_effects (contractName : string) (storage : Storage)
    (signer : TezosSigner) (s : St) :
  isSignerSet s = true →
  let r := fst (deploy_fresh contractName storage signer s) in
  let s' := snd (deploy_fresh contractName storage signer s) in
  tezosDeployedContracts s' = tezosDeployedContracts s ∧
  isSignerSet s' = true ∧
  Tezos_signer s' = Tezos_signer s ∧
  (∀ handle, r = Ok handle →
     ∃ code pre post,
       checked_entry contractName s' = Some (CCode code) ∧
       trace s' = trace s ++ pre ++ EOriginate code storage :: post).
Proof.
  intros Hset. cbv zeta. rewrite (deploy_fresh_steps _ _ _ _ Hset).
  destruct (bundle_readConfigFile (world s)) as [err|cfg].
  { repeat split; try exact Hset; try discriminate. }
  pose proof (validateContract_complete contractName (with_events [EReadConfigFile] s)) as Hrun.
  destruct (validateContract contractName _) as [r2 s2]. cbn [fst snd] in Hrun.
  destruct (ValidateRun_effects _ _ _ _ Hrun)
    as (_ & (Hdc & _ & Hiss & Hts) & _ & He & evs & Ht & _).
  cbn in Hdc, Hiss, Hts, Ht.
  destruct r2 as [[|code|v]|e]; cbn [fst snd].
  - repeat split; try congruence; try discriminate.
  - destruct (originate_effects contractName code storage s2)
      as (Hcc' & Hdc' & Hiss' & Hts' & post & Ht' & _).
    repeat split; try congruence.
    intros handle _. exists code, ([EReadConfigFile] ++ evs), post.
    split; [unfold checked_entry in *; rewrite Hcc'; exact He|].
    rewrite Ht', Ht, <- !app_assoc. reflexivity.
  - repeat split; try congruence; try discriminate.
  - repeat split; try congruence; try discriminate.
Qed.

Lemma deploy_fresh_cached (contractName : string) (storage : Storage)
    (signer : TezosSigner) (s : St) (code : Code) (cfg : Config) :
  isSignerSet s = true →
  checked_entry contractName s = Some (CCode code) →
  bundle_readConfigFile (world s) = inr cfg →
  deploy_fresh contractName storage signer s =
    originate contractName code storage (with_events [EReadConfigFile] s).
Proof.
  intros Hset He Hcfg. rewrite (deploy_fresh_steps _ _ _ _ Hset), Hcfg.
  rewrite (validateContract_hit _ _ code); [reflexivity|exact He].
Qed.

(** The signer argument of [deployContract] has no effect: line 142
    runs with the flag [isSignerSet] already set by line 119. *)
Lemma deployContract_ignores_signer (contractName : string) (storage : Storage)
    (signer1 signer2 : option TezosSigner) (s : St) :
  deployContract contractName storage signer1 s =
  deployContract contractName storage signer2 s.
Proof.
  rewrite !deployContract_steps.
  destruct (_setSigner_effects (tezosDefaultSigner s) s) as (_ & _ & _ & _ & Hset & _).
  destruct (_setSigner (tezosDefaultSigner s) s) as [[[]|e] s1]; [|reflexivity].
  cbn [fst snd] in Hset. specialize (Hset eq_refl).
  destruct (deployed_entry contractName s1) as [[|a addr]|]; try reflexivity.
  all: rewrite !(deploy_fresh_steps _ _ _ _ Hset); reflexivity.
Qed.

(** The signer of the client after [deployContract] is the one the
    set-up of the default signer left. *)
Lemma deployContract_Tezos_signer (contractName : string) (storage : Storage)
    (signer : option TezosSigner) (s : St) :
  Tezos_signer (snd (deployContract contractName storage signer s)) =
  Tezos_signer (snd (_setSigner (tezosDefaultSigner s) s)).
Proof.
  rewrite deployContract_steps.
  destruct (_setSigner_effects (tezosDefaultSigner s) s) as (_ & _ & _ & _ & Hset & _).
  destruct (_setSigner (tezosDefaultSigner s) s) as [[[]|e] s1]; [|reflexivity].
  cbn [fst snd] in *. specialize (Hset eq_refl).
  destruct (deployed_entry contractName s1) as [[|a addr]|].
  - apply (deploy_fresh_effects _ _ _ _ Hset).
  - unfold fetch_deployed. destruct s1. run.
    destruct (Tezos_contract_at _ _) as [[?|?] ?]; reflexivity.
  - apply (deploy_fresh_effects _ _ _ _ Hset).
Qed.

(** ** Code, once cached, stays *)

Lemma validateContract_keeps_code (contractName other : string) (s : St) (code : Code) :
  checked_entry contractName s = Some (CCode code) →
  checked_entry contractName (snd (validateContract other s)) = Some (CCode code).
Proof.
  intros He. destruct (decide (other = contractName)) as [->|Hne].
  - rewrite (validateContract_hit _ _ code He). exact He.
  - destruct (ValidateRun_effects _ _ _ _ (validateContract_complete other s))
      as (_ & _ & Ho & _).
    rewrite Ho by congruence. exact He.
Qed.

Lemma deployContract_keeps_code (contractName other : string) (storage : Storage)
    (signer : option TezosSigner) (s : St) (code : Code) :
  checked_entry contractName s = Some (CCode code) →
  checked_entry contractName (snd (deployContract other storage signer s)) =
    Some (CCode code).
Proof.
  intros He. rewrite deployContract_steps.
  destruct (_setSigner_effects (tezosDefaultSigner s) s) as (Hcc & _ & _ & _ & Hset & _).
  destruct (_setSigner (tezosDefaultSigner s) s) as [[[]|e] s1]; cbn [fst snd] in *.
  2: { unfold checked_entry in *. rewrite Hcc. exact He. }
  specialize (Hset eq_refl).
  assert (He1 : checked_entry contractName s1 = Some (CCode code))
    by (unfold checked_entry in *; rewrite Hcc; exact He).
  assert (Hfresh : ∀ sg,
    checked_entry contractName (snd (deploy_fresh other storage sg s1)) = Some (CCode code)).
  { intros sg. rewrite (deploy_fresh_steps _ _ _ _ Hset).
    destruct (bundle_readConfigFile (world s1)) as [err|cfg]; [exact He1|].
    pose proof (validateContract_keeps_code contractName other
                  (with_events [EReadConfigFile] s1) code He1) as He2.
    destruct (validateContract other _) as [[[|code'|v']|e] s2]; cbn [fst snd] in *;
      try exact He2.
    destruct (originate_effects other code' storage s2) as (Hcc' & _).
    unfold checked_entry in *. rewrite Hcc'. exact He2. }
  destruct (deployed_entry other s1) as [[|a addr]|]; try apply Hfresh.
  unfold fetch_deployed. destruct s1. run.
  destruct (Tezos_contract_at _ _) as [[?|?] ?]; exact He1.
Qed.

Lemma after_calls_keeps_code (contractName : string) (calls : list Call) (s : St)
    (code : Code) :
  checked_entry contractName s = Some (CCode code) →
  checked_entry contractName (after_calls calls s) = Some (CCode code).
Proof.
  revert s. induction calls as [|c calls IH]; intros s He; [exact He|].
  apply IH. destruct c as [other|other storage signer]; simpl.
  - apply validateContract_keeps_code, He.
  - apply deployContract_keeps_code, He.
Qed.

(** C2: the cache of checked contracts.  What a call returns is what
    the entry of the contract then holds; the entry holds code after a
    call exactly when the call returned that code, and a call that was
    not served from the cache returns a value only as the parse of the
    payload of a build file that was classified valid or outdated.  When
    the call throws, the entry holds the sentinel [false]; the next call
    then starts again with the first check, and in an unchanged world it
    throws the same error.  When the entry holds code, the call returns
    it and leaves the state as it is, the trace included: nothing is
    read; and so does every later call, after any sequence of calls of
    [validateContract] and [deployContract], for this contract or
    others.  When the value returned and stored is not code but a falsy
    value ([null], [0], the empty string, [false]), the next call is not
    served from the cache: it starts again with the first check.
    Entries of other contracts are not touched. *)
Theorem checked_contracts_cache (contractName : string) (s : St) :
  let r := fst (validateContract contractName s) in
  let s' := snd (validateContract contractName s) in
  (∀ code, checked_entry contractName s' = Some (CCode code) ↔ r = Ok (CCode code)) ∧
  (∀ v, r = Ok v →
     checked_entry contractName s' = Some v ∧
     (truthy (Some v) = false →
      ∃ evs, trace (snd (validateContract contractName s')) =
               trace s' ++ EGetContractFile contractName
                        :: EExists (bundle_getContractFile contractName) :: evs)) ∧
  (∀ v, truthy (checked_entry contractName s) = false → r = Ok v →
     ∃ contract buildFile valid,
       classified contractName s contract buildFile valid ∧
       (valid = BuildValid ∨ valid = INVALID_HASH) ∧
       JSON_parse (build_michelson buildFile) = inr v) ∧
  (∀ e, r = Throw e →
     checked_entry contractName s' = Some CFalse ∧
     (∃ evs, trace (snd (validateContract contractName s')) =
               trace s' ++ EGetContractFile contractName
                        :: EExists (bundle_getContractFile contractName) :: evs) ∧
     (world s' = world s → fst (validateContract contractName s') = Throw e)) ∧
  (∀ code, checked_entry contractName s = Some (CCode code) →
     validateContract contractName s = (Ok (CCode code), s)) ∧
  (∀ other, other ≠ contractName → checked_entry other s' = checked_entry other s) ∧
  (∀ code calls, checked_entry contractName s = Some (CCode code) →
     validateContract contractName (after_calls calls s) =
       (Ok (CCode code), after_calls calls s)).
Proof.
  cbv zeta. pose proof (validateContract_complete contractName s) as Hrun.
  destruct (validateContract contractName s) as [r s'] eqn:Hv. cbn [fst snd] in *.
  destruct (ValidateRun_effects _ _ _ _ Hrun) as (Hl & Hd & Ho & He & evs & Ht & Hall).
  refine (conj _ (conj _ (conj _ (conj _ (conj _ (conj _ _)))))).
  - intros code. destruct r as [v|e].
    + rewrite He. split; congruence.
    + rewrite He. split; discriminate.
  - intros v ->. split; [exact He|]. intros Hf.
    eapply ValidateRun_starts; [apply validateContract_complete|rewrite He; exact Hf].
  - intros v Hs ->. eapply ValidateRun_success; eassumption.
  - intros e ->.
    assert (Hs : truthy (checked_entry contractName s) = false).
    { destruct (checked_entry contractName s) as [[|code|v]|] eqn:Hs; try reflexivity.
      rewrite (validateContract_hit _ _ code Hs) in Hv. discriminate Hv. }
    assert (Hs' : truthy (checked_entry contractName s') = false) by (rewrite He; reflexivity).
    split; [exact He|]. split.
    + eapply ValidateRun_starts; [apply validateContract_complete|exact Hs'].
    + intros Hw.
      destruct (ValidateRun_replay _ _ _ _ s' Hrun Hs Hs' Hw Hl) as [t' Hrun'].
      rewrite (validateContract_sound _ _ _ _ Hrun'). reflexivity.
  - intros code Hs. rewrite (validateContract_hit _ _ code Hs) in Hv. congruence.
  - exact Ho.
  - intros code calls Hs. apply validateContract_hit, after_calls_keeps_code, Hs.
Qed.

(** C9: no call of [deployContract] changes the registry of deployed
    contracts.  When the registry holds no address for the contract and
    the call succeeds, it has originated the code it cached; a further
    call for the same contract, whatever its storage and signer, once it
    has read the configuration file, originates that code again and
    fetches nothing; the registry is still as it was. *)
Theorem deployContract_registry_unchanged (contractName : string) (storage : Storage)
    (signer : option TezosSigner) (s : St) :
  let r := fst (deployContract contractName storage signer s) in
  let s' := snd (deployContract contractName storage signer s) in
  tezosDeployedContracts s' = tezosDeployedContracts s ∧
  (truthy_str (deployed_entry contractName s) = false →
   ∀ handle, r = Ok handle →
     ∃ code,
       checked_entry contractName s' = Some (CCode code) ∧
       (∃ pre post, trace s' = trace s ++ pre ++ EOriginate code storage :: post) ∧
       ∀ storage2 signer2 cfg,
         bundle_readConfigFile (world s') = inr cfg →
         ∃ post,
           trace (snd (deployContract contractName storage2 signer2 s')) =
             trace s' ++ EReadConfigFile :: EOriginate code storage2 :: post ∧
           count_events is_contract_at
             (EReadConfigFile :: EOriginate code storage2 :: post) = 0 ∧
           count_events is_originate
             (EReadConfigFile :: EOriginate code storage2 :: post) = 1 ∧
           tezosDeployedContracts (snd (deployContract contractName storage2 signer2 s')) =
             tezosDeployedContracts s).
Proof.
  cbv zeta. rewrite deployContract_steps.
  destruct (_setSigner_effects (tezosDefaultSigner s) s)
    as (_ & Hdc & _ & _ & Hset & _ & sevs & Hts & _).
  destruct (_setSigner (tezosDefaultSigner s) s) as [[[]|e] s1]; cbn [fst snd] in *.
  2: { split; [exact Hdc|]. intros _ handle [=]. }
  specialize (Hset eq_refl).
  assert (He1 : deployed_entry contractName s1 = deployed_entry contractName s)
    by (unfold deployed_entry; rewrite Hdc; reflexivity).
  rewrite He1.
  destruct (deployed_entry contractName s) as [[|a addr]|] eqn:Hentry.
  2: { split; [|discriminate]. unfold fetch_deployed. destruct s1. run.
       destruct (Tezos_contract_at _ _) as [[?|?] ?]; exact Hdc. }
  all: destruct (deploy_fresh_effects contractName storage
                   (default (tezosDefaultSigner s) signer) s1 Hset)
         as (Hdc' & Hset' & _ & Hok).
  all: split; [congruence|]. all: intros _ handle Hr.
  all: destruct (Hok handle Hr) as (code & pre & post & He' & Ht').
  all: exists code; split; [exact He'|]; split;
         [exists (sevs ++ pre), post; rewrite Ht', Hts, <- !app_assoc; reflexivity|].
  all: intros storage2 signer2 cfg Hcfg.
  all: rewrite deployContract_steps, _setSigner_set by exact Hset'.
  all: replace (deployed_entry contractName
                  (snd (deploy_fresh contractName storage
                          (default (tezosDefaultSigner s) signer) s1)))
         with (deployed_entry contractName s)
         by (unfold deployed_entry in *; congruence).
  all: rewrite Hentry.
  all: rewrite (deploy_fresh_cached _ _ _ _ code cfg Hset' He' Hcfg).
  all: match goal with |- context [originate ?n ?c ?st ?x] =>
         destruct (originate_effects n c st x)
           as (_ & Hdc2 & _ & _ & post2 & Ht2 & Hc2 & Ho2) end.
  all: exists post2; split; [rewrite Ht2; cbn; rewrite <- app_assoc; reflexivity|].
  all: split; [exact Hc2|]. all: split; [exact Ho2|].
  all: rewrite Hdc2; cbn; congruence.
Qed.

(** ** More on [validateContract] *)

(** X1: when the build is classified valid, the call returns the parse
    of the payload and caches its code; it reads neither the environment
    nor the configuration, does not call the compiler, and leaves the
    world and the memoized configuration as they are. *)
Theorem validateContract_valid_build
    (contractName : string) (s : St) (contract : string) (buildFile : BuildFile) :
  classified contractName s contract buildFile BuildValid →
  let r := fst (validateContract contractName s) in
  let s' := snd (validateContract contractName s) in
  let evs := classification_events contractName contract buildFile
               ++ [EJSONParse (build_michelson buildFile)] in
  r = parse_outcome contractName buildFile ∧
  trace s' = trace s ++ evs ∧
  count_events is_envUseOldBuild evs = 0 ∧
  count_events is_readConfigFile evs = 0 ∧
  count_events is_compile evs = 0 ∧
  world s' = world s ∧
  config s' = config s ∧
  (∀ code, JSON_parse (build_michelson buildFile) = inr code →
     r = Ok code ∧ checked_entry contractName s' = Some code).
Proof.
  intros Hcl. cbv zeta.
  rewrite (validateContract_sound _ _ _ _ (run_valid _ _ _ _ Hcl)). cbn [fst snd].
  destruct (sentinel_written_is_Some contractName s
              (classification_events contractName contract buildFile
                 ++ [EJSONParse (build_michelson buildFile)])) as [m Hm].
  destruct (stored_effects contractName buildFile _ m Hm) as (_ & _ & Hw & Ht & _ & He).
  refine (conj eq_refl (conj Ht (conj eq_refl (conj eq_refl (conj eq_refl (conj Hw _)))))).
  split.
  - unfold stored. destruct (JSON_parse _); [reflexivity|]. cbn. reflexivity.
  - intros code Hparse. unfold parse_outcome in *. rewrite Hparse in *.
    split; [reflexivity|exact (proj2 He)].
Qed.

(** X2: a rejected read of the source file or of the build file is
    passed on as it is, after the two existence checks; nothing is called
    after the read that failed (the validator is not called), and the
    entry of the contract holds the sentinel. *)
Theorem validateContract_unreadable_files (contractName : string) (s : St) :
  truthy (checked_entry contractName s) = false →
  bundle_exists (bundle_getContractFile contractName) (world s) = true →
  bundle_buildFileExists contractName (world s) = true →
  (∀ err, bundle_readContract contractName (world s) = inl err →
     validateContract contractName s =
       (Throw err,
        with_events [EGetContractFile contractName;
                     EExists (bundle_getContractFile contractName);
                     EBuildFileExists contractName;
                     EReadContract contractName]
                    (sentinel_written contractName s))) ∧
  (∀ contract err,
     bundle_readContract contractName (world s) = inr contract →
     bundle_readBuildFile contractName (world s) = inl err →
     validateContract contractName s =
       (Throw err,
        with_events [EGetContractFile contractName;
                     EExists (bundle_getContractFile contractName);
                     EBuildFileExists contractName;
                     EReadContract contractName;
                     EGenerateHash contract;
                     EReadBuildFile contractName]
                    (sentinel_written contractName s))) ∧
  (∀ e, fst (validateContract contractName s) = Throw e →
     checked_entry contractName (snd (validateContract contractName s)) = Some CFalse).
Proof.
  intros Hm Hex Hb. split; [|split].
  - intros err Hrc. apply validateContract_sound, run_source_unreadable; assumption.
  - intros contract err Hrc Hrb.
    apply validateContract_sound. eapply run_build_unreadable; eassumption.
  - intros e Hr.
    destruct (ValidateRun_effects _ _ _ _ (validateContract_complete contractName s))
      as (_ & _ & _ & He & _).
    rewrite Hr in He. exact He.
Qed.

Ltac kinds :=
  let e := fresh "e" in
  intros e; destruct e; cbn; lia.

Ltac names :=
  repeat constructor; cbn; intros; congruence.

Ltac tidy :=
  unfold tidy_run, stored, with_events, sentinel_written, config_events,
    classification_events, loaded_config in *;
  run;
  repeat match goal with
         | |- context [JSON_parse ?p] => destruct (JSON_parse p)
         | |- context [match ?c with Some _ => _ | None => _ end] => is_var c; destruct c
         end;
  run;
  traces; eexists;
  (split; [reflexivity|]); (split; [kinds|]); (split; [names|]);
  cbn; intros; first [reflexivity | lia | congruence].

Lemma ValidateRun_tidy (contractName : string) (s : St) (r : Res Checked) (s' : St) :
  ValidateRun contractName s r s' → ∃ evs, tidy_run contractName s s' evs.
Proof.
  intros [code H | Hm Hex | Hm Hex Hb | err Hm Hex Hb Hrc | contract err Hm Hex Hb Hrc Hrb
          | contract bf [Hm Hcl] | contract bf [Hm Hcl] | contract bf [Hm Hcl]
          | contract bf err s2 Hcl Hrun | contract bf s2 Hcl Hrun].
  - exists []. unfold tidy_run. rewrite app_nil_r.
    split; [reflexivity|]. split; [kinds|]. split; [constructor|reflexivity].
  - destruct s as [cc dc ds iss cfg ts w tr]. clear. tidy.
  - destruct s as [cc dc ds iss cfg ts w tr]. clear. tidy.
  - destruct s as [cc dc ds iss cfg ts w tr]. clear. tidy.
  - destruct s as [cc dc ds iss cfg ts w tr]. clear. tidy.
  - destruct s as [cc dc ds iss cfg ts w tr]. clear. tidy.
  - destruct s as [cc dc ds iss cfg ts w tr]. clear. tidy.
  - destruct s as [cc dc ds iss cfg ts w tr]. clear. tidy.
  - remember (Throw err) as r0 eqn:Hr.
    destruct s as [cc dc ds iss cfg ts w tr].
    destruct Hrun as [Henv | err' Henv Hc | c Henv Hc Hauto | c w' Henv Hc Hauto Hco
          | c err' w' Henv Hc Hauto Hco]; clear; tidy.
  - remember (Ok tt) as r0 eqn:Hr.
    destruct s as [cc dc ds iss cfg ts w tr].
    destruct Hrun as [Henv | err' Henv Hc | c Henv Hc Hauto | c w' Henv Hc Hauto Hco
          | c err' w' Henv Hc Hauto Hco]; clear; tidy.
Qed.

Lemma count_events_ext (p q : Event → bool) (evs : list Event) :
  (∀ e, p e = q e) → count_events p evs = count_events q evs.
Proof.
  intros H. induction evs as [|e evs IH]; [reflexivity|].
  simpl. rewrite H, IH. reflexivity.
Qed.

(** X3: in one call [validateContract] calls no collaborator twice: the
    compiler, the two reads, the hash, the validator and [JSON.parse]
    are each called at most once; and the world outside changes only if
    the compiler was called. *)
Theorem validateContract_calls_once (contractName : string) (s : St) :
  ∃ evs,
    trace (snd (validateContract contractName s)) = trace s ++ evs ∧
    (∀ e, count_events (same_kind e) evs ≤ 1) ∧
    count_events is_compile evs ≤ 1 ∧
    count_events is_readBuildFile evs ≤ 1 ∧
    count_events is_generateHash evs ≤ 1 ∧
    count_events is_isBuildValid evs ≤ 1 ∧
    count_events is_readConfigFile evs ≤ 1 ∧
    (count_events is_compile evs = 0 →
     world (snd (validateContract contractName s)) = world s).
Proof.
  destruct (ValidateRun_tidy _ _ _ _ (validateContract_complete contractName s))
    as (evs & Ht & Hk & _ & Hw).
  exists evs. split; [exact Ht|]. split; [exact Hk|].
  rewrite (count_events_ext is_compile (same_kind (ECompile ""))) by (intros []; reflexivity).
  rewrite (count_events_ext is_readBuildFile (same_kind (EReadBuildFile "")))
    by (intros []; reflexivity).
  rewrite (count_events_ext is_generateHash (same_kind (EGenerateHash "")))
    by (intros []; reflexivity).
  rewrite (count_events_ext is_isBuildValid
             (same_kind (EIsBuildValid "" "" (mkBuildFile "" "" ""))))
    by (intros []; reflexivity).
  rewrite (count_events_ext is_readConfigFile (same_kind EReadConfigFile))
    by (intros []; reflexivity).
  repeat split; try apply Hk.
  rewrite <- (count_events_ext is_compile (same_kind (ECompile ""))) by (intros []; reflexivity).
  exact Hw.
Qed.

(** X4: [validateContract] stays within its task: it changes neither
    the registry of deployed contracts nor the signer flag nor the signer
    of the client, calls neither the signer set-up nor the network, and
    the calls of the bundle and of the compiler that name a contract name
    the one being validated. *)
Theorem validateContract_stays_local (contractName : string) (s : St) :
  same_deployment s (snd (validateContract contractName s)) ∧
  ∃ evs,
    trace (snd (validateContract contractName s)) = trace s ++ evs ∧
    Forall (λ e, is_validation e = true) evs ∧
    count_events is_signer_step evs = 0 ∧
    count_events is_contract_at evs = 0 ∧
    count_events is_origination_step evs = 0 ∧
    Forall (λ e, ∀ n, event_contract e = Some n → n = contractName) evs.
Proof.
  pose proof (validateContract_complete contractName s) as Hrun.
  destruct (ValidateRun_effects _ _ _ _ Hrun) as (_ & Hd & _ & _ & evs & Ht & Hall).
  destruct (ValidateRun_tidy _ _ _ _ Hrun) as (evs' & Ht' & _ & Hn & _).
  assert (evs' = evs) as -> by (rewrite Ht in Ht'; exact (eq_sym (app_inv_head _ _ _ Ht'))).
  split; [exact Hd|]. exists evs. split; [exact Ht|]. split; [exact Hall|].
  repeat split; try exact Hn.
  all: apply (count_events_none _ _ _ Hall); intros []; simpl; congruence.
Qed.

(** ** More on [handleOutdatedBuildfile] *)

(** X5: [handleOutdatedBuildfile] returns normally exactly when the
    override is set, or the configuration in use has [autoCompile] on
    and the compiler succeeds.  It calls the compiler exactly when the
    override is not set and the configuration in use has [autoCompile]
    on, and then once; it reads the configuration file exactly when the
    override is not set and no configuration is memoized. *)
Theorem handleOutdatedBuildfile_returns_iff (contractName : string) (s : St) :
  let r := fst (handleOutdatedBuildfile contractName s) in
  let s' := snd (handleOutdatedBuildfile contractName s) in
  (r = Ok tt ↔
     process_env_USE_OLD_BUILD (world s) = Some "true" ∨
     ∃ c, loaded_config s = inr c ∧ autoCompile c = true ∧
          fst (compile contractName (world s)) = inr tt) ∧
  ∃ evs,
    trace s' = trace s ++ evs ∧
    count_events is_compile evs ≤ 1 ∧
    (ECompile contractName ∈ evs ↔
       process_env_USE_OLD_BUILD (world s) ≠ Some "true" ∧
       ∃ c, loaded_config s = inr c ∧ autoCompile c = true) ∧
    (EReadConfigFile ∈ evs ↔
       process_env_USE_OLD_BUILD (world s) ≠ Some "true" ∧ config s = None).
Proof.
  cbv zeta.
  destruct (decide (process_env_USE_OLD_BUILD (world s) = Some "true")) as [Henv|Henv].
  { rewrite handleOutdatedBuildfile_override by exact Henv. cbn [fst snd]. split.
    - split; [auto|reflexivity].
    - exists [EEnvUseOldBuild]. split; [reflexivity|]. split; [cbn; lia|].
      rewrite !list_elem_of_singleton. split; split; try discriminate; tauto. }
  destruct (loaded_config s) as [err|c] eqn:Hc.
  { rewrite (handleOutdatedBuildfile_config_unreadable _ _ err) by assumption.
    cbn [fst snd]. split.
    - split; [discriminate|]. intros [H|(c & [=] & _)]. contradiction.
    - exists [EEnvUseOldBuild; EReadConfigFile]. split; [reflexivity|]. split; [cbn; lia|].
      rewrite !elem_of_cons, !elem_of_nil.
      assert (Hnone : config s = None).
      { unfold loaded_config in Hc. destruct (config s); [discriminate|reflexivity]. }
      split; split.
      + intros [H|[H|[]]]; discriminate.
      + intros (_ & c & [=] & _).
      + auto.
      + auto. }
  assert (Hcfg : ∀ evs, EReadConfigFile ∈ EEnvUseOldBuild :: config_events s ++ evs ↔
                        (config s = None ∨ EReadConfigFile ∈ evs)).
  { intros evs. unfold config_events. destruct (config s).
    - rewrite elem_of_cons. cbn. split.
      + intros [H|H]; [discriminate H|auto].
      + intros [H|H]; [discriminate H|auto].
    - cbn. rewrite !elem_of_cons. split; [intros _; left; reflexivity|auto]. }
  destruct (autoCompile c) eqn:Hauto.
  - rewrite (handleOutdatedBuildfile_autoCompile_on _ _ c) by assumption. cbn [fst snd].
    split.
    + destruct (compile contractName (world s)) as [[err|[]] w']; cbn [fst]; split.
      * discriminate.
      * intros [H|(c' & _ & _ & [=])]. contradiction.
      * intros _. right. exists c. auto.
      * reflexivity.
    + exists (EEnvUseOldBuild :: config_events s ++ [ECompile contractName]).
      split; [reflexivity|]. split.
      { unfold config_events. destruct (config s); cbn; lia. }
      split.
      * split; [intros _; split; [exact Henv|exists c; auto]|].
        intros _. rewrite elem_of_cons, elem_of_app, list_elem_of_singleton. auto.
      * rewrite Hcfg, list_elem_of_singleton. split.
        -- intros [H|[=]]. auto.
        -- intros [_ H]. auto.
  - rewrite (handleOutdatedBuildfile_autoCompile_off _ _ c) by assumption. cbn [fst snd].
    split.
    + split; [discriminate|]. intros [H|(c' & [= <-] & H & _)]; [contradiction|congruence].
    + exists (EEnvUseOldBuild :: config_events s). split; [reflexivity|]. split.
      { unfold config_events. destruct (config s); cbn; lia. }
      split.
      * split.
        -- unfold config_events. destruct (config s); rewrite !elem_of_cons, ?elem_of_nil;
             intros H; exfalso; intuition discriminate.
        -- intros (_ & c' & [= <-] & H). congruence.
      * rewrite <- (app_nil_r (config_events s)), Hcfg, elem_of_nil. split.
        -- intros [H|[]]. auto.
        -- intros [_ H]. auto.
Qed.

(** ** More on [_setSigner] and [deployContract] *)

Lemma _setSigner_unset (signer : TezosSigner) (s : St) :
  isSignerSet s = false →
  _setSigner signer s =
    match signer_answer signer (world s) with
    | (inr _, w') =>
        (Ok tt,
         set_isSignerSet true
           (set_Tezos_signer (Some signer)
              (set_world w' (with_events [signer_call signer] s))))
    | (inl err, w') =>
        (Throw err,
         if signer_installed signer (world s)
         then set_Tezos_signer (Some signer)
                (set_world w' (with_events [signer_call signer] s))
         else set_world w' (with_events [signer_call signer] s))
    end.
Proof.
  intros H. unfold _setSigner, signer_answer, signer_installed, signer_call.
  destruct s as [cc dc ds iss cfg ts w tr]. run. subst iss.
  destruct signer as [f|k]; run.
  - destruct (importKey _ _ _ _ w) as [[|err installed] w']; run; [reflexivity|].
    destruct installed; reflexivity.
  - destruct (InMemorySigner_new k) as [err|[]]; reflexivity.
Qed.

(** What an origination leaves alone, and its calls. *)
Lemma originate_frame (contractName : string) (code : Code) (storage : Storage) (s : St) :
  let r := fst (originate contractName code storage s) in
  let s' := snd (originate contractName code storage s) in
  _checkedContracts s' = _checkedContracts s ∧
  config s' = config s ∧
  same_deployment s s' ∧
  ∃ post,
    trace s' = trace s ++ EOriginate code storage :: post ∧
    Forall (λ e, is_origination_step e = true) (EOriginate code storage :: post) ∧
    count_events is_originate (EOriginate code storage :: post) = 1 ∧
    (∀ handle, r = Ok handle →
       ∃ op w1, Tezos_contract_originate code storage (world s) = (inr op, w1) ∧
                fst (op_contract op w1) = inr handle ∧ post = [EOpContract op]) ∧
    (∀ e, r = Throw e → ∃ err, e = Error (msg_deploy contractName err)).
Proof.
  cbv zeta. rewrite originate_spec. unfold same_deployment.
  destruct (Tezos_contract_originate code storage (world s)) as [[err|op] w1] eqn:Ho.
  - cbn. repeat split. exists []. repeat split; try (repeat constructor).
    + intros handle [=].
    + intros e [= <-]. eauto.
  - destruct (op_contract op w1) as [[err|handle] w2] eqn:Hc; cbn; repeat split.
    + exists [EOpContract op]. repeat split; try (repeat constructor).
      * intros handle [=].
      * intros e [= <-]. eauto.
    + exists [EOpContract op]. repeat split; try (repeat constructor).
      * intros h [= <-]. exists op, w1. rewrite Hc. auto.
      * intros e [=].
Qed.

(** The calls of the steps after the registry: the read of the
    configuration file, those of the validation, those of an
    origination. *)
Lemma deploy_fresh_trace (contractName : string) (storage : Storage)
    (signer : TezosSigner) (s : St) :
  isSignerSet s = true →
  let r := fst (deploy_fresh contractName storage signer s) in
  let s' := snd (deploy_fresh contractName storage signer s) in
  ∃ vevs post,
    trace s' = trace s ++ EReadConfigFile :: vevs ++ post ∧
    Forall (λ e, is_validation e = true) vevs ∧
    Forall (λ e, is_origination_step e = true) post ∧
    count_events is_originate post ≤ 1 ∧
    (∀ handle, r = Ok handle → count_events is_originate post = 1).
Proof.
  intros Hset. cbv zeta. rewrite (deploy_fresh_steps _ _ _ _ Hset).
  destruct (bundle_readConfigFile (world s)) as [err|cfg].
  { exists [], []. cbn.
    refine (conj eq_refl (conj _ (conj _ (conj _ _))));
      [constructor | constructor | cbn; lia | intros h H; discriminate H]. }
  pose proof (validateContract_complete contractName (with_events [EReadConfigFile] s)) as Hrun.
  destruct (validateContract contractName _) as [r2 s2]. cbn [fst snd] in Hrun.
  destruct (ValidateRun_effects _ _ _ _ Hrun) as (_ & _ & _ & _ & vevs & Ht & Hall).
  cbn in Ht. rewrite <- app_assoc in Ht. cbn in Ht.
  destruct r2 as [[|code|v]|e]; cbn [fst snd].
  2: { destruct (originate_frame contractName code storage s2)
         as (_ & _ & _ & post & Ht' & Hpost & Hone & _).
       exists vevs, (EOriginate code storage :: post).
       split; [rewrite Ht', Ht, <- app_assoc; reflexivity|].
       split; [exact Hall|]. split; [exact Hpost|]. split; [lia|]. intros; exact Hone. }
  all: exists vevs, []; rewrite app_nil_r; cbn.
  all: refine (conj Ht (conj Hall (conj _ (conj _ _))));
         [constructor | cbn; lia | intros h H; discriminate H].
Qed.

Lemma _setSigner_calls (signer : TezosSigner) (s : St) :
  ∃ sevs,
    trace (snd (_setSigner signer s)) = trace s ++ sevs ∧
    Forall (λ e, is_signer_step e = true) sevs ∧
    length sevs ≤ 1 ∧
    (isSignerSet s = true → sevs = []) ∧
    (isSignerSet s = false → sevs = [signer_call signer]).
Proof.
  destruct (isSignerSet s) eqn:Hset.
  - rewrite (_setSigner_set _ _ Hset). exists []. rewrite app_nil_r.
    refine (conj eq_refl (conj _ (conj _ (conj _ _))));
      [constructor | cbn; lia | reflexivity | discriminate].
  - rewrite (_setSigner_unset _ _ Hset). exists [signer_call signer].
    assert (Hk : is_signer_step (signer_call signer) = true) by (destruct signer; reflexivity).
    destruct (signer_answer signer (world s)) as [[err|[]] w'];
      [destruct (signer_installed signer (world s))|];
      (refine (conj eq_refl (conj _ (conj _ (conj _ _))));
         [repeat constructor; exact Hk | cbn; lia | discriminate | reflexivity]).
Qed.

(** The calls of [deployContract]: those of the signer's set-up, then
    nothing (the set-up failed), or the fetch at the registered address,
    or the steps of a fresh deployment. *)
Lemma deployContract_outline (contractName : string) (storage : Storage)
    (signer : option TezosSigner) (s : St) :
  ∃ sevs evs,
    trace (snd (deployContract contractName storage signer s)) = trace s ++ sevs ++ evs ∧
    Forall (λ e, is_signer_step e = true) sevs ∧
    length sevs ≤ 1 ∧
    (isSignerSet s = true → sevs = []) ∧
    (isSignerSet s = false → sevs = [signer_call (tezosDefaultSigner s)]) ∧
    ((evs = [] ∧ ∃ e, fst (_setSigner (tezosDefaultSigner s) s) = Throw e) ∨
     (∃ a, deployed_entry contractName s = Some a ∧ a ≠ "" ∧ evs = [EContractAt a]) ∨
     (truthy_str (deployed_entry contractName s) = false ∧
      ∃ vevs post,
        evs = EReadConfigFile :: vevs ++ post ∧
        Forall (λ e, is_validation e = true) vevs ∧
        Forall (λ e, is_origination_step e = true) post ∧
        count_events is_originate post ≤ 1 ∧
        (∀ handle, fst (deployContract contractName storage signer s) = Ok handle →
           count_events is_originate post = 1))).
Proof.
  rewrite deployContract_steps.
  destruct (_setSigner_calls (tezosDefaultSigner s) s) as (sevs & Hts & Hall & Hlen & Hnil & Hone).
  destruct (_setSigner_effects (tezosDefaultSigner s) s) as (_ & Hdc & _ & _ & Hset & _).
  destruct (_setSigner (tezosDefaultSigner s) s) as [[[]|e] s1]; cbn [fst snd] in *.
  2: { exists sevs, []. rewrite app_nil_r. repeat split; auto. left. eauto. }
  specialize (Hset eq_refl).
  assert (He1 : deployed_entry contractName s1 = deployed_entry contractName s)
    by (unfold deployed_entry; rewrite Hdc; reflexivity).
  rewrite He1.
  assert (Hfresh : truthy_str (deployed_entry contractName s) = false →
    ∃ sevs0 evs,
      trace (snd (deploy_fresh contractName storage
                    (default (tezosDefaultSigner s) signer) s1)) = trace s ++ sevs0 ++ evs ∧
      Forall (λ e, is_signer_step e = true) sevs0 ∧ length sevs0 ≤ 1 ∧
      (isSignerSet s = true → sevs0 = []) ∧
      (isSignerSet s = false → sevs0 = [signer_call (tezosDefaultSigner s)]) ∧
      ((evs = [] ∧ ∃ e, @Ok unit tt = Throw e) ∨
       (∃ a, deployed_entry contractName s = Some a ∧ a ≠ "" ∧ evs = [EContractAt a]) ∨
       (truthy_str (deployed_entry contractName s) = false ∧
        ∃ vevs post,
          evs = EReadConfigFile :: vevs ++ post ∧
          Forall (λ e, is_validation e = true) vevs ∧
          Forall (λ e, is_origination_step e = true) post ∧
          count_events is_originate post ≤ 1 ∧
          (∀ handle, fst (deploy_fresh contractName storage
                            (default (tezosDefaultSigner s) signer) s1) = Ok handle →
             count_events is_originate post = 1)))).
  { intros Hfalsy.
    destruct (deploy_fresh_trace contractName storage
                (default (tezosDefaultSigner s) signer) s1 Hset)
      as (vevs & post & Ht & Hv & Hp & Hc & Hok).
    exists sevs, (EReadConfigFile :: vevs ++ post).
    split; [rewrite Ht, Hts, <- app_assoc; reflexivity|].
    repeat split; auto. right. right. split; [exact Hfalsy|].
    exists vevs, post. repeat split; auto. }
  destruct (deployed_entry contractName s) as [[|a addr]|] eqn:Hentry.
  - apply Hfresh. reflexivity.
  - exists sevs, [EContractAt (String a addr)].
    split.
    + unfold fetch_deployed. destruct s1 as [cc dc ds iss cfg ts w tr]. run.
      cbn in Hts. destruct (Tezos_contract_at _ w) as [[?|?] ?]; cbn;
        rewrite Hts, <- app_assoc; reflexivity.
    + repeat split; auto. right. left. exists (String a addr). repeat split. discriminate.
  - apply Hfresh. reflexivity.
Qed.

Lemma count_validation_steps (p : Event → bool) (evs : list Event) :
  Forall (λ e, is_validation e = true) evs →
  (∀ e, is_validation e = true → p e = false) → count_events p evs = 0.
Proof. apply count_events_none. Qed.

(** X7: a call of [deployContract] sets up a signer at most once,
    fetches at most once and originates at most once, and never both
    fetches and originates: when it fetches, the registry holds a
    non-empty address and nothing is validated or originated.  A call
    that succeeds has done exactly one of the two. *)
Theorem deployContract_fetches_or_originates (contractName : string) (storage : Storage)
    (signer : option TezosSigner) (s : St) :
  ∃ evs,
    trace (snd (deployContract contractName storage signer s)) = trace s ++ evs ∧
    count_events is_signer_step evs ≤ 1 ∧
    count_events is_contract_at evs ≤ 1 ∧
    count_events is_originate evs ≤ 1 ∧
    (count_events is_contract_at evs = 1 →
       truthy_str (deployed_entry contractName s) = true ∧
       count_events is_validation evs = 0 ∧
       count_events is_origination_step evs = 0) ∧
    (∀ handle, fst (deployContract contractName storage signer s) = Ok handle →
       count_events is_contract_at evs + count_events is_originate evs = 1).
Proof.
  destruct (deployContract_outline contractName storage signer s)
    as (sevs & evs & Ht & Hs & Hlen & _ & _ & Hcases).
  exists (sevs ++ evs). split; [exact Ht|].
  assert (Hs0 : ∀ p, (∀ e, is_signer_step e = true → p e = false) → count_events p sevs = 0)
    by (intros p Hp; exact (count_events_none _ _ _ Hs Hp)).
  assert (Hs1 : count_events is_signer_step sevs ≤ 1).
  { destruct sevs as [|e [|e' sevs]]; cbn in *; try lia. destruct (is_signer_step e); lia. }
  rewrite !count_events_app.
  rewrite (Hs0 is_contract_at), (Hs0 is_originate), (Hs0 is_validation),
    (Hs0 is_origination_step) by (intros []; simpl; congruence).
  destruct Hcases as [[-> [e He]] | [(a & Hentry & Hne & ->) | (Hfalsy & vevs & post & -> & Hv & Hp & Hc & Hok)]].
  - cbn [count_events is_contract_at is_originate is_validation is_origination_step
         is_signer_step].
    refine (conj _ (conj _ (conj _ (conj _ _)))); try lia.
    intros handle Hr. rewrite deployContract_steps in Hr.
    destruct (_setSigner (tezosDefaultSigner s) s) as [[[]|e'] s1]; cbn in *; congruence.
  - cbn [count_events is_contract_at is_originate is_validation is_origination_step
         is_signer_step].
    refine (conj _ (conj _ (conj _ (conj _ _)))); try lia.
    intros _. rewrite Hentry. destruct a; [congruence|]. repeat split.
  - assert (Hv0 : ∀ p, (∀ e, is_validation e = true → p e = false) → count_events p vevs = 0)
      by (intros p Hq; exact (count_events_none _ _ _ Hv Hq)).
    assert (Hp0 : ∀ p, (∀ e, is_origination_step e = true → p e = false) →
                       count_events p post = 0)
      by (intros p Hq; exact (count_events_none _ _ _ Hp Hq)).
    cbn [count_events is_signer_step is_contract_at is_originate].
    rewrite !count_events_app.
    rewrite (Hv0 is_signer_step), (Hv0 is_contract_at), (Hv0 is_originate),
      (Hp0 is_signer_step), (Hp0 is_contract_at) by (intros []; simpl; congruence).
    refine (conj _ (conj _ (conj _ (conj _ _)))); try lia.
    intros handle Hr. specialize (Hok handle Hr). lia.
Qed.

(** X8: an empty string in the registry counts as no address: the call
    fetches nothing and, once the signer is set up, goes on as a fresh
    deployment, starting with the read of the configuration file. *)
Theorem deployContract_empty_address (contractName : string) (storage : Storage)
    (signer : option TezosSigner) (s : St) :
  deployed_entry contractName s = Some "" →
  ∃ sevs evs,
    trace (snd (deployContract contractName storage signer s)) = trace s ++ sevs ++ evs ∧
    Forall (λ e, is_signer_step e = true) sevs ∧
    count_events is_contract_at (sevs ++ evs) = 0 ∧
    (fst (_setSigner (tezosDefaultSigner s) s) = Ok tt →
     ∃ rest, evs = EReadConfigFile :: rest).
Proof.
  intros Hentry.
  destruct (deployContract_outline contractName storage signer s)
    as (sevs & evs & Ht & Hs & _ & _ & _ & Hcases).
  exists sevs, evs. split; [exact Ht|]. split; [exact Hs|].
  rewrite count_events_app.
  rewrite (count_events_none is_contract_at _ _ Hs) by (intros []; simpl; congruence).
  destruct Hcases as [[-> [e He]] | [(a & Ha & Hne & ->) | (_ & vevs & post & -> & Hv & Hp & _)]].
  - split; [reflexivity|]. intros H. congruence.
  - congruence.
  - split; [|eauto]. cbn [count_events is_contract_at]. rewrite count_events_app.
    rewrite (count_events_none is_contract_at _ _ Hv) by (intros []; simpl; congruence).
    rewrite (count_events_none is_contract_at _ _ Hp) by (intros []; simpl; congruence).
    reflexivity.
Qed.

(** ** Over a whole run *)

Lemma deployContract_flag (contractName : string) (storage : Storage)
    (signer : option TezosSigner) (s : St) :
  fst (_setSigner (tezosDefaultSigner s) s) = Ok tt →
  isSignerSet (snd (deployContract contractName storage signer s)) = true.
Proof.
  intros Hok. rewrite deployContract_steps.
  destruct (_setSigner_effects (tezosDefaultSigner s) s) as (_ & _ & _ & _ & Hset & _).
  destruct (_setSigner (tezosDefaultSigner s) s) as [[[]|e] s1]; cbn [fst snd] in *;
    [|discriminate Hok].
  specialize (Hset eq_refl).
  destruct (deployed_entry contractName s1) as [[|a addr]|].
  - apply (deploy_fresh_effects _ _ _ _ Hset).
  - unfold fetch_deployed. destruct s1. run.
    destruct (Tezos_contract_at _ _) as [[?|?] ?]; exact Hset.
  - apply (deploy_fresh_effects _ _ _ _ Hset).
Qed.

(** The calls of [deployContract] after those of the signer's set-up
    are no signer calls; with the flag set there is no set-up call. *)
Lemma deployContract_signer_calls (contractName : string) (storage : Storage)
    (signer : option TezosSigner) (s : St) :
  ∃ sevs evs,
    trace (snd (deployContract contractName storage signer s)) = trace s ++ sevs ++ evs ∧
    count_events is_signer_step evs = 0 ∧
    (isSignerSet s = true → sevs = []) ∧
    (isSignerSet s = false → sevs = [signer_call (tezosDefaultSigner s)]).
Proof.
  destruct (deployContract_outline contractName storage signer s)
    as (sevs & evs & Ht & Hs & Hlen & Hnil & Hone & Hcases).
  exists sevs, evs. split; [exact Ht|]. split; [|split; assumption].
  destruct Hcases as [[-> _] | [(a & _ & _ & ->) | (_ & vevs & post & -> & Hv & Hp & _)]];
    try reflexivity.
  cbn [count_events is_signer_step]. rewrite count_events_app.
  rewrite (count_events_none is_signer_step _ _ Hv) by (intros []; simpl; congruence).
  rewrite (count_events_none is_signer_step _ _ Hp) by (intros []; simpl; congruence).
  reflexivity.
Qed.

Lemma after_call_signer (s : St) (c : Call) :
  isSignerSet s = true →
  isSignerSet (after_call s c) = true ∧
  Tezos_signer (after_call s c) = Tezos_signer s ∧
  ∃ evs, trace (after_call s c) = trace s ++ evs ∧ count_events is_signer_step evs = 0.
Proof.
  intros Hset. destruct c as [n|n storage signer]; cbn [after_call].
  - destruct (ValidateRun_effects _ _ _ _ (validateContract_complete n s))
      as (_ & (_ & _ & Hiss & Hts) & _ & _ & evs & Ht & Hall).
    split; [congruence|]. split; [exact Hts|]. exists evs. split; [exact Ht|].
    apply (count_events_none _ _ _ Hall). intros []; simpl; congruence.
  - split; [apply deployContract_flag; rewrite (_setSigner_set _ _ Hset); reflexivity|].
    split.
    { rewrite deployContract_Tezos_signer, (_setSigner_set _ _ Hset). reflexivity. }
    destruct (deployContract_signer_calls n storage signer s)
      as (sevs & evs & Ht & H0 & Hnil & _).
    rewrite (Hnil Hset) in Ht. exists evs. auto.
Qed.

Lemma after_calls_signer (calls : list Call) (s : St) :
  isSignerSet s = true →
  isSignerSet (after_calls calls s) = true ∧
  Tezos_signer (after_calls calls s) = Tezos_signer s ∧
  ∃ evs, trace (after_calls calls s) = trace s ++ evs ∧ count_events is_signer_step evs = 0.
Proof.
  revert s. induction calls as [|c calls IH]; intros s Hset.
  - split; [exact Hset|]. split; [reflexivity|]. exists []. rewrite app_nil_r. auto.
  - destruct (after_call_signer s c Hset) as (Hset1 & Hts1 & evs1 & Ht1 & H1).
    destruct (IH (after_call s c) Hset1) as (Hset2 & Hts2 & evs2 & Ht2 & H2).
    change (after_calls (c :: calls) s) with (after_calls calls (after_call s c)).
    split; [exact Hset2|]. split; [rewrite Hts2; exact Hts1|].
    exists (evs1 ++ evs2). rewrite Ht2, Ht1, <- app_assoc, count_events_app, H1, H2. auto.
Qed.

(** X6: the signer of the client is set once for the whole run.  Once
    the flag [isSignerSet] holds, no sequence of calls of
    [validateContract] and [deployContract], whatever signers they are
    given, changes the signer of the client or calls the key import or
    [Tezos.setProvider].  When the flag does not hold and the set-up of
    the default signer succeeds, the first [deployContract] installs the
    default signer by one call, and the signer stays the default one
    through every later call. *)
Theorem signer_set_once_per_run (calls : list Call) (s : St) :
  (isSignerSet s = true →
     isSignerSet (after_calls calls s) = true ∧
     Tezos_signer (after_calls calls s) = Tezos_signer s ∧
     ∃ evs, trace (after_calls calls s) = trace s ++ evs ∧
            count_events is_signer_step evs = 0) ∧
  (∀ contractName storage signer,
     isSignerSet s = false →
     fst (signer_answer (tezosDefaultSigner s) (world s)) = inr tt →
     let s' := after_calls (CallDeploy contractName storage signer :: calls) s in
     isSignerSet s' = true ∧
     Tezos_signer s' = Some (tezosDefaultSigner s) ∧
     ∃ evs, trace s' = trace s ++ signer_call (tezosDefaultSigner s) :: evs ∧
            count_events is_signer_step evs = 0).
Proof.
  split; [apply after_calls_signer|].
  intros contractName storage signer Hunset Hans. cbv zeta.
  change (after_calls (CallDeploy contractName storage signer :: calls) s)
    with (after_calls calls (snd (deployContract contractName storage signer s))).
  assert (Hok : fst (_setSigner (tezosDefaultSigner s) s) = Ok tt ∧
                Tezos_signer (snd (_setSigner (tezosDefaultSigner s) s)) =
                  Some (tezosDefaultSigner s)).
  { rewrite (_setSigner_unset _ _ Hunset).
    destruct (signer_answer _ _) as [[err|[]] w']; [discriminate Hans|]. split; reflexivity. }
  destruct Hok as [Hok Hts].
  pose proof (deployContract_flag contractName storage signer s Hok) as Hset1.
  pose proof (deployContract_Tezos_signer contractName storage signer s) as Hts1.
  destruct (deployContract_signer_calls contractName storage signer s)
    as (sevs & evs1 & Ht1 & H1 & _ & Hone).
  rewrite (Hone Hunset) in Ht1.
  destruct (after_calls_signer calls _ Hset1) as (Hset2 & Hts2 & evs2 & Ht2 & H2).
  split; [exact Hset2|]. split; [rewrite Hts2, Hts1; exact Hts|].
  exists (evs1 ++ evs2). rewrite Ht2, Ht1, count_events_app, H1, H2.
  split; [|reflexivity]. cbn. rewrite <- app_assoc. reflexivity.
Qed.

(** X9: when the set-up of the default signer fails (the key import
    rejects, or the in-memory signer cannot be built from the key),
    [deployContract] rejects with that very error, not wrapped; it has
    made the set-up call and nothing else: the registry is not looked
    up, nothing is validated, fetched or originated.  The flag stays
    unset, so the next call of [deployContract] starts with the same
    set-up call again.  Whether the client then holds the signer is what
    the failed call left: the import may have installed it before it
    rejected. *)
Theorem deployContract_signer_setup_fails (contractName : string) (storage : Storage)
    (signer : option TezosSigner) (s : St) (err : JsError) (w' : World) :
  isSignerSet s = false →
  signer_answer (tezosDefaultSigner s) (world s) = (inl err, w') →
  let s0 := set_world w' (with_events [signer_call (tezosDefaultSigner s)] s) in
  let s1 := if signer_installed (tezosDefaultSigner s) (world s)
            then set_Tezos_signer (Some (tezosDefaultSigner s)) s0
            else s0 in
  deployContract contractName storage signer s = (Throw err, s1) ∧
  isSignerSet s1 = false ∧
  trace s1 = trace s ++ [signer_call (tezosDefaultSigner s)] ∧
  ∀ contractName2 storage2 signer2,
    ∃ evs, trace (snd (deployContract contractName2 storage2 signer2 s1)) =
             trace s1 ++ signer_call (tezosDefaultSigner s) :: evs.
Proof.
  intros Hunset Hans. cbv zeta.
  split; [rewrite deployContract_steps, (_setSigner_unset _ _ Hunset), Hans; reflexivity|].
  assert (Hflag : isSignerSet
            (if signer_installed (tezosDefaultSigner s) (world s)
             then set_Tezos_signer (Some (tezosDefaultSigner s))
                    (set_world w' (with_events [signer_call (tezosDefaultSigner s)] s))
             else set_world w' (with_events [signer_call (tezosDefaultSigner s)] s)) = false)
    by (destruct (signer_installed _ _); exact Hunset).
  split; [exact Hflag|].
  split; [destruct (signer_installed _ _); reflexivity|].
  intros contractName2 storage2 signer2.
  match goal with |- context [deployContract _ _ _ ?t] =>
    destruct (deployContract_signer_calls contractName2 storage2 signer2 t)
      as (sevs & evs & Ht & _ & _ & Hone)
  end.
  rewrite (Hone Hflag) in Ht. exists evs. rewrite Ht.
  destruct (signer_installed _ _); reflexivity.
Qed.

(** ** The memoized configuration *)

Lemma OutdatedRun_config (contractName : string) (s : St) (r : Res unit) (s' : St) :
  OutdatedRun contractName s r s' →
  (∀ c, config s = Some c → config s' = Some c) ∧
  (∀ c, config s' = Some c → loaded_config s = inr c) ∧
  ∃ evs, trace s' = trace s ++ evs ∧
         (∀ c, config s = Some c → count_events is_readConfigFile evs = 0).
Proof.
  destruct s as [cc dc ds iss cfg ts w tr].
  intros [Henv | err Henv Hc | c Henv Hc Hauto | c w' Henv Hc Hauto Hco
          | c err w' Henv Hc Hauto Hco];
    unfold loaded_config, config_events in *; run.
  all: split; [intros c0 H; subst cfg; try congruence; reflexivity|].
  all: split; [intros c0 H; try subst cfg; congruence|].
  all: eexists; split; [reflexivity|]; intros c0 H; subst cfg; try discriminate; reflexivity.
Qed.

Lemma stored_config (contractName : string) (buildFile : BuildFile) (s : St) :
  config (stored contractName buildFile s) = config s.
Proof.
  unfold stored. destruct (JSON_parse _), (_checkedContracts s); reflexivity.
Qed.

Lemma stored_trace (contractName : string) (buildFile : BuildFile) (s : St) :
  trace (stored contractName buildFile s) = trace s.
Proof.
  unfold stored. destruct (JSON_parse _), (_checkedContracts s); reflexivity.
Qed.

Lemma ValidateRun_config (contractName : string) (s : St) (r : Res Checked) (s' : St) :
  ValidateRun contractName s r s' →
  (∀ c, config s = Some c → config s' = Some c) ∧
  (∀ c, config s' = Some c → loaded_config s = inr c) ∧
  ∃ evs, trace s' = trace s ++ evs ∧
         (∀ c, config s = Some c → count_events is_readConfigFile evs = 0).
Proof.
  assert (Hl : ∀ c, config s = Some c → loaded_config s = inr c)
    by (intros c H; unfold loaded_config; rewrite H; reflexivity).
  intros [code H | Hm Hex | Hm Hex Hb | err Hm Hex Hb Hrc | contract err Hm Hex Hb Hrc Hrb
          | contract bf [Hm Hcl] | contract bf [Hm Hcl] | contract bf [Hm Hcl]
          | contract bf err s2 Hcl Hrun | contract bf s2 Hcl Hrun];
    rewrite ?stored_config.
  1: { split; [auto|]. split; [exact Hl|]. exists []. rewrite app_nil_r. auto. }
  1-7: split; [auto|]; split; [exact Hl|];
       eexists; rewrite ?stored_trace; split; [reflexivity|]; intros; reflexivity.
  - destruct (OutdatedRun_config _ _ _ _ Hrun) as (Hkeep & Hget & evs & Ht & H0).
    split; [exact Hkeep|]. split; [exact Hget|].
    exists (classification_events contractName contract bf ++ evs).
    split; [rewrite Ht; cbn; rewrite <- app_assoc; reflexivity|].
    intros c Hc. rewrite count_events_app, (H0 c Hc). reflexivity.
  - destruct (OutdatedRun_config _ _ _ _ Hrun) as (Hkeep & Hget & evs & Ht & H0).
    split; [exact Hkeep|]. split; [exact Hget|].
    exists (classification_events contractName contract bf ++ evs
            ++ [EJSONParse (build_michelson bf)]).
    split; [rewrite stored_trace; cbn; rewrite Ht; cbn; rewrite <- !app_assoc; reflexivity|].
    intros c Hc. rewrite !count_events_app, (H0 c Hc). reflexivity.
Qed.

Lemma deployContract_config (contractName : string) (storage : Storage)
    (signer : option TezosSigner) (s : St) (c : Config) :
  config s = Some c → config (snd (deployContract contractName storage signer s)) = Some c.
Proof.
  intros Hc. rewrite deployContract_steps.
  destruct (_setSigner_effects (tezosDefaultSigner s) s) as (_ & _ & _ & Hcfg & Hset & _).
  destruct (_setSigner (tezosDefaultSigner s) s) as [[[]|e] s1]; cbn [fst snd] in *;
    [|congruence].
  specialize (Hset eq_refl). rewrite <- Hcfg in Hc.
  assert (Hfresh : ∀ sg, config (snd (deploy_fresh contractName storage sg s1)) = Some c).
  { intros sg. rewrite (deploy_fresh_steps _ _ _ _ Hset).
    destruct (bundle_readConfigFile (world s1)) as [err|cfg]; [exact Hc|].
    pose proof (validateContract_complete contractName (with_events [EReadConfigFile] s1))
      as Hrun.
    destruct (ValidateRun_config _ _ _ _ Hrun) as (Hkeep & _).
    specialize (Hkeep c Hc).
    destruct (validateContract contractName _) as [[[|code|v]|e] s2]; cbn [fst snd] in *;
      try exact Hkeep.
    destruct (originate_frame contractName code storage s2) as (_ & Hcfg2 & _).
    rewrite Hcfg2. exact Hkeep. }
  destruct (deployed_entry contractName s1) as [[|a addr]|]; try apply Hfresh.
  unfold fetch_deployed. destruct s1. run.
  destruct (Tezos_contract_at _ _) as [[?|?] ?]; exact Hc.
Qed.

Lemma after_calls_config (calls : list Call) (s : St) (c : Config) :
  config s = Some c → config (after_calls calls s) = Some c.
Proof.
  revert s. induction calls as [|call calls IH]; intros s Hc; [exact Hc|].
  apply IH. destruct call as [n|n storage signer]; cbn [after_call].
  - apply (ValidateRun_config _ _ _ _ (validateContract_complete n s)), Hc.
  - apply deployContract_config, Hc.
Qed.

(** X10: the configuration is loaded at most once per run.  Once
    [config] holds a configuration, every sequence of calls of
    [validateContract] and [deployContract] leaves it as it is, whatever
    becomes of the file in the meantime, and no later call of
    [validateContract] reads the configuration file. *)
Theorem config_loaded_once (calls : list Call) (s : St) (c : Config) :
  config s = Some c →
  config (after_calls calls s) = Some c ∧
  (∀ contractName,
     config (snd (validateContract contractName (after_calls calls s))) = Some c ∧
     ∃ evs, trace (snd (validateContract contractName (after_calls calls s))) =
              trace (after_calls calls s) ++ evs ∧
            count_events is_readConfigFile evs = 0).
Proof.
  intros Hc. pose proof (after_calls_config calls s c Hc) as Hc'.
  split; [exact Hc'|]. intros contractName.
  destruct (ValidateRun_config _ _ _ _
              (validateContract_complete contractName (after_calls calls s)))
    as (Hkeep & _ & evs & Ht & H0).
  split; [exact (Hkeep c Hc')|]. exists evs. split; [exact Ht|exact (H0 c Hc')].
Qed.

(** ** A fresh deployment, step by step *)

Lemma includes_msg_deploy (contractName : string) (err : JsError) :
  includes contractName (msg_deploy contractName err) = true ∧
  includes (err_message err) (msg_deploy contractName err) = true.
Proof. unfold msg_deploy. split; auto 15 with strs. Qed.

(** X11: a deployment of a contract the registry has no address for
    is the read of the configuration file, the validation and the
    origination, in this order, each step run only if the one before
    succeeded.  A rejected read of the configuration file and an error of
    the validation reach the caller as they are, and nothing is
    originated.  When the validation returns code, the call is the
    origination of that code; when it returns a falsy value (the payload
    denotes [null], [false], [0] or the empty string), the call throws
    the error [Unable to process contract] and nothing is originated. *)
Theorem deployContract_fresh_composition (contractName : string) (storage : Storage)
    (signer : option TezosSigner) (s : St) :
  fst (_setSigner (tezosDefaultSigner s) s) = Ok tt →
  truthy_str (deployed_entry contractName s) = false →
  let s1 := snd (_setSigner (tezosDefaultSigner s) s) in
  let s2 := with_events [EReadConfigFile] s1 in
  (∀ err, bundle_readConfigFile (world s1) = inl err →
     deployContract contractName storage signer s = (Throw err, s2)) ∧
  (∀ cfg e s3,
     bundle_readConfigFile (world s1) = inr cfg →
     validateContract contractName s2 = (Throw e, s3) →
     deployContract contractName storage signer s = (Throw e, s3)) ∧
  (∀ cfg code s3,
     bundle_readConfigFile (world s1) = inr cfg →
     validateContract contractName s2 = (Ok (CCode code), s3) →
     deployContract contractName storage signer s =
       originate contractName code storage s3) ∧
  (∀ cfg v s3,
     bundle_readConfigFile (world s1) = inr cfg →
     validateContract contractName s2 = (Ok v, s3) →
     truthy (Some v) = false →
     deployContract contractName storage signer s =
       (Throw (Error (msg_unable contractName)), s3)).
Proof.
  intros Hok Hfalsy. cbv zeta.
  destruct (_setSigner_effects (tezosDefaultSigner s) s) as (_ & Hdc & _ & _ & Hset & _).
  assert (Hsteps : deployContract contractName storage signer s =
            deploy_fresh contractName storage (default (tezosDefaultSigner s) signer)
              (snd (_setSigner (tezosDefaultSigner s) s))).
  { rewrite deployContract_steps.
    destruct (_setSigner (tezosDefaultSigner s) s) as [[[]|e] s1]; cbn [fst snd] in *;
      [|discriminate Hok].
    replace (deployed_entry contractName s1) with (deployed_entry contractName s)
      by (unfold deployed_entry; rewrite Hdc; reflexivity).
    destruct (deployed_entry contractName s) as [[|a addr]|]; try reflexivity.
    discriminate Hfalsy. }
  rewrite Hsteps, (deploy_fresh_steps _ _ _ _ (Hset Hok)).
  split; [|split; [|split]].
  - intros err ->. reflexivity.
  - intros cfg e s3 -> ->. reflexivity.
  - intros cfg code s3 -> ->. reflexivity.
  - intros cfg v s3 -> -> Hv. destruct v as [|code|v]; [reflexivity|discriminate Hv|reflexivity].
Qed.

(** ** The configuration file in a deployment *)

Lemma deployContract_fresh (contractName : string) (storage : Storage)
    (signer : option TezosSigner) (s : St) :
  fst (_setSigner (tezosDefaultSigner s) s) = Ok tt →
  truthy_str (deployed_entry contractName s) = false →
  deployContract contractName storage signer s =
    deploy_fresh contractName storage (default (tezosDefaultSigner s) signer)
      (snd (_setSigner (tezosDefaultSigner s) s)).
Proof.
  intros Hok Hfalsy.
  destruct (_setSigner_effects (tezosDefaultSigner s) s) as (_ & Hdc & _).
  rewrite deployContract_steps.
  destruct (_setSigner (tezosDefaultSigner s) s) as [[[]|e] s1]; cbn [fst snd] in *;
    [|discriminate Hok].
  replace (deployed_entry contractName s1) with (deployed_entry contractName s)
    by (unfold deployed_entry; rewrite Hdc; reflexivity).
  destruct (deployed_entry contractName s) as [[|a addr]|]; try reflexivity.
  discriminate Hfalsy.
Qed.

Lemma validateContract_outdated_reloads (contractName : string) (s : St)
    (contract : string) (buildFile : BuildFile) (cfg : Config) :
  classified contractName s contract buildFile INVALID_HASH →
  process_env_USE_OLD_BUILD (world s) ≠ Some "true" →
  config s = None →
  bundle_readConfigFile (world s) = inr cfg →
  config (snd (validateContract contractName s)) = Some cfg ∧
  ∃ evs, trace (snd (validateContract contractName s)) = trace s ++ evs ∧
         count_events is_readConfigFile evs = 1.
Proof.
  intros Hcl Henv Hnone Hread. pose proof (outdated_path_steps _ _ _ _ Hcl) as E.
  assert (Hc : loaded_config s = inr cfg) by (unfold loaded_config; rewrite Hnone; exact Hread).
  destruct (validateContract contractName s) as [r s']. cbn [fst snd].
  unfold bind in E. destruct s as [cc dc ds iss cf ts w tr]. cbn in Hnone. subst cf.
  destruct (autoCompile cfg) eqn:Hauto.
  - rewrite (handleOutdatedBuildfile_autoCompile_on _ _ cfg) in E by assumption.
    unfold classification_events, config_events in *.
    run. destruct (compile contractName w) as [[err|[]] w'] eqn:Hco; run.
    + injection E as -> ->. run. traces. split; [reflexivity|].
      eexists. split; reflexivity.
    + rewrite parse_and_store_spec in E by (eexists; reflexivity).
      injection E as -> ->. unfold stored. run.
      destruct (JSON_parse _); traces; (split; [reflexivity|]);
        eexists; split; reflexivity.
  - rewrite (handleOutdatedBuildfile_autoCompile_off _ _ cfg) in E by assumption.
    injection E as -> ->. unfold classification_events, config_events.
    run. traces. split; [reflexivity|]. eexists. split; reflexivity.
Qed.

Lemma validateContract_no_reload (contractName : string) (s : St) :
  (truthy (checked_entry contractName s) = true ∨
   ∃ contract buildFile, classified contractName s contract buildFile BuildValid) →
  config (snd (validateContract contractName s)) = config s ∧
  ∃ evs, trace (snd (validateContract contractName s)) = trace s ++ evs ∧
         count_events is_readConfigFile evs = 0.
Proof.
  intros [Hhit | (contract & bf & Hcl)].
  - destruct (checked_entry contractName s) as [[|code|v]|] eqn:He; try discriminate Hhit.
    rewrite (validateContract_hit _ _ code He). split; [reflexivity|].
    exists []. rewrite app_nil_r. split; reflexivity.
  - rewrite (validateContract_sound _ _ _ _ (run_valid _ _ _ _ Hcl)). cbn [fst snd].
    rewrite stored_config, stored_trace. split; [reflexivity|].
    eexists. split; reflexivity.
Qed.

(** X12: the configuration a deployment reads first (line 134) is not
    kept and not used.  A contract with no registered address is
    deployed only after the configuration file was read, also when its
    code is cached; when the code is cached or the build is valid the
    memoized configuration is afterwards what it was and the file was
    read once.  When the build is outdated, the override is not set and
    no configuration is memoized, the file is read a second time in the
    same call, and that second reading is memoized. *)
Theorem deployContract_config_read_not_kept (contractName : string) (storage : Storage)
    (signer : option TezosSigner) (s : St) (cfg : Config) :
  fst (_setSigner (tezosDefaultSigner s) s) = Ok tt →
  truthy_str (deployed_entry contractName s) = false →
  let s1 := snd (_setSigner (tezosDefaultSigner s) s) in
  let s' := snd (deployContract contractName storage signer s) in
  bundle_readConfigFile (world s1) = inr cfg →
  ∃ sevs evs,
    trace s' = trace s ++ sevs ++ EReadConfigFile :: evs ∧
    Forall (λ e, is_signer_step e = true) sevs ∧
    ((truthy (checked_entry contractName s) = true ∨
      ∃ contract buildFile, classified contractName s1 contract buildFile BuildValid) →
     config s' = config s ∧ count_events is_readConfigFile evs = 0) ∧
    (∀ contract buildFile,
       classified contractName s1 contract buildFile INVALID_HASH →
       process_env_USE_OLD_BUILD (world s1) ≠ Some "true" →
       config s = None →
       config s' = Some cfg ∧ count_events is_readConfigFile evs = 1).
Proof.
  intros Hok Hfalsy. cbv zeta. intros Hread.
  rewrite (deployContract_fresh _ _ _ _ Hok Hfalsy).
  destruct (_setSigner_effects (tezosDefaultSigner s) s)
    as (Hcc & _ & _ & Hcfg & Hset & _ & sevs & Hts & Hall).
  specialize (Hset Hok).
  set (s1 := snd (_setSigner (tezosDefaultSigner s) s)) in *.
  rewrite (deploy_fresh_steps _ _ _ _ Hset), Hread.
  set (s2 := with_events [EReadConfigFile] s1).
  pose proof (validateContract_complete contractName s2) as Hrun.
  destruct (ValidateRun_effects _ _ _ _ Hrun) as (_ & _ & _ & _ & vevs & Htv & Hv).
  pose proof (validateContract_no_reload contractName s2) as Hkeep.
  pose proof (validateContract_outdated_reloads contractName s2) as Hreload.
  destruct (validateContract contractName s2) as [r2 s3]. cbn [fst snd] in *.
  assert (Hgoal : ∀ (r' : Res Handle) s4 post,
            config s4 = config s3 → trace s4 = trace s3 ++ post →
            count_events is_readConfigFile post = 0 →
            ∃ sevs0 evs,
              trace s4 = trace s ++ sevs0 ++ EReadConfigFile :: evs ∧
              Forall (λ e, is_signer_step e = true) sevs0 ∧
              ((truthy (checked_entry contractName s) = true ∨
                ∃ contract buildFile, classified contractName s1 contract buildFile BuildValid) →
               config s4 = config s ∧ count_events is_readConfigFile evs = 0) ∧
              (∀ contract buildFile,
                 classified contractName s1 contract buildFile INVALID_HASH →
                 process_env_USE_OLD_BUILD (world s1) ≠ Some "true" →
                 config s = None →
                 config s4 = Some cfg ∧ count_events is_readConfigFile evs = 1)).
  { intros _ s4 post Hc4 Ht4 Hp0. exists sevs, (vevs ++ post).
    split.
    { rewrite Ht4, Htv. unfold s2. cbn. rewrite Hts, <- !app_assoc. reflexivity. }
    split; [exact Hall|]. split.
    - intros Hcase.
      assert (Hcase2 : truthy (checked_entry contractName s2) = true ∨
                ∃ contract buildFile, classified contractName s2 contract buildFile BuildValid).
      { destruct Hcase as [H|H]; [left|right; exact H].
        unfold checked_entry in *. unfold s2. cbn. rewrite Hcc. exact H. }
      destruct (Hkeep Hcase2) as (Hc3 & evs3 & Ht3 & H03).
      assert (evs3 = vevs) as -> by (rewrite Htv in Ht3; exact (eq_sym (app_inv_head _ _ _ Ht3))).
      split; [rewrite Hc4, Hc3; exact Hcfg|].
      rewrite count_events_app, H03, Hp0. reflexivity.
    - intros contract bf Hcl Henv Hnone.
      destruct (Hreload contract bf cfg Hcl Henv) as (Hc3 & evs3 & Ht3 & H13).
      { unfold s2. cbn. rewrite Hcfg. exact Hnone. }
      { exact Hread. }
      assert (evs3 = vevs) as -> by (rewrite Htv in Ht3; exact (eq_sym (app_inv_head _ _ _ Ht3))).
      split; [rewrite Hc4; exact Hc3|].
      rewrite count_events_app, H13, Hp0. reflexivity. }
  destruct r2 as [[|code|v]|e].
  - apply (Hgoal (Throw (Error (msg_unable contractName))) s3 []);
      [reflexivity | rewrite app_nil_r; reflexivity | reflexivity].
  - destruct (originate_frame contractName code storage s3)
      as (_ & Hcfg4 & _ & post & Ht4 & Hpost & _).
    apply (Hgoal (fst (originate contractName code storage s3)) _ _ Hcfg4 Ht4).
    apply (count_events_none _ _ _ Hpost). intros []; simpl; congruence.
  - apply (Hgoal (Throw (Error (msg_unable contractName))) s3 []);
      [reflexivity | rewrite app_nil_r; reflexivity | reflexivity].
  - apply (Hgoal (Throw e) s3 []);
      [reflexivity | rewrite app_nil_r; reflexivity | reflexivity].
Qed.

(** ** The origination *)

(** X13: the origination of a fresh deployment.  The code originated
    is the code the validation returned, with the storage of the call;
    the confirmation is awaited on the operation the origination
    returned.  A failure of either step is rethrown as one error whose
    message names the contract and the cause, and a failed origination is
    not followed by a confirmation.  In every case the code stays in the
    cache of checked contracts, and the registry is not written. *)
Theorem deployContract_origination (contractName : string) (storage : Storage)
    (signer : option TezosSigner) (s : St) (cfg : Config) (code : Code) (s3 : St) :
  fst (_setSigner (tezosDefaultSigner s) s) = Ok tt →
  truthy_str (deployed_entry contractName s) = false →
  let s1 := snd (_setSigner (tezosDefaultSigner s) s) in
  bundle_readConfigFile (world s1) = inr cfg →
  validateContract contractName (with_events [EReadConfigFile] s1) = (Ok (CCode code), s3) →
  let r := fst (deployContract contractName storage signer s) in
  let s' := snd (deployContract contractName storage signer s) in
  (∀ err w1, Tezos_contract_originate code storage (world s3) = (inl err, w1) →
     r = Throw (Error (msg_deploy contractName err)) ∧
     s' = set_world w1 (with_events [EOriginate code storage] s3)) ∧
  (∀ op w1 err w2,
     Tezos_contract_originate code storage (world s3) = (inr op, w1) →
     op_contract op w1 = (inl err, w2) →
     r = Throw (Error (msg_deploy contractName err)) ∧
     s' = set_world w2 (with_events [EOriginate code storage; EOpContract op] s3)) ∧
  (∀ op w1 handle w2,
     Tezos_contract_originate code storage (world s3) = (inr op, w1) →
     op_contract op w1 = (inr handle, w2) →
     r = Ok handle ∧
     s' = set_world w2 (with_events [EOriginate code storage; EOpContract op] s3)) ∧
  checked_entry contractName s' = Some (CCode code) ∧
  tezosDeployedContracts s' = tezosDeployedContracts s ∧
  (∀ err,
     includes contractName (msg_deploy contractName err) = true ∧
     includes (err_message err) (msg_deploy contractName err) = true).
Proof.
  intros Hok Hfalsy. cbv zeta. intros Hread Hv.
  rewrite (deployContract_fresh _ _ _ _ Hok Hfalsy).
  destruct (_setSigner_effects (tezosDefaultSigner s) s) as (_ & Hdc & _ & _ & Hset & _).
  rewrite (deploy_fresh_steps _ _ _ _ (Hset Hok)), Hread, Hv.
  pose proof (validateContract_complete contractName
                (with_events [EReadConfigFile] (snd (_setSigner (tezosDefaultSigner s) s))))
    as Hrun.
  rewrite Hv in Hrun. cbn [fst snd] in Hrun.
  destruct (ValidateRun_effects _ _ _ _ Hrun) as (_ & (Hdc3 & _) & _ & He & _).
  destruct (originate_frame contractName code storage s3) as (Hcc4 & _ & (Hdc4 & _) & _).
  rewrite originate_spec in *.
  split; [|split; [|split; [|split; [|split]]]].
  - intros err w1 ->. split; reflexivity.
  - intros op w1 err w2 -> ->. split; reflexivity.
  - intros op w1 handle w2 -> ->. split; reflexivity.
  - unfold checked_entry in *. rewrite Hcc4. exact He.
  - rewrite Hdc4, Hdc3. exact Hdc.
  - apply includes_msg_deploy.
Qed.

Lemma count_events_zero (p : Event → bool) (evs : list Event) (e : Event) :
  count_events p evs = 0 → e ∈ evs → p e = false.
Proof.
  induction evs as [|e' evs IH]; intros H0 Hin.
  - apply elem_of_nil in Hin. contradiction.
  - cbn in H0. apply elem_of_cons in Hin. destruct Hin as [->|Hin].
    + destruct (p e'); [discriminate H0|reflexivity].
    + apply IH; [|exact Hin]. destruct (p e'); [discriminate H0|exact H0].
Qed.

Lemma Forall_not_originate (q : Event → bool) (evs : list Event)
    (code : Code) (st : Storage) :
  Forall (λ e, q e = true) evs → q (EOriginate code st) = false →
  EOriginate code st ∉ evs.
Proof.
  intros Hall Hq Hin. rewrite Forall_forall in Hall.
  specialize (Hall _ Hin). congruence.
Qed.

(** X14: what [deployContract] originates.  Whenever a call
    originates, it does so with the storage it was given and with the
    code that is in the cache of checked contracts when it ends; and
    that code was in the cache when the call began, or is the parse of
    the payload of the build file that the validation read, classified
    valid or outdated.  On the outdated path this is the build file as
    it was before the compiler ran. *)
Theorem deployContract_originates_checked_code (contractName : string) (storage : Storage)
    (signer : option TezosSigner) (s : St) :
  let s1 := snd (_setSigner (tezosDefaultSigner s) s) in
  let s' := snd (deployContract contractName storage signer s) in
  ∃ evs,
    trace s' = trace s ++ evs ∧
    ∀ code st, EOriginate code st ∈ evs →
      st = storage ∧
      checked_entry contractName s' = Some (CCode code) ∧
      (checked_entry contractName s = Some (CCode code) ∨
       ∃ contract buildFile valid,
         classified contractName s1 contract buildFile valid ∧
         (valid = BuildValid ∨ valid = INVALID_HASH) ∧
         JSON_parse (build_michelson buildFile) = inr (CCode code)).
Proof.
  cbv zeta. rewrite deployContract_steps.
  destruct (_setSigner_effects (tezosDefaultSigner s) s)
    as (Hcc & _ & _ & _ & Hset & _ & sevs & Hts & Hs).
  destruct (_setSigner (tezosDefaultSigner s) s) as [[[]|e] s1]; cbn [fst snd] in *.
  2: { exists sevs. split; [exact Hts|]. intros code st Hin.
       exfalso. exact (Forall_not_originate _ _ code st Hs eq_refl Hin). }
  specialize (Hset eq_refl).
  assert (Hfresh : ∀ sg,
    ∃ evs,
      trace (snd (deploy_fresh contractName storage sg s1)) = trace s ++ evs ∧
      ∀ code st, EOriginate code st ∈ evs →
        st = storage ∧
        checked_entry contractName (snd (deploy_fresh contractName storage sg s1)) =
          Some (CCode code) ∧
        (checked_entry contractName s = Some (CCode code) ∨
         ∃ contract buildFile valid,
           classified contractName s1 contract buildFile valid ∧
           (valid = BuildValid ∨ valid = INVALID_HASH) ∧
           JSON_parse (build_michelson buildFile) = inr (CCode code))).
  { intros sg. rewrite (deploy_fresh_steps _ _ _ _ Hset).
    destruct (bundle_readConfigFile (world s1)) as [err|cfg].
    { exists (sevs ++ [EReadConfigFile]). split; [cbn; rewrite Hts, <- app_assoc; reflexivity|].
      intros code st Hin. exfalso. apply elem_of_app in Hin. destruct Hin as [Hin|Hin].
      - exact (Forall_not_originate _ _ code st Hs eq_refl Hin).
      - apply list_elem_of_singleton in Hin. discriminate Hin. }
    pose proof (validateContract_complete contractName (with_events [EReadConfigFile] s1))
      as Hrun.
    pose proof (validateContract_hit contractName (with_events [EReadConfigFile] s1)) as Hhit.
    destruct (validateContract contractName _) as [r2 s3]. cbn [fst snd] in Hrun.
    destruct (ValidateRun_effects _ _ _ _ Hrun) as (_ & _ & _ & He & vevs & Htv & Hv).
    cbn in Htv.
    assert (Hnone : ∀ code st, EOriginate code st ∉ sevs ++ [EReadConfigFile] ++ vevs).
    { intros code st Hin. rewrite !elem_of_app in Hin. destruct Hin as [Hin|[Hin|Hin]].
      - exact (Forall_not_originate _ _ code st Hs eq_refl Hin).
      - apply list_elem_of_singleton in Hin. discriminate Hin.
      - exact (Forall_not_originate _ _ code st Hv eq_refl Hin). }
    destruct r2 as [[|code|v]|e].
    1, 3, 4: exists (sevs ++ [EReadConfigFile] ++ vevs);
      (split; [cbn [snd]; rewrite Htv, Hts, <- !app_assoc; reflexivity|]);
      intros code0 st Hin; exfalso; exact (Hnone code0 st Hin).
    - destruct (originate_frame contractName code storage s3)
        as (Hcc4 & _ & _ & post & Ht4 & Hpost & Hone & _).
      exists ((sevs ++ [EReadConfigFile] ++ vevs) ++ EOriginate code storage :: post).
      split; [rewrite Ht4, Htv, Hts, <- !app_assoc; reflexivity|].
      intros code2 st Hin. apply elem_of_app in Hin.
      destruct Hin as [Hin|Hin]; [exfalso; exact (Hnone code2 st Hin)|].
      assert (Heq : EOriginate code2 st = EOriginate code storage).
      { apply elem_of_cons in Hin. destruct Hin as [Hin|Hin]; [exact Hin|].
        cbn in Hone. assert (H0 : count_events is_originate post = 0) by lia.
        pose proof (count_events_zero _ _ _ H0 Hin) as Hf. discriminate Hf. }
      injection Heq as -> ->. split; [reflexivity|].
      split; [unfold checked_entry in *; rewrite Hcc4; exact He|].
      destruct (truthy (checked_entry contractName (with_events [EReadConfigFile] s1)))
        eqn:Htr.
      + left.
        destruct (checked_entry contractName (with_events [EReadConfigFile] s1))
          as [[|c0|v0]|] eqn:He0; try discriminate Htr.
        specialize (Hhit c0 eq_refl). injection Hhit as -> _.
        unfold checked_entry in *. cbn in He0. rewrite <- Hcc. exact He0.
      + right. exact (ValidateRun_success _ _ _ _ Hrun Htr). }
  destruct (deployed_entry contractName s1) as [[|a addr]|]; try apply Hfresh.
  exists (sevs ++ [EContractAt (String a addr)]). split.
  - unfold fetch_deployed. destruct s1 as [cc dc ds iss cfg ts w tr]. run.
    cbn in Hts. destruct (Tezos_contract_at _ w) as [[?|?] ?]; cbn;
      rewrite Hts, <- app_assoc; reflexivity.
  - intros code st Hin. exfalso. apply elem_of_app in Hin. destruct Hin as [Hin|Hin].
    + exact (Forall_not_originate _ _ code st Hs eq_refl Hin).
    + apply list_elem_of_singleton in Hin. discriminate Hin.
Qed.

End Properties.

(** * Properties of [toBytes] *)

Ltac surr :=
  unfold is_high_surrogate, is_low_surrogate, is_code_unit, is_code_point, is_byte,
    is_hex_digit in *;
  repeat match goal with
         | H : (_ && _) = true |- _ => apply andb_true_iff in H; destruct H
         | H : (_ && _) = false |- _ => apply andb_false_iff in H
         | H : (_ <=? _)%Z = true |- _ => apply Z.leb_le in H
         | H : (_ <=? _)%Z = false |- _ => apply Z.leb_gt in H
         | H : (_ <? _)%Z = true |- _ => apply Z.ltb_lt in H
         | H : (_ <? _)%Z = false |- _ => apply Z.ltb_ge in H
         end.

Ltac dlia := surr; Z.div_mod_to_equations; lia.

Lemma code_points_range (str : JsString) :
  Forall is_code_unit str → Forall is_code_point (code_points str).
Proof.
  functional induction (code_points str); intros Hall.
  - constructor.
  - inversion Hall as [|? ? Hu Hall1]; subst. inversion Hall1 as [|? ? Hv Hall2]; subst.
    constructor; [|auto]. surr. lia.
  - inversion Hall as [|? ? Hu Hall1]; subst.
    constructor; [unfold is_code_point; lia|auto].
  - repeat constructor; unfold is_code_point; lia.
  - inversion Hall as [|? ? Hu Hall1]; subst.
    constructor; [unfold is_code_point; lia|auto].
  - inversion Hall as [|? ? Hu Hall1]; subst.
    constructor; [|auto]. surr. lia.
Qed.

Lemma utf8_bytes (cp : Z) : is_code_point cp → Forall is_byte (utf8 cp).
Proof.
  intros Hcp. unfold utf8, is_code_point, is_byte in *.
  repeat case_match; repeat (constructor; [dlia|]); constructor.
Qed.

Lemma utf8_length (cp : Z) : 1 ≤ length (utf8 cp) ≤ 4.
Proof. unfold utf8. repeat case_match; cbn; lia. Qed.

Lemma utf8_length_unit (cp : Z) : (cp < 0x10000)%Z → 1 ≤ length (utf8 cp) ≤ 3.
Proof. intros H. unfold utf8. repeat case_match; surr; cbn; lia. Qed.

Lemma Buffer_from_utf8_bytes (str : JsString) :
  Forall is_code_unit str → Forall is_byte (Buffer_from_utf8 str).
Proof.
  intros Hall. apply code_points_range in Hall. unfold Buffer_from_utf8.
  induction Hall as [|cp cps Hcp _ IH]; [constructor|].
  cbn. apply Forall_app. split; [apply utf8_bytes, Hcp|exact IH].
Qed.

Lemma hex_digit_is_hex (n : Z) : (0 ≤ n < 16)%Z → is_hex_digit (hex_digit n).
Proof. intros H. unfold hex_digit, is_hex_digit. case_match; dlia. Qed.

Lemma hex_digits (b : Z) : is_byte b → Forall is_hex_digit (hex b).
Proof.
  intros Hb. unfold is_byte in Hb. unfold hex.
  constructor; [|constructor; [|constructor]]; apply hex_digit_is_hex; dlia.
Qed.

Lemma Buffer_toString_hex_length (buf : list Z) :
  length (Buffer_toString_hex buf) = 2 * length buf.
Proof.
  unfold Buffer_toString_hex. induction buf as [|b buf IH]; [reflexivity|].
  cbn [flat_map]. rewrite length_app, IH. cbn [hex length]. lia.
Qed.

Lemma Buffer_toString_hex_digits (buf : list Z) :
  Forall is_byte buf → Forall is_hex_digit (Buffer_toString_hex buf).
Proof.
  induction 1 as [|b buf Hb _ IH]; [constructor|].
  cbn. constructor; [|constructor; [|exact IH]]; apply hex_digit_is_hex;
    unfold is_byte in Hb; dlia.
Qed.

Lemma Buffer_from_utf8_length (str : JsString) :
  Forall is_code_unit str →
  length str ≤ length (Buffer_from_utf8 str) ≤ 3 * length str.
Proof.
  unfold Buffer_from_utf8.
  functional induction (code_points str); intros Hall; cbn [flat_map length].
  - lia.
  - inversion Hall as [|? ? Hu Hall1]; subst. inversion Hall1 as [|? ? Hv Hall2]; subst.
    specialize (IHl Hall2). rewrite length_app.
    assert (length (utf8 (65536 + (u - 55296) * 1024 + (v - 56320))) = 4).
    { unfold utf8. surr. repeat case_match; surr; try lia. reflexivity. }
    lia.
  - inversion Hall as [|? ? Hu Hall1]; subst. specialize (IHl Hall1).
    cbn [length] in *. rewrite length_app. change (length (utf8 65533)) with 3. lia.
  - cbn. lia.
  - inversion Hall as [|? ? Hu Hall1]; subst. specialize (IHl Hall1).
    rewrite length_app. change (length (utf8 65533)) with 3. lia.
  - inversion Hall as [|? ? Hu Hall1]; subst. specialize (IHl Hall1).
    rewrite length_app. unfold is_code_unit in Hu.
    pose proof (utf8_length_unit u ltac:(lia)). lia.
Qed.

(** X15: [toBytes] returns lowercase hexadecimal digits, two for
    every byte of the UTF-8 encoding of the string: between two and six
    digits for every code unit of the string. *)
Theorem toBytes_hex (str : JsString) :
  Forall is_code_unit str →
  Forall is_hex_digit (toBytes str) ∧
  length (toBytes str) = 2 * length (Buffer_from_utf8 str) ∧
  2 * length str ≤ length (toBytes str) ≤ 6 * length str.
Proof.
  intros Hall. unfold toBytes. rewrite Buffer_toString_hex_length.
  pose proof (Buffer_from_utf8_length str Hall).
  split; [apply Buffer_toString_hex_digits, Buffer_from_utf8_bytes, Hall|]. lia.
Qed.

Lemma code_points_ascii (str : JsString) :
  Forall (λ u, 0 ≤ u < 0x80)%Z str → flat_map utf8 (code_points str) = str.
Proof.
  induction 1 as [|u str Hu _ IH]; [reflexivity|].
  rewrite code_points_equation.
  assert (Hh : is_high_surrogate u = false) by (unfold is_high_surrogate; lia).
  assert (Hl : is_low_surrogate u = false) by (unfold is_low_surrogate; lia).
  rewrite Hh, Hl. cbn [flat_map]. rewrite IH. unfold utf8.
  assert (Hlt : (u <? 128)%Z = true) by lia. rewrite Hlt. reflexivity.
Qed.

(** X16: on a string of ASCII characters [toBytes] writes the two
    hexadecimal digits of every character code, in order. *)
Theorem toBytes_ascii (str : JsString) :
  Forall (λ u, 0 ≤ u < 0x80)%Z str →
  toBytes str = flat_map hex str ∧ length (toBytes str) = 2 * length str.
Proof.
  intros Hall. unfold toBytes, Buffer_from_utf8. rewrite (code_points_ascii str Hall).
  split; [reflexivity|apply Buffer_toString_hex_length].
Qed.

Lemma hex_digit_inj (n m : Z) :
  (0 ≤ n < 16)%Z → (0 ≤ m < 16)%Z → hex_digit n = hex_digit m → n = m.
Proof. unfold hex_digit. intros Hn Hm. repeat case_match; surr; lia. Qed.

Lemma hex_inj (b b' : Z) : is_byte b → is_byte b' → hex b = hex b' → b = b'.
Proof.
  unfold is_byte, hex. intros Hb Hb' [= H1 H2].
  apply hex_digit_inj in H1; [|dlia..]. apply hex_digit_inj in H2; [|dlia..]. dlia.
Qed.

Lemma Buffer_toString_hex_inj (buf buf' : list Z) :
  Forall is_byte buf → Forall is_byte buf' →
  Buffer_toString_hex buf = Buffer_toString_hex buf' → buf = buf'.
Proof.
  unfold Buffer_toString_hex. intros Hb. revert buf'.
  induction Hb as [|b buf Hb _ IH]; intros buf' Hb' E; destruct Hb' as [|b' buf' Hb' Hall'].
  - reflexivity.
  - discriminate E.
  - discriminate E.
  - cbn in E. injection E as E1 E2 E.
    f_equal; [apply hex_inj; [assumption..|unfold hex; congruence]|].
    apply IH; assumption.
Qed.

Lemma utf8_prefix (cp cp' : Z) (r r' : list Z) :
  is_code_point cp → is_code_point cp' →
  utf8 cp ++ r = utf8 cp' ++ r' → cp = cp' ∧ r = r'.
Proof.
  unfold utf8, is_code_point. intros Hcp Hcp'.
  repeat case_match; cbn [app]; intros E; injection E; intros; subst;
    try (exfalso; dlia); (split; [dlia|reflexivity]).
Qed.

Lemma flat_map_utf8_inj (l l' : list Z) :
  Forall is_code_point l → Forall is_code_point l' →
  flat_map utf8 l = flat_map utf8 l' → l = l'.
Proof.
  intros Hl. revert l'.
  induction Hl as [|cp l Hcp _ IH]; intros l' Hl' E; destruct Hl' as [|cp' l' Hcp' Hall'].
  - reflexivity.
  - exfalso. cbn in E. apply (f_equal length) in E. rewrite length_app in E.
    pose proof (utf8_length cp'). cbn in E. lia.
  - exfalso. cbn in E. apply (f_equal length) in E. rewrite length_app in E.
    pose proof (utf8_length cp). cbn in E. lia.
  - cbn in E. apply utf8_prefix in E; [|assumption..]. destruct E as [-> E].
    f_equal. apply IH; assumption.
Qed.

(** The shape of a well-formed string: empty, or a pair of surrogates
    and a well-formed rest, or a unit that is no surrogate and a
    well-formed rest. *)
Lemma isWellFormed_cases (str : JsString) :
  isWellFormed str = true →
  str = [] ∨
  (∃ u v rest, str = u :: v :: rest ∧
     is_high_surrogate u = true ∧ is_low_surrogate v = true ∧ isWellFormed rest = true ∧
     code_points str = (0x10000 + (u - 0xD800) * 0x400 + (v - 0xDC00))%Z :: code_points rest) ∨
  (∃ u rest, str = u :: rest ∧
     is_high_surrogate u = false ∧ is_low_surrogate u = false ∧ isWellFormed rest = true ∧
     code_points str = u :: code_points rest).
Proof.
  destruct str as [|u rest]; [auto|]. intros Hwf. right.
  rewrite code_points_equation. cbn [isWellFormed] in Hwf.
  destruct (is_high_surrogate u) eqn:Hh.
  - destruct rest as [|v rest]; [discriminate Hwf|].
    apply andb_true_iff in Hwf. destruct Hwf as [Hl Hwf]. rewrite Hl.
    left. exists u, v, rest. auto.
  - apply andb_true_iff in Hwf. destruct Hwf as [Hl Hwf].
    apply negb_true_iff in Hl. rewrite Hl. right. exists u, rest. auto.
Qed.

Lemma code_points_inj (a b : JsString) :
  Forall is_code_unit a → Forall is_code_unit b →
  isWellFormed a = true → isWellFormed b = true →
  code_points a = code_points b → a = b.
Proof.
  remember (length a) as n eqn:Hn. revert a b Hn.
  induction n as [n IH] using lt_wf_ind. intros a b Hn Ha Hb Hwa Hwb E.
  destruct (isWellFormed_cases a Hwa)
    as [-> | [(u & v & ra & -> & Hu & Hv & Hra & Ea) | (u & ra & -> & Hu & Hv & Hra & Ea)]];
  destruct (isWellFormed_cases b Hwb)
    as [-> | [(u' & v' & rb & -> & Hu' & Hv' & Hrb & Eb) | (u' & rb & -> & Hu' & Hv' & Hrb & Eb)]];
  rewrite ?Ea, ?Eb in E; try reflexivity; try discriminate E.
  - injection E as E1 E.
    inversion Ha as [|? ? _ Ha1]; inversion Ha1 as [|? ? _ Ha2]; subst.
    inversion Hb as [|? ? _ Hb1]; inversion Hb1 as [|? ? _ Hb2]; subst.
    assert (u = u' ∧ v = v') as [-> ->] by dlia.
    f_equal. f_equal. apply (IH (length ra)); auto; cbn; lia.
  - exfalso. injection E as E1 E.
    inversion Hb as [|? ? Hub _]; subst. dlia.
  - exfalso. injection E as E1 E.
    inversion Ha as [|? ? Hua _]; subst. dlia.
  - injection E as -> E.
    inversion Ha as [|? ? _ Ha1]; inversion Hb as [|? ? _ Hb1]; subst.
    f_equal. apply (IH (length ra)); auto; cbn; lia.
Qed.


(** X17: on well-formed strings (no surrogate outside a pair)
    [toBytes] loses nothing: two well-formed strings with the same bytes
    are the same string. *)
Theorem toBytes_injective (a b : JsString) :
  Forall is_code_unit a → Forall is_code_unit b →
  isWellFormed a = true → isWellFormed b = true →
  toBytes a = toBytes b → a = b.
Proof.
  intros Ha Hb Hwa Hwb E. unfold toBytes in E.
  apply Buffer_toString_hex_inj in E; try (apply Buffer_from_utf8_bytes; assumption).
  apply flat_map_utf8_inj in E; try (apply code_points_range; assumption).
  apply code_points_inj; assumption.
Qed.

(** X18: a surrogate that is not part of a pair (a low surrogate at
    the head, or a high one not followed by a low one) is written as
    [efbfbd], the bytes of U+FFFD: the string gives the same bytes as the
    string with U+FFFD in its place. *)
Theorem toBytes_unpaired_surrogate (u : Z) (rest : JsString) :
  is_low_surrogate u = true ∨
  (is_high_surrogate u = true ∧ from_option is_low_surrogate false (head rest) = false) →
  toBytes (u :: rest) = js_string "efbfbd" ++ toBytes rest ∧
  toBytes (u :: rest) = toBytes (0xFFFD%Z :: rest).
Proof.
  intros Hu.
  assert (E : code_points (u :: rest) = 0xFFFD%Z :: code_points rest).
  { rewrite code_points_equation. destruct Hu as [Hl | [Hh Hn]].
    - assert (Hh : is_high_surrogate u = false) by (surr; unfold is_high_surrogate; lia).
      rewrite Hh, Hl. reflexivity.
    - rewrite Hh. destruct rest as [|v rest]; [reflexivity|].
      cbn in Hn. rewrite Hn. reflexivity. }
  unfold toBytes, Buffer_from_utf8. rewrite E.
  split; reflexivity.
Qed.

Lemma splits_pair_tail (u : Z) (a b : JsString) :
  splits_pair (u :: a) b = false → splits_pair a b = false.
Proof.
  unfold splits_pair. destruct a as [|v a]; [reflexivity|].
  change (last (u :: v :: a)) with (last (v :: a)). auto.
Qed.

Lemma code_points_app (a b : JsString) :
  splits_pair a b = false → code_points (a ++ b) = code_points a ++ code_points b.
Proof.
  functional induction (code_points a); intros Hs.
  - reflexivity.
  - cbn [app]. rewrite code_points_equation, e0, e2. cbn [app]. f_equal.
    apply IHl. apply splits_pair_tail, splits_pair_tail in Hs. exact Hs.
  - cbn [app]. rewrite code_points_equation, e0, e2. cbn [app]. f_equal.
    apply IHl. apply splits_pair_tail in Hs. exact Hs.
  - cbn [app]. rewrite code_points_equation, e0.
    destruct b as [|v b]; [reflexivity|].
    unfold splits_pair in Hs. cbn in Hs. rewrite e0 in Hs. cbn in Hs. rewrite Hs.
    reflexivity.
  - cbn [app]. rewrite code_points_equation, e0, e1. cbn [app]. f_equal.
    apply IHl. apply splits_pair_tail in Hs. exact Hs.
  - cbn [app]. rewrite code_points_equation, e0, e1. cbn [app]. f_equal.
    apply IHl. apply splits_pair_tail in Hs. exact Hs.
Qed.

Lemma flat_map_length_app {A B} (f : A → list B) (l l' : list A) :
  length (flat_map f (l ++ l')) = length (flat_map f l) + length (flat_map f l').
Proof. rewrite flat_map_app, length_app. reflexivity. Qed.

(** X19: [toBytes] of a concatenation is the concatenation of the
    results, unless the cut separates a high surrogate from the low one
    after it; then the two parts together give four digits more than the
    whole. *)
Theorem toBytes_app (a b : JsString) :
  (splits_pair a b = false → toBytes (a ++ b) = toBytes a ++ toBytes b) ∧
  (splits_pair a b = true →
     length (toBytes a ++ toBytes b) = length (toBytes (a ++ b)) + 4).
Proof.
  split; intros Hs.
  - unfold toBytes, Buffer_from_utf8, Buffer_toString_hex.
    rewrite (code_points_app a b Hs), !flat_map_app. reflexivity.
  - unfold splits_pair in Hs.
    destruct (last a) as [u|] eqn:Hlast; [|discriminate Hs].
    destruct b as [|v b]; [discriminate Hs|]. cbn [head] in Hs.
    apply andb_true_iff in Hs. destruct Hs as [Hu Hv].
    apply last_Some in Hlast. destruct Hlast as [a' ->].
    assert (Hul : is_low_surrogate u = false) by (surr; unfold is_low_surrogate; lia).
    assert (Hvh : is_high_surrogate v = false) by (surr; unfold is_high_surrogate; lia).
    assert (E1 : code_points (a' ++ [u]) = code_points a' ++ [0xFFFD%Z]).
    { rewrite code_points_app.
      - rewrite (code_points_equation [u]), Hu. reflexivity.
      - unfold splits_pair. destruct (last a'); [|reflexivity].
        cbn. rewrite Hul. apply andb_false_r. }
    assert (E2 : code_points (v :: b) = 0xFFFD%Z :: code_points b).
    { rewrite code_points_equation, Hvh, Hv. reflexivity. }
    assert (E3 : code_points ((a' ++ [u]) ++ v :: b) =
                 code_points a' ++
                 (0x10000 + (u - 0xD800) * 0x400 + (v - 0xDC00))%Z :: code_points b).
    { rewrite <- app_assoc. cbn [app]. rewrite code_points_app.
      - rewrite (code_points_equation (u :: v :: b)), Hu, Hv. reflexivity.
      - unfold splits_pair. destruct (last a'); [|reflexivity].
        cbn. rewrite Hul. apply andb_false_r. }
    assert (E4 : length (utf8 (0x10000 + (u - 0xD800) * 0x400 + (v - 0xDC00))) = 4).
    { unfold utf8. repeat case_match; surr; try lia. reflexivity. }
    unfold toBytes, Buffer_from_utf8.
    rewrite length_app, !Buffer_toString_hex_length, E1, E2, E3.
    rewrite !flat_map_length_app. cbn [flat_map]. rewrite !length_app, E4.
    change (length (utf8 65533)) with 3. cbn [length]. lia.
Qed.

(** ** [toBytes] at some strings *)

(** X15 at the string [tz1]. *)
Lemma toBytes_hex_witness :
  Forall is_code_unit (js_string "tz1") ∧
  Forall is_hex_digit (toBytes (js_string "tz1")) ∧
  length (toBytes (js_string "tz1")) = 6.
Proof.
  assert (Hu : Forall is_code_unit (js_string "tz1")).
  { change (js_string "tz1") with [116; 122; 49]%Z.
    repeat (constructor; [unfold is_code_unit; lia|]); constructor. }
  destruct (toBytes_hex (js_string "tz1") Hu) as (Hd & Hl & _).
  split; [exact Hu|]. split; [exact Hd|]. rewrite Hl. reflexivity.
Defined.

(** X16 at the string [tz1]. *)
Lemma toBytes_ascii_witness :
  Forall (λ u, 0 ≤ u < 0x80)%Z (js_string "tz1") ∧
  toBytes (js_string "tz1") = js_string "747a31".
Proof.
  assert (Hu : Forall (λ u, 0 ≤ u < 0x80)%Z (js_string "tz1")).
  { change (js_string "tz1") with [116; 122; 49]%Z.
    repeat (constructor; [lia|]); constructor. }
  split; [exact Hu|]. rewrite (proj1 (toBytes_ascii (js_string "tz1") Hu)). reflexivity.
Defined.

(** X17 at a letter with an accent and a pair of surrogates. *)
Lemma toBytes_injective_witness :
  isWellFormed [0xE9; 0xD83D; 0xDE00]%Z = true ∧
  (toBytes [0xE9; 0xD83D; 0xDE00]%Z = toBytes [0xE9; 0xD83D; 0xDE00]%Z →
   [0xE9; 0xD83D; 0xDE00]%Z = [0xE9; 0xD83D; 0xDE00]%Z).
Proof.
  assert (Hu : Forall is_code_unit [0xE9; 0xD83D; 0xDE00]%Z)
    by (repeat (constructor; [unfold is_code_unit; lia|]); constructor).
  split; [reflexivity|].
  exact (toBytes_injective _ _ Hu Hu eq_refl eq_refl).
Defined.

(** X18 at a high surrogate followed by a letter. *)
Lemma toBytes_unpaired_surrogate_witness :
  is_high_surrogate 0xD800 = true ∧
  toBytes [0xD800; 0x41]%Z = js_string "efbfbd41" ∧
  toBytes [0xD800; 0x41]%Z = toBytes [0xFFFD; 0x41]%Z.
Proof.
  destruct (toBytes_unpaired_surrogate 0xD800 [0x41]%Z) as [H1 H2].
  { right. split; reflexivity. }
  split; [reflexivity|]. split; [rewrite H1; reflexivity|exact H2].
Defined.

(** X19 at a pair of surrogates, cut in the middle and after. *)
Lemma toBytes_app_witness :
  toBytes ([0xD83D; 0xDE00] ++ [0x41])%Z = toBytes [0xD83D; 0xDE00]%Z ++ toBytes [0x41]%Z ∧
  length (toBytes [0xD83D]%Z ++ toBytes [0xDE00]%Z) =
    length (toBytes ([0xD83D] ++ [0xDE00])%Z) + 4.
Proof.
  split.
  - exact (proj1 (toBytes_app [0xD83D; 0xDE00]%Z [0x41]%Z) eq_refl).
  - exact (proj2 (toBytes_app [0xD83D]%Z [0xDE00]%Z) eq_refl).
Defined.

(** * Concrete runs

    The theorems applied to the contract [Foo] in the small world of
    [Demo]. *)

Section Runs.

Import Demo.

#[local] Existing Instance types.
#[local] Existing Instance collaborators.

Ltac compute_eq := vm_compute; reflexivity.

Lemma classified_edited (env : option string) (autoCompile works : bool) :
  classified "Foo" (st_edited env autoCompile works) "v2" build_v1 INVALID_HASH.
Proof. repeat split. Qed.

(** C1 at [Foo], edited after the build: with the override, with
    [autoCompile] off, and with [autoCompile] on and a working compiler. *)
Lemma validateContract_invalid_hash_witness :
  (classified "Foo" (st_edited (Some "true") false true) "v2" build_v1 INVALID_HASH ∧
   process_env_USE_OLD_BUILD (world (st_edited (Some "true") false true)) = Some "true" ∧
   fst (validateContract "Foo" (st_edited (Some "true") false true)) =
     parse_outcome "Foo" build_v1 ∧
   parse_outcome "Foo" build_v1 = Ok (CCode ["[v1]"])) ∧
  (classified "Foo" (st_edited None false true) "v2" build_v1 INVALID_HASH ∧
   fst (validateContract "Foo" (st_edited None false true)) =
     Throw (Error (msg_outdated "Foo"))) ∧
  (classified "Foo" (st_edited None true true) "v2" build_v1 INVALID_HASH ∧
   fst (validateContract "Foo" (st_edited None true true)) = parse_outcome "Foo" build_v1 ∧
   count_events is_compile
     ((classification_events "Foo" "v2" build_v1 ++ [EEnvUseOldBuild]
         ++ config_events (st_edited None true true) ++ [ECompile "Foo"])
        ++ [EJSONParse (build_michelson build_v1)]) = 1 ∧
   world (snd (validateContract "Foo" (st_edited None true true))) =
     snd (compile "Foo" (world (st_edited None true true)))).
Proof.
  split; [|split].
  - pose proof (validateContract_invalid_hash "Foo" _ "v2" build_v1
                  (classified_edited (Some "true") false true)) as H.
    cbv zeta in H. destruct H as (Ha & _ & _).
    split; [apply classified_edited|]. split; [reflexivity|].
    split; [exact (proj1 (Ha eq_refl))|compute_eq].
  - pose proof (validateContract_invalid_hash "Foo" _ "v2" build_v1
                  (classified_edited None false true)) as H.
    cbv zeta in H. destruct H as (_ & Hb & _).
    split; [apply classified_edited|].
    refine (proj1 (Hb (mkConfig false) _ eq_refl eq_refl)). discriminate.
  - pose proof (validateContract_invalid_hash "Foo" _ "v2" build_v1
                  (classified_edited None true true)) as H.
    cbv zeta in H. destruct H as (_ & _ & Hc).
    split; [apply classified_edited|].
    assert (Henv : process_env_USE_OLD_BUILD (world (st_edited None true true)) ≠ Some "true")
      by discriminate.
    destruct (Hc (mkConfig true) Henv eq_refl eq_refl) as (_ & Hw & _ & Hm).
    assert (Hco : fst (compile "Foo" (world (st_edited None true true))) = inr tt)
      by reflexivity.
    rewrite Hco in Hm. destruct Hm as (Hr & _ & H1 & _).
    split; [exact Hr|]. split; [exact H1|exact Hw].
Defined.

(** C2 at [Foo]: a failing call (no Michelson) leaves the sentinel and
    the next call throws again; a successful one caches the code, the
    next call returns it from the cache, and so does a call made after
    [Foo] was deployed and another contract looked up; a call on a build
    file whose payload is [null] returns and stores [null], and the next
    call starts again. *)
Lemma checked_contracts_cache_witness :
  (fst (validateContract "Foo" st_no_michelson) = Throw (Error (msg_michelson_missing "Foo")) ∧
   checked_entry "Foo" (snd (validateContract "Foo" st_no_michelson)) = Some CFalse ∧
   fst (validateContract "Foo" (snd (validateContract "Foo" st_no_michelson))) =
     Throw (Error (msg_michelson_missing "Foo"))) ∧
  (checked_entry "Foo" (snd (validateContract "Foo" st_valid)) = Some (CCode ["[v1]"]) ∧
   validateContract "Foo" (snd (validateContract "Foo" st_valid)) =
     (Ok (CCode ["[v1]"]), snd (validateContract "Foo" st_valid)) ∧
   fst (validateContract "Foo"
          (after_calls [CallDeploy "Foo" "st" (Some bob); CallValidate "Bar"]
                       (snd (validateContract "Foo" st_valid)))) =
     Ok (CCode ["[v1]"])) ∧
  (fst (validateContract "Foo" st_null) = Ok (CFalsy JNull) ∧
   checked_entry "Foo" (snd (validateContract "Foo" st_null)) = Some (CFalsy JNull) ∧
   ∃ evs,
     trace (snd (validateContract "Foo" (snd (validateContract "Foo" st_null)))) =
       trace (snd (validateContract "Foo" st_null))
         ++ EGetContractFile "Foo" :: EExists (bundle_getContractFile "Foo") :: evs).
Proof.
  assert (H1 : fst (validateContract "Foo" st_no_michelson) =
               Throw (Error (msg_michelson_missing "Foo"))) by compute_eq.
  assert (H2 : fst (validateContract "Foo" st_valid) = Ok (CCode ["[v1]"])) by compute_eq.
  assert (H3 : fst (validateContract "Foo" st_null) = Ok (CFalsy JNull)) by compute_eq.
  split; [|split].
  - pose proof (checked_contracts_cache "Foo" st_no_michelson) as H.
    cbv zeta in H. destruct H as (_ & _ & _ & Hfail & _).
    destruct (Hfail _ H1) as (He & _ & Hagain).
    split; [exact H1|]. split; [exact He|]. apply Hagain. compute_eq.
  - pose proof (checked_contracts_cache "Foo" st_valid) as H.
    cbv zeta in H. destruct H as (Hsucc & _).
    assert (He := proj2 (Hsucc _) H2).
    split; [exact He|].
    pose proof (checked_contracts_cache "Foo" (snd (validateContract "Foo" st_valid))) as H.
    cbv zeta in H. destruct H as (_ & _ & _ & _ & Hhit & _ & Hlater).
    split; [exact (Hhit _ He)|].
    exact (f_equal fst (Hlater _ _ He)).
  - pose proof (checked_contracts_cache "Foo" st_null) as H.
    cbv zeta in H. destruct H as (_ & Hret & _).
    destruct (Hret _ H3) as (He & Hagain).
    split; [exact H3|]. split; [exact He|]. exact (Hagain eq_refl).
Defined.

(** C2 as the specification words it does not hold at [Foo] with a
    build file whose payload is [null]: the call succeeds and the entry
    then holds [null], a value that is not [false]; the next call does
    not return from the cache but reads the build file again. *)
Lemma null_entry_is_read_again :
  classified "Foo" st_null "v1" build_null BuildValid ∧
  fst (validateContract "Foo" st_null) = Ok (CFalsy JNull) ∧
  checked_entry "Foo" (snd (validateContract "Foo" st_null)) = Some (CFalsy JNull) ∧
  CFalsy JNull ≠ CFalse (T := types) ∧
  count_events is_readBuildFile (trace (snd (validateContract "Foo" st_null))) = 1 ∧
  count_events is_readBuildFile
    (trace (snd (validateContract "Foo" (snd (validateContract "Foo" st_null))))) = 2.
Proof.
  split; [repeat split|]. split; [compute_eq|]. split; [compute_eq|].
  split; [discriminate|]. split; compute_eq.
Qed.

(** C4 at [Foo], registered at an address the chain knows and at one
    it does not. *)
Lemma deployContract_registered_address_witness :
  (deployed_entry "Foo" st_registered = Some "KT1old" ∧ "KT1old" ≠ "" ∧
   ∃ evs,
     trace (snd (deployContract "Foo" "st" (Some bob) st_registered)) =
       trace st_registered ++ evs ∧
     count_events is_origination_step evs = 0 ∧
     count_events is_validation evs = 0 ∧
     (fst (_setSigner (tezosDefaultSigner st_registered) st_registered) = Ok tt →
      count_events is_contract_at evs = 1 ∧ EContractAt "KT1old" ∈ evs)) ∧
  (deployed_entry "Foo" st_registered_lost = Some "KT1gone" ∧ "KT1gone" ≠ "" ∧
   fst (deployContract "Foo" "st" None st_registered_lost) =
     Throw (Error (msg_access "Foo" "KT1gone"
                     (mkError "HttpResponseError" "contract not found")))).
Proof.
  assert (Hne : ∀ a s, String a s ≠ "") by discriminate.
  split.
  - pose proof (deployContract_registered_address "Foo" "st" (Some bob) st_registered
                  "KT1old" eq_refl (Hne _ _)) as H.
    cbv zeta in H. destruct H as (_ & _ & Hev & _).
    split; [reflexivity|]. split; [apply Hne|]. exact Hev.
  - pose proof (deployContract_registered_address "Foo" "st" None st_registered_lost
                  "KT1gone" eq_refl (Hne _ _)) as H.
    cbv zeta in H. destruct H as (_ & Hok & _).
    split; [reflexivity|]. split; [apply Hne|].
    exact (proj1 (Hok eq_refl)).
Defined.

(** C4 as the specification words it does not hold at [Foo] with the
    empty string as its entry in the registry: the entry is there before
    the call, and the call fetches nothing, validates [Foo] and
    originates it. *)
Lemma empty_entry_is_redeployed :
  tezosDeployedContracts st_registered_empty ≫= (.!! "Foo") = Some "" ∧
  fst (deployContract "Foo" "st" None st_registered_empty) = Ok "KT1st" ∧
  count_events is_contract_at
    (trace (snd (deployContract "Foo" "st" None st_registered_empty))) = 0 ∧
  count_events is_isBuildValid
    (trace (snd (deployContract "Foo" "st" None st_registered_empty))) = 1 ∧
  count_events is_originate
    (trace (snd (deployContract "Foo" "st" None st_registered_empty))) = 1.
Proof.
  split; [reflexivity|]. split; [compute_eq|]. split; [compute_eq|]. split; compute_eq.
Qed.

(** C5 as the specification words it does not hold at [Foo] built from
    [old/Foo.ligo]: the message carries the path recorded in the build
    file and not the path that was checked. *)
Lemma path_mismatch_message_omits_checked_path :
  classified "Foo" st_elsewhere "v1" build_elsewhere INVALID_SOURCE_PATH ∧
  bundle_getContractFile "Foo" = "contracts/Foo.ligo" ∧
  ∃ e, fst (validateContract "Foo" st_elsewhere) = Throw e ∧
       includes (build_sourcePath build_elsewhere) (err_message e) = true ∧
       includes (bundle_getContractFile "Foo") (err_message e) = false.
Proof.
  split; [repeat split|]. split; [reflexivity|].
  eexists. split; [compute_eq|]. split; compute_eq.
Qed.

(** C5 (amended) at [Foo] built from [old/Foo.ligo]. *)
Lemma validateContract_invalid_source_path_witness :
  classified "Foo" st_elsewhere "v1" build_elsewhere INVALID_SOURCE_PATH ∧
  validateContract "Foo" st_elsewhere =
    (Throw (Error (msg_different_source "Foo" "old/Foo.ligo")),
     with_events (classification_events "Foo" "v1" build_elsewhere)
                 (sentinel_written "Foo" st_elsewhere)).
Proof.
  assert (H : classified "Foo" st_elsewhere "v1" build_elsewhere INVALID_SOURCE_PATH)
    by (repeat split).
  split; [exact H|].
  exact (proj1 (validateContract_invalid_source_path "Foo" st_elsewhere "v1" build_elsewhere H)).
Defined.

(** C6 at [Foo] built without Michelson. *)
Lemma validateContract_michelson_missing_witness :
  classified "Foo" st_no_michelson "v1" build_empty MICHELSON_MISSING ∧
  validateContract "Foo" st_no_michelson =
    (Throw (Error (msg_michelson_missing "Foo")),
     with_events (classification_events "Foo" "v1" build_empty)
                 (sentinel_written "Foo" st_no_michelson)).
Proof.
  assert (H : classified "Foo" st_no_michelson "v1" build_empty MICHELSON_MISSING)
    by (repeat split).
  split; [exact H|].
  exact (proj1 (validateContract_michelson_missing "Foo" st_no_michelson "v1" build_empty H)).
Defined.

(** C7 at [Foo] without a source, and with a source and no build file. *)
Lemma validateContract_preconditions_first_witness :
  (truthy (checked_entry "Foo" st_no_source) = false ∧
   bundle_exists (bundle_getContractFile "Foo") (world st_no_source) = false ∧
   validateContract "Foo" st_no_source =
     (Throw (Error (msg_doesnt_exist "Foo")),
      with_events [EGetContractFile "Foo"; EExists (bundle_getContractFile "Foo")]
                  (sentinel_written "Foo" st_no_source))) ∧
  (truthy (checked_entry "Foo" st_no_build) = false ∧
   bundle_exists (bundle_getContractFile "Foo") (world st_no_build) = true ∧
   bundle_buildFileExists "Foo" (world st_no_build) = false ∧
   validateContract "Foo" st_no_build =
     (Throw (Error (msg_never_compiled "Foo")),
      with_events [EGetContractFile "Foo"; EExists (bundle_getContractFile "Foo");
                   EBuildFileExists "Foo"]
                  (sentinel_written "Foo" st_no_build))).
Proof.
  split.
  - split; [reflexivity|]. split; [reflexivity|].
    exact (proj1 (validateContract_preconditions_first "Foo" st_no_source eq_refl) eq_refl).
  - split; [reflexivity|]. split; [reflexivity|]. split; [reflexivity|].
    exact (proj1 (proj2 (validateContract_preconditions_first "Foo" st_no_build eq_refl))
             eq_refl eq_refl).
Defined.

(** C8 at [Foo] whose payload does not parse. *)
Lemma validateContract_malformed_payload_witness :
  trace (snd (validateContract "Foo" st_broken)) =
    trace st_broken ++ classification_events "Foo" "v1" build_broken ++ [EJSONParse "v1]"] ∧
  JSON_parse "v1]" =
    inl (mkError "SyntaxError" "Unexpected token in JSON at position 0") ∧
  classified "Foo" st_broken "v1" build_broken BuildValid ∧
  fst (validateContract "Foo" st_broken) =
    Throw (Error (msg_parse "Foo"
                    (mkError "SyntaxError" "Unexpected token in JSON at position 0"))) ∧
  checked_entry "Foo" (snd (validateContract "Foo" st_broken)) = Some CFalse.
Proof.
  assert (Ht : trace (snd (validateContract "Foo" st_broken)) =
               trace st_broken ++ classification_events "Foo" "v1" build_broken
                 ++ [EJSONParse "v1]"]) by compute_eq.
  assert (Hin : EJSONParse "v1]" ∈
                classification_events "Foo" "v1" build_broken ++ [EJSONParse "v1]"]).
  { apply elem_of_app. right. apply list_elem_of_here. }
  pose proof (validateContract_malformed_payload "Foo" st_broken
                (mkError "SyntaxError" "Unexpected token in JSON at position 0")) as H.
  cbv zeta in H. destruct H as (Hev & _).
  destruct (Hev _ "v1]" Ht Hin eq_refl) as (Hr & He).
  split; [exact Ht|]. split; [reflexivity|]. split; [repeat split|].
  split; [exact Hr|exact He].
Defined.

(** C9 at [Foo]: deployed twice, the registry stays empty and the
    second call originates again. *)
Lemma deployContract_registry_unchanged_witness :
  truthy_str (deployed_entry "Foo" st_valid) = false ∧
  fst (deployContract "Foo" "st" None st_valid) = Ok "KT1st" ∧
  tezosDeployedContracts (snd (deployContract "Foo" "st" None st_valid)) =
    tezosDeployedContracts st_valid ∧
  ∃ code post,
    trace (snd (deployContract "Foo" "again" (Some bob)
                  (snd (deployContract "Foo" "st" None st_valid)))) =
      trace (snd (deployContract "Foo" "st" None st_valid))
        ++ EReadConfigFile :: EOriginate code "again" :: post.
Proof.
  assert (Hr : fst (deployContract "Foo" "st" None st_valid) = Ok "KT1st") by compute_eq.
  pose proof (deployContract_registry_unchanged "Foo" "st" None st_valid) as H.
  cbv zeta in H. destruct H as (Hreg & Hnext).
  split; [reflexivity|]. split; [exact Hr|]. split; [exact Hreg|].
  destruct (Hnext eq_refl _ Hr) as (code & _ & _ & Hagain).
  assert (Hcfg : bundle_readConfigFile (world (snd (deployContract "Foo" "st" None st_valid))) =
                 inr (mkConfig true)) by compute_eq.
  destruct (Hagain "again" (Some bob) _ Hcfg) as (post & Ht & _).
  exists code, post. exact Ht.
Defined.

(** C10 at [Foo], edited to [v2] and recompiled by the call: the build
    file on disk now holds [v2], the call returns the code of [v1]. *)
Lemma validateContract_parses_the_build_read_before_witness :
  classified "Foo" (st_edited None true true) "v2" build_v1 INVALID_HASH ∧
  fst (handleOutdatedBuildfile "Foo"
         (with_events (classification_events "Foo" "v2" build_v1)
                      (sentinel_written "Foo" (st_edited None true true)))) = Ok tt ∧
  fst (validateContract "Foo" (st_edited None true true)) = parse_outcome "Foo" build_v1 ∧
  parse_outcome "Foo" build_v1 = Ok (CCode ["[v1]"]) ∧
  bundle_readBuildFile "Foo" (world (snd (validateContract "Foo" (st_edited None true true)))) =
    inr (mkBuildFile "contracts/Foo.ligo" "#v2" "[v2]").
Proof.
  assert (Hh : handleOutdatedBuildfile "Foo"
                 (with_events (classification_events "Foo" "v2" build_v1)
                              (sentinel_written "Foo" (st_edited None true true))) =
               (Ok tt,
                snd (handleOutdatedBuildfile "Foo"
                       (with_events (classification_events "Foo" "v2" build_v1)
                                    (sentinel_written "Foo" (st_edited None true true))))))
    by compute_eq.
  pose proof (validateContract_parses_the_build_read_before "Foo" _ "v2" build_v1 _
                (classified_edited None true true) Hh) as H.
  cbv zeta in H. destruct H as (_ & Hr & _).
  split; [apply classified_edited|]. split; [compute_eq|]. split; [exact Hr|].
  split; compute_eq.
Defined.

(** C3 at [Foo]: the default signer is [alice] and the caller passes
    [bob]; the contract is originated with [alice] as the signer of the
    client, [Tezos.setProvider] is called once, for [alice], and [bob]
    is never set. *)
Theorem deployContract_supplied_signer_not_set :
  tezosDefaultSigner st_valid = alice ∧ alice ≠ bob ∧
  fst (deployContract "Foo" "st" (Some bob) st_valid) = Ok "KT1st" ∧
  Tezos_signer (snd (deployContract "Foo" "st" (Some bob) st_valid)) = Some alice ∧
  trace (snd (deployContract "Foo" "st" (Some bob) st_valid)) =
    [ESetProvider alice; EReadConfigFile]
      ++ classification_events "Foo" "v1" build_v1
      ++ [EJSONParse "[v1]"; EOriginate ["[v1]"] "st"; EOpContract "KT1st"] ∧
  deployContract "Foo" "st" (Some bob) st_valid = deployContract "Foo" "st" None st_valid.
Proof.
  split; [reflexivity|]. split; [discriminate|].
  split; [compute_eq|]. split; [compute_eq|]. split; [compute_eq|].
  apply deployContract_ignores_signer.
Qed.

(** ** The further properties at [Foo] *)

(** X1 at [Foo], unchanged since the build. *)
Lemma validateContract_valid_build_witness :
  classified "Foo" st_valid "v1" build_v1 BuildValid ∧
  fst (validateContract "Foo" st_valid) = Ok (CCode ["[v1]"]) ∧
  checked_entry "Foo" (snd (validateContract "Foo" st_valid)) = Some (CCode ["[v1]"]) ∧
  world (snd (validateContract "Foo" st_valid)) = world st_valid.
Proof.
  assert (Hcl : classified "Foo" st_valid "v1" build_v1 BuildValid) by (repeat split).
  pose proof (validateContract_valid_build "Foo" st_valid "v1" build_v1 Hcl) as H.
  cbv zeta in H. destruct H as (_ & _ & _ & _ & _ & Hw & _ & Hcode).
  split; [exact Hcl|].
  pose proof (Hcode (@CCode types ["[v1]"]) eq_refl) as [Hr He]. auto.
Defined.

(** X2 at [Foo] when its source file cannot be read. *)
Lemma validateContract_unreadable_files_witness :
  truthy (checked_entry "Foo" st_valid) = false ∧
  @bundle_exists types collaborators_locked
    (@bundle_getContractFile types collaborators_locked "Foo") (world st_valid) = true ∧
  @bundle_buildFileExists types collaborators_locked "Foo" (world st_valid) = true ∧
  @bundle_readContract types collaborators_locked "Foo" (world st_valid) = inl EACCES ∧
  fst (@validateContract types collaborators_locked "Foo" st_valid) = Throw EACCES ∧
  checked_entry "Foo" (snd (@validateContract types collaborators_locked "Foo" st_valid)) =
    Some CFalse.
Proof.
  pose proof (@validateContract_unreadable_files types collaborators_locked "Foo" st_valid
                eq_refl eq_refl eq_refl) as (Hsrc & _ & Hsent).
  pose proof (f_equal fst (Hsrc EACCES eq_refl)) as Hr. cbn [fst] in Hr.
  split; [reflexivity|]. split; [reflexivity|]. split; [reflexivity|]. split; [reflexivity|].
  split; [exact Hr|]. exact (Hsent _ Hr).
Defined.

(** X6 at [Foo]: the first deployment installs [alice], the default
    signer, and she stays through a second deployment that names
    [bob]. *)
Lemma signer_set_once_per_run_witness :
  isSignerSet st_valid = false ∧
  fst (signer_answer (tezosDefaultSigner st_valid) (world st_valid)) = inr tt ∧
  Tezos_signer
    (after_calls [CallDeploy "Foo" "st" (Some bob); CallDeploy "Foo" "st2" (Some bob);
                  CallValidate "Foo"] st_valid) = Some alice ∧
  isSignerSet (snd (deployContract "Foo" "st" None st_valid)) = true ∧
  Tezos_signer
    (after_calls [CallDeploy "Foo" "st2" (Some bob)]
       (snd (deployContract "Foo" "st" None st_valid))) =
    Tezos_signer (snd (deployContract "Foo" "st" None st_valid)).
Proof.
  pose proof (@signer_set_once_per_run types collaborators
                [CallDeploy "Foo" "st2" (Some bob); CallValidate "Foo"] st_valid)
    as [_ Hfirst].
  specialize (Hfirst "Foo" "st" (Some bob) eq_refl eq_refl).
  cbv zeta in Hfirst. destruct Hfirst as (_ & Hts & _).
  assert (Hset : isSignerSet (snd (deployContract "Foo" "st" None st_valid)) = true)
    by compute_eq.
  pose proof (@signer_set_once_per_run types collaborators
                [CallDeploy "Foo" "st2" (Some bob)]
                (snd (deployContract "Foo" "st" None st_valid))) as [Hlatch _].
  destruct (Hlatch Hset) as (_ & Hsame & _).
  split; [reflexivity|]. split; [reflexivity|]. split; [exact Hts|].
  split; [exact Hset|exact Hsame].
Defined.

(** X8 at [Foo], registered with the empty string. *)
Lemma deployContract_empty_address_witness :
  deployed_entry "Foo" st_registered_empty = Some "" ∧
  ∃ sevs evs,
    trace (snd (deployContract "Foo" "st" None st_registered_empty)) =
      trace st_registered_empty ++ sevs ++ evs ∧
    Forall (λ e, is_signer_step e = true) sevs ∧
    count_events is_contract_at (sevs ++ evs) = 0 ∧
    (fst (_setSigner (tezosDefaultSigner st_registered_empty) st_registered_empty) = Ok tt →
     ∃ rest, evs = EReadConfigFile :: rest).
Proof.
  split; [reflexivity|].
  exact (deployContract_empty_address "Foo" "st" None st_registered_empty eq_refl).
Defined.

(** X9 at [Foo]: with the faucet account [carol] as default signer
    and a key import that installs the signer and is then refused, and
    with a default signer whose key cannot be read. *)
Lemma deployContract_signer_setup_fails_witness :
  (isSignerSet st_faucet = false ∧
   @signer_answer types collaborators_no_key (tezosDefaultSigner st_faucet)
     (world st_faucet) = (inl refused, world st_faucet) ∧
   fst (@deployContract types collaborators_no_key "Foo" "st" None st_faucet) =
     Throw refused ∧
   isSignerSet (snd (@deployContract types collaborators_no_key "Foo" "st" None st_faucet)) =
     false ∧
   Tezos_signer (snd (@deployContract types collaborators_no_key "Foo" "st" None st_faucet)) =
     Some carol) ∧
  (isSignerSet st_bad_key = false ∧
   signer_answer (tezosDefaultSigner st_bad_key) (world st_bad_key) =
     (inl (mkError "Error" "Unsupported key type"), world st_bad_key) ∧
   fst (deployContract "Foo" "st" None st_bad_key) =
     Throw (mkError "Error" "Unsupported key type") ∧
   Tezos_signer (snd (deployContract "Foo" "st" None st_bad_key)) = None).
Proof.
  split.
  - pose proof (@deployContract_signer_setup_fails types collaborators_no_key
                  "Foo" "st" None st_faucet refused (world st_faucet) eq_refl eq_refl) as H.
    cbv zeta in H. destruct H as (Hr & Hflag & _).
    split; [reflexivity|]. split; [reflexivity|].
    rewrite Hr. split; [reflexivity|]. split; [exact Hflag|reflexivity].
  - pose proof (deployContract_signer_setup_fails "Foo" "st" None st_bad_key
                  (mkError "Error" "Unsupported key type") (world st_bad_key)
                  eq_refl eq_refl) as H.
    cbv zeta in H. destruct H as (Hr & _).
    split; [reflexivity|]. split; [reflexivity|].
    rewrite Hr. split; reflexivity.
Defined.

(** X10 at [Foo]: the configuration memoized by a first validation is
    still there after a deployment and another validation. *)
Lemma config_loaded_once_witness :
  config (snd (validateContract "Foo" (st_edited None false true))) = Some (mkConfig false) ∧
  config (after_calls [CallDeploy "Foo" "st" None; CallValidate "Foo"]
            (snd (validateContract "Foo" (st_edited None false true)))) =
    Some (mkConfig false).
Proof.
  assert (Hc : config (snd (validateContract "Foo" (st_edited None false true))) =
               Some (mkConfig false)) by compute_eq.
  split; [exact Hc|].
  exact (proj1 (@config_loaded_once types collaborators
                  [CallDeploy "Foo" "st" None; CallValidate "Foo"] _ _ Hc)).
Defined.

(** X11 at [Foo]: a deployment without a configuration file, one
    that goes through, and one of a build file whose payload is
    [null]. *)
Lemma deployContract_fresh_composition_witness :
  (fst (_setSigner (tezosDefaultSigner st_no_source) st_no_source) = Ok tt ∧
   truthy_str (deployed_entry "Foo" st_no_source) = false ∧
   fst (deployContract "Foo" "st" None st_no_source) = Throw ENOENT) ∧
  (fst (_setSigner (tezosDefaultSigner st_valid) st_valid) = Ok tt ∧
   truthy_str (deployed_entry "Foo" st_valid) = false ∧
   deployContract "Foo" "st" None st_valid =
     originate "Foo" ["[v1]"] "st"
       (snd (validateContract "Foo"
               (with_events [EReadConfigFile]
                  (snd (_setSigner (tezosDefaultSigner st_valid) st_valid)))))) ∧
  (fst (_setSigner (tezosDefaultSigner st_null) st_null) = Ok tt ∧
   truthy_str (deployed_entry "Foo" st_null) = false ∧
   fst (validateContract "Foo"
          (with_events [EReadConfigFile]
             (snd (_setSigner (tezosDefaultSigner st_null) st_null)))) =
     Ok (CFalsy JNull) ∧
   fst (deployContract "Foo" "st" None st_null) = Throw (Error (msg_unable "Foo"))).
Proof.
  split; [|split].
  - pose proof (deployContract_fresh_composition "Foo" "st" None st_no_source
                  eq_refl eq_refl) as H.
    cbv zeta in H. destruct H as (Hcfg & _).
    split; [reflexivity|]. split; [reflexivity|].
    rewrite (Hcfg ENOENT eq_refl). reflexivity.
  - pose proof (deployContract_fresh_composition "Foo" "st" None st_valid
                  eq_refl eq_refl) as H.
    cbv zeta in H. destruct H as (_ & _ & Hok & _).
    split; [reflexivity|]. split; [reflexivity|].
    assert (Hv : validateContract "Foo"
                   (with_events [EReadConfigFile]
                      (snd (_setSigner (tezosDefaultSigner st_valid) st_valid))) =
                 (Ok (CCode ["[v1]"]),
                  snd (validateContract "Foo"
                         (with_events [EReadConfigFile]
                            (snd (_setSigner (tezosDefaultSigner st_valid) st_valid))))))
      by compute_eq.
    exact (Hok (mkConfig true) _ _ eq_refl Hv).
  - pose proof (deployContract_fresh_composition "Foo" "st" None st_null
                  eq_refl eq_refl) as H.
    cbv zeta in H. destruct H as (_ & _ & _ & Hfalsy).
    split; [reflexivity|]. split; [reflexivity|].
    assert (Hv : validateContract "Foo"
                   (with_events [EReadConfigFile]
                      (snd (_setSigner (tezosDefaultSigner st_null) st_null))) =
                 (Ok (CFalsy JNull),
                  snd (validateContract "Foo"
                         (with_events [EReadConfigFile]
                            (snd (_setSigner (tezosDefaultSigner st_null) st_null))))))
      by compute_eq.
    split; [exact (f_equal fst Hv)|].
    exact (f_equal fst (Hfalsy (mkConfig true) _ _ eq_refl Hv eq_refl)).
Defined.

(** X12 at [Foo], unchanged since the build, and edited with
    [autoCompile] on. *)
Lemma deployContract_config_read_not_kept_witness :
  (fst (_setSigner (tezosDefaultSigner st_valid) st_valid) = Ok tt ∧
   truthy_str (deployed_entry "Foo" st_valid) = false ∧
   config (snd (deployContract "Foo" "st" None st_valid)) = None) ∧
  (fst (_setSigner (tezosDefaultSigner (st_edited None true true))
          (st_edited None true true)) = Ok tt ∧
   truthy_str (deployed_entry "Foo" (st_edited None true true)) = false ∧
   config (snd (deployContract "Foo" "st" None (st_edited None true true))) =
     Some (mkConfig true)).
Proof.
  split.
  - pose proof (deployContract_config_read_not_kept "Foo" "st" None st_valid (mkConfig true)
                  eq_refl eq_refl eq_refl) as (sevs & evs & _ & _ & Hkeep & _).
    split; [reflexivity|]. split; [reflexivity|].
    refine (proj1 (Hkeep _)). right. exists "v1", build_v1. repeat split.
  - pose proof (deployContract_config_read_not_kept "Foo" "st" None
                  (st_edited None true true) (mkConfig true) eq_refl eq_refl eq_refl)
      as (sevs & evs & _ & _ & _ & Hre).
    split; [reflexivity|]. split; [reflexivity|].
    refine (proj1 (Hre "v2" build_v1 _ _ eq_refl)); [repeat split|discriminate].
Defined.

(** X13 at [Foo]: an origination the chain refuses (empty storage). *)
Lemma deployContract_origination_witness :
  fst (_setSigner (tezosDefaultSigner st_valid) st_valid) = Ok tt ∧
  truthy_str (deployed_entry "Foo" st_valid) = false ∧
  fst (deployContract "Foo" "" None st_valid) =
    Throw (Error (msg_deploy "Foo" (mkError "Error" "invalid storage"))) ∧
  checked_entry "Foo" (snd (deployContract "Foo" "" None st_valid)) = Some (CCode ["[v1]"]).
Proof.
  assert (Hv : validateContract "Foo"
                 (with_events [EReadConfigFile]
                    (snd (_setSigner (tezosDefaultSigner st_valid) st_valid))) =
               (Ok (CCode ["[v1]"]),
                snd (validateContract "Foo"
                       (with_events [EReadConfigFile]
                          (snd (_setSigner (tezosDefaultSigner st_valid) st_valid))))))
    by compute_eq.
  pose proof (deployContract_origination "Foo" "" None st_valid (mkConfig true) _ _
                eq_refl eq_refl eq_refl Hv) as H.
  cbv zeta in H. destruct H as (Hfail & _ & _ & He & _).
  split; [reflexivity|]. split; [reflexivity|].
  split; [|exact He].
  refine (proj1 (Hfail (mkError "Error" "invalid storage") _ _)). compute_eq.
Defined.

End Runs.
